(** * Orders and recurring subscriptions: a shallow embedding of
      [server/graphql/v1/mutations/orders.js]

    The mutations of the orders module are embedded as functions in a state
    and exception monad over the persistent store.  Every definition names the
    source function it follows; the collaborators that live outside of the
    module (payment provider, GitHub client, user and payment method models)
    are fields of one record of the section. *)

From Stdlib Require Import ZArith Ascii String List Bool Lia.
From stdpp Require Import base option decidable list strings pretty gmap fin_maps.

Local Open Scope string_scope.
Local Open Scope list_scope.
Local Open Scope Z_scope.

(** ** Errors

    [Error] is JavaScript's [Error], [TypeError] what a property access on
    [null] or [undefined] raises, the three others are the classes of
    [graphql/errors] the module throws. *)

Inductive error : Type :=
  | Error (message : string)
  | TypeError (message : string)
  | ValidationFailed (message : string)
  | Unauthorized (message : string)
  | NotFound (message : string).

(** ** The monad: a store that survives an exception *)

Module Eff.

Definition M (S A : Type) : Type := S -> S * (error + A).

Definition ret {S A} (a : A) : M S A := fun s => (s, inr a).

Definition bind {S A B} (m : M S A) (k : A -> M S B) : M S B :=
  fun s => match m s with
           | (s', inr a) => k a s'
           | (s', inl e) => (s', inl e)
           end.

Definition throw {S A} (e : error) : M S A := fun s => (s, inl e).

Definition get {S} : M S S := fun s => (s, inr s).

Definition gets {S A} (f : S -> A) : M S A := fun s => (s, inr (f s)).

Definition modify {S} (f : S -> S) : M S unit := fun s => (f s, inr tt).

(** [if (c) throw e;] *)
Definition throwIf {S} (c : bool) (e : error) : M S unit :=
  if c then throw e else ret tt.

(** [try { m } catch (error) { h error }] *)
Definition tryCatch {S A} (m : M S A) (h : error -> M S A) : M S A :=
  fun s => match m s with
           | (s', inl e) => h e s'
           | r => r
           end.

(** Runs a computation over a component of a larger state. *)
Definition zoom {S T A} (proj : T -> S) (upd : S -> T -> T) (m : M S A) : M T A :=
  fun t => match m (proj t) with
           | (s', r) => (upd s' t, r)
           end.

End Eff.

Import Eff.

Declare Scope eff_scope.
Delimit Scope eff_scope with eff.
Notation "'let*' x ':=' m 'in' k" := (bind m (fun x => k))
  (at level 10, x pattern, m at level 100, k at level 200) : eff_scope.
Notation "m ';;;' k" := (bind m (fun _ => k))
  (at level 100, k at level 200, right associativity) : eff_scope.
Local Open Scope eff_scope.

(** ** JavaScript truthiness of the optional fields of the inputs *)

Definition truthyZ (v : option Z) : bool :=
  match v with Some n => negb (n =? 0) | None => false end.

Definition truthyS (v : option string) : bool :=
  match v with Some s => negb (String.eqb s "") | None => false end.

(** The value of a field when it is truthy. *)
Definition definedZ (v : option Z) : option Z :=
  match v with Some n => if n =? 0 then None else Some n | None => None end.

Definition definedS (v : option string) : option string :=
  match v with Some s => if String.eqb s "" then None else Some s | None => None end.

(** [a > b] where [a] may be [undefined] ([undefined > b] is [false]). *)
Definition gtZ (a : option Z) (b : Z) : bool :=
  match a with Some n => b <? n | None => false end.

(** ** Constants *)

(** [constants/order_status] *)
Inductive order_status : Type := PENDING | PAID | ACTIVE | CANCELLED | ERROR.

(** [constants/roles] *)
Inductive role : Type := ADMIN | HOST | MEMBER | BACKER | ATTENDEE | FUNDRAISER.

(** [constants/activities], the two types this module emits. *)
Inductive activity_type : Type := TICKET_CONFIRMED | SUBSCRIPTION_CANCELED.

(** [constants/collectives], [types] *)
Inductive collective_type : Type := COLLECTIVE | EVENT | ORGANIZATION | USER.

#[global] Instance order_status_eq_dec : EqDecision order_status.
Proof. solve_decision. Defined.
#[global] Instance role_eq_dec : EqDecision role.
Proof. solve_decision. Defined.
#[global] Instance activity_type_eq_dec : EqDecision activity_type.
Proof. solve_decision. Defined.
#[global] Instance collective_type_eq_dec : EqDecision collective_type.
Proof. solve_decision. Defined.

Definition oneHourInSeconds : Z := 60 * 60.

(** ** Inputs of the mutations (the GraphQL input objects) *)

(** [order.collective] *)
Record CollectiveInput : Type := mkCollectiveInput {
  ci_id : option Z;
  ci_website : option string;
  ci_githubHandle : option string;
  ci_name : option string
}.

(** [order.fromCollective] *)
Record FromCollectiveInput : Type := mkFromCollectiveInput {
  fi_id : option Z;
  fi_name : option string
}.

(** [order.user] *)
Record UserInput : Type := mkUserInput {
  ui_email : option string;
  ui_name : option string
}.

(** [order.paymentMethod] *)
Record PaymentMethodInput : Type := mkPaymentMethodInput {
  pi_service : option string;
  pi_type : option string;
  pi_uuid : option string;
  pi_token : option string;
  pi_save : bool;
  pi_CollectiveId : option Z
}.

(** The [order] argument of [createOrder] and [updateOrder]. *)
Record OrderInput : Type := mkOrderInput {
  oi_id : option Z;
  oi_collective : option CollectiveInput;
  oi_fromCollective : option FromCollectiveInput;
  oi_user : option UserInput;
  oi_paymentMethod : option PaymentMethodInput;
  oi_tier : option (option Z);       (* [order.tier], with its [id] *)
  oi_totalAmount : option Z;
  oi_quantity : option Z;
  oi_currency : option string;
  oi_interval : option string;
  oi_description : option string;
  oi_publicMessage : option string;
  oi_privateMessage : option string;
  oi_platformFeePercent : option Z;
  oi_hostFeePercent : option Z;
  oi_matchingFund : option string;
  oi_referral : option Z;            (* [order.referral.id] *)
  oi_recaptchaToken : option string
}.

(** The [args] of [updateSubscription]. *)
Record SubscriptionArgs : Type := mkSubscriptionArgs {
  sa_id : Z;
  sa_paymentMethod : option PaymentMethodInput;
  sa_amount : option Z
}.

(** ** Rows and model instances *)

Record Collective : Type := mkCollective {
  c_id : Z;
  c_type : collective_type;
  c_isActive : bool;
  c_name : string;
  c_slug : string;
  c_currency : string;
  c_HostCollectiveId : option Z     (* what [getHostCollectiveId()] resolves to *)
}.

Record Tier : Type := mkTier {
  t_id : Z;
  t_name : option string;
  t_amount : option Z;
  t_currency : option string;
  t_presets : bool;                  (* whether [tier.presets] is set *)
  t_maxQuantityPerUser : option Z
}.

(** A user object with the methods the module calls on it. *)
Record User : Type := mkUser {
  u_id : Z;
  u_CollectiveId : Z;
  u_isRoot : bool;
  u_isAdmin : option Z -> bool;
  u_hasRole : list role -> Z -> bool
}.

Record PaymentMethod : Type := mkPaymentMethod {
  pm_id : Z;
  pm_CollectiveId : option Z
}.

Record SubscriptionRow : Type := mkSubscriptionRow {
  s_amount : option Z;
  s_currency : option string;
  s_interval : option string;
  s_isActive : bool;
  s_nextChargeDate : option Z;
  s_chargeRetryCount : Z;
  s_activatedAt : option Z;
  s_deactivatedAt : option Z;
  s_updatedAt : option Z
}.

(** A loaded Subscription: its primary key and its [dataValues]. *)
Record Subscription : Type := mkSubscription {
  sub_id : Z;
  sub_row : SubscriptionRow
}.

Record OrderRow : Type := mkOrderRow {
  CreatedByUserId : Z;
  FromCollectiveId : Z;
  CollectiveId : Z;
  TierId : option Z;
  quantity : Z;
  totalAmount : option Z;
  currency : string;
  interval : option string;
  description : string;
  publicMessage : option string;
  privateMessage : option string;
  processedAt : option Z;
  MatchingPaymentMethodId : option Z;
  data_reqIp : option string;
  data_recaptchaResponse : option string;
  status : order_status;
  ReferralCollectiveId : option Z;
  SubscriptionId : option Z;
  PaymentMethodId : option Z;
  updatedAt : option Z
}.

(** A loaded Order: primary key, [dataValues], the included associations and
    the attributes the module sets on the object without saving them. *)
Record Order : Type := mkOrder {
  id : Z;
  row : OrderRow;
  Subscription_ : option Subscription;
  collective : option Collective;
  fromCollective : option Collective;
  paymentMethod : option PaymentMethodInput;
  matchingFund : option PaymentMethod
}.

Record Member : Type := mkMember {
  m_CreatedByUserId : Z;
  m_MemberCollectiveId : Z;
  m_CollectiveId : Z;
  m_role : role
}.

(** The [data] of an activity record. *)
Inductive ActivityData : Type :=
  | TicketData (EventCollectiveId UserId : Z) (recipient : string)
               (order : Order) (tier : option Tier)
  | SubscriptionData (subscription : Subscription) (collective : Collective)
                     (user : User) (fromCollective : Collective).

Record Activity : Type := mkActivity {
  a_type : activity_type;
  a_CollectiveId : option Z;
  a_UserId : option Z;
  a_data : ActivityData
}.

(** Field updates, as [instance.update({...})] and [Object.assign] write them. *)

Definition set_status (v : order_status) (r : OrderRow) : OrderRow :=
  mkOrderRow (CreatedByUserId r) (FromCollectiveId r) (CollectiveId r) (TierId r)
    (quantity r) (totalAmount r) (currency r) (interval r) (description r)
    (publicMessage r) (privateMessage r) (processedAt r) (MatchingPaymentMethodId r)
    (data_reqIp r) (data_recaptchaResponse r) v (ReferralCollectiveId r)
    (SubscriptionId r) (PaymentMethodId r) (updatedAt r).

Definition set_processedAt (v : option Z) (r : OrderRow) : OrderRow :=
  mkOrderRow (CreatedByUserId r) (FromCollectiveId r) (CollectiveId r) (TierId r)
    (quantity r) (totalAmount r) (currency r) (interval r) (description r)
    (publicMessage r) (privateMessage r) v (MatchingPaymentMethodId r)
    (data_reqIp r) (data_recaptchaResponse r) (status r) (ReferralCollectiveId r)
    (SubscriptionId r) (PaymentMethodId r) (updatedAt r).

Definition set_SubscriptionId (v : option Z) (r : OrderRow) : OrderRow :=
  mkOrderRow (CreatedByUserId r) (FromCollectiveId r) (CollectiveId r) (TierId r)
    (quantity r) (totalAmount r) (currency r) (interval r) (description r)
    (publicMessage r) (privateMessage r) (processedAt r) (MatchingPaymentMethodId r)
    (data_reqIp r) (data_recaptchaResponse r) (status r) (ReferralCollectiveId r)
    v (PaymentMethodId r) (updatedAt r).

Definition set_PaymentMethodId (v : option Z) (r : OrderRow) : OrderRow :=
  mkOrderRow (CreatedByUserId r) (FromCollectiveId r) (CollectiveId r) (TierId r)
    (quantity r) (totalAmount r) (currency r) (interval r) (description r)
    (publicMessage r) (privateMessage r) (processedAt r) (MatchingPaymentMethodId r)
    (data_reqIp r) (data_recaptchaResponse r) (status r) (ReferralCollectiveId r)
    (SubscriptionId r) v (updatedAt r).

Definition set_totalAmount (v : option Z) (r : OrderRow) : OrderRow :=
  mkOrderRow (CreatedByUserId r) (FromCollectiveId r) (CollectiveId r) (TierId r)
    (quantity r) v (currency r) (interval r) (description r)
    (publicMessage r) (privateMessage r) (processedAt r) (MatchingPaymentMethodId r)
    (data_reqIp r) (data_recaptchaResponse r) (status r) (ReferralCollectiveId r)
    (SubscriptionId r) (PaymentMethodId r) (updatedAt r).

Definition set_updatedAt (v : option Z) (r : OrderRow) : OrderRow :=
  mkOrderRow (CreatedByUserId r) (FromCollectiveId r) (CollectiveId r) (TierId r)
    (quantity r) (totalAmount r) (currency r) (interval r) (description r)
    (publicMessage r) (privateMessage r) (processedAt r) (MatchingPaymentMethodId r)
    (data_reqIp r) (data_recaptchaResponse r) (status r) (ReferralCollectiveId r)
    (SubscriptionId r) (PaymentMethodId r) v.

Definition set_interval (v : option string) (r : OrderRow) : OrderRow :=
  mkOrderRow (CreatedByUserId r) (FromCollectiveId r) (CollectiveId r) (TierId r)
    (quantity r) (totalAmount r) (currency r) v (description r)
    (publicMessage r) (privateMessage r) (processedAt r) (MatchingPaymentMethodId r)
    (data_reqIp r) (data_recaptchaResponse r) (status r) (ReferralCollectiveId r)
    (SubscriptionId r) (PaymentMethodId r) (updatedAt r).

(** [Object.assign(instance.dataValues, ...)] on a loaded order. *)
Definition on_row (f : OrderRow -> OrderRow) (o : Order) : Order :=
  mkOrder (id o) (f (row o)) (Subscription_ o) (collective o) (fromCollective o)
    (paymentMethod o) (matchingFund o).

Definition set_paymentMethod (v : option PaymentMethodInput) (o : Order) : Order :=
  mkOrder (id o) (row o) (Subscription_ o) (collective o) (fromCollective o)
    v (matchingFund o).

Definition set_matchingFund (v : option PaymentMethod) (o : Order) : Order :=
  mkOrder (id o) (row o) (Subscription_ o) (collective o) (fromCollective o)
    (paymentMethod o) v.

Definition set_Subscription (v : option Subscription) (o : Order) : Order :=
  mkOrder (id o) (row o) v (collective o) (fromCollective o)
    (paymentMethod o) (matchingFund o).

Definition set_isActive (v : bool) (r : SubscriptionRow) : SubscriptionRow :=
  mkSubscriptionRow (s_amount r) (s_currency r) (s_interval r) v (s_nextChargeDate r)
    (s_chargeRetryCount r) (s_activatedAt r) (s_deactivatedAt r) (s_updatedAt r).

Definition set_deactivatedAt (v : option Z) (r : SubscriptionRow) : SubscriptionRow :=
  mkSubscriptionRow (s_amount r) (s_currency r) (s_interval r) (s_isActive r)
    (s_nextChargeDate r) (s_chargeRetryCount r) (s_activatedAt r) v (s_updatedAt r).

Definition set_retry (next : option Z) (count : Z) (r : SubscriptionRow) : SubscriptionRow :=
  mkSubscriptionRow (s_amount r) (s_currency r) (s_interval r) (s_isActive r)
    next count (s_activatedAt r) (s_deactivatedAt r) (s_updatedAt r).

Definition on_sub_row (f : SubscriptionRow -> SubscriptionRow) (s : Subscription) : Subscription :=
  mkSubscription (sub_id s) (f (sub_row s)).

(** ** The store

    The tables the module reads and writes, the counters of the rate limiter
    and [ext], the state of what stays outside (users, payment methods,
    provider).  [World] adds the log of the calls made to the payment
    library. *)

Inductive Call : Type :=
  | CallSetPaymentMethod (orderId : Z)
  | CallExecuteOrder (orderId : Z).

Record Store (Ext : Type) : Type := mkStore {
  cache : gmap string Z;
  Collectives : gmap Z Collective;
  Tiers : gmap Z Tier;
  Orders : gmap Z OrderRow;
  Subscriptions : gmap Z SubscriptionRow;
  Members : list Member;
  Activities : list Activity;
  ext : Ext
}.
Arguments mkStore {Ext}.
Arguments cache {Ext}.
Arguments Collectives {Ext}.
Arguments Tiers {Ext}.
Arguments Orders {Ext}.
Arguments Subscriptions {Ext}.
Arguments Members {Ext}.
Arguments Activities {Ext}.
Arguments ext {Ext}.

Record World (Ext : Type) : Type := mkWorld {
  db : Store Ext;
  calls : list Call
}.
Arguments mkWorld {Ext}.
Arguments db {Ext}.
Arguments calls {Ext}.

(** ** Configuration and collaborators *)

(** [config.limits.ordersPerHour] *)
Record OrdersLimits : Type := mkOrdersLimits {
  perAccount : Z;
  perAccountForCollective : Z;
  perEmail : Z;
  perEmailForCollective : Z;
  perIp : Z
}.

(** What the GitHub client returns about a repository. *)
Record Repo : Type := mkRepo { stargazers_count : Z }.

(** The environment of a call: process environment, configuration, clock, and
    the functions of the libraries and models the module imports.  A function
    that changes the object it is given returns the changed object next to the
    store, also when it fails. *)
Record Env (Ext : Type) : Type := mkEnv {
  NODE_ENV : option string;
  ordersLimits : OrdersLimits;
  now : Z;
  md5 : string -> string;
  capitalize : string -> string;
  pluralize : string -> Z -> string;
  recaptcha_verify : string -> option string -> error + option string;
  github_getRepo : string -> option Repo;
  github_getOrg : string -> option unit;
  github_getAllOrganizationPublicRepos : string -> option (list Repo);
  Collective_findOrCreate :
    bool -> string -> CollectiveInput -> M (Store Ext) (option Collective);
  Collective_createOrganization :
    option FromCollectiveInput -> option User -> option User -> M (Store Ext) Collective;
  Tier_checkAvailableQuantity : Tier -> option Z -> M (Store Ext) bool;
  User_findByEmailOrPaypalEmail : string -> M (Store Ext) (option User);
  User_createUserWithCollective :
    UserInput -> option string -> option Z -> M (Store Ext) User;
  PaymentMethod_getMatchingFund : string -> Z -> M (Store Ext) (option PaymentMethod);
  PaymentMethod_canBeUsedForOrder :
    PaymentMethod -> OrderInput -> option User -> M (Store Ext) bool;
  Order_setPaymentMethod :
    Order -> option PaymentMethodInput -> Store Ext -> Store Ext * Order * option error;
  libPayments_executeOrder :
    User -> Order -> option Z * option Z -> Store Ext -> Store Ext * Order * option error;
  PaymentMethod_findOne : string -> M Ext (option PaymentMethod);
  PaymentMethod_createFromStripeSourceToken : PaymentMethodInput -> M Ext PaymentMethod;
  getNextChargeAndPeriodStartDates : Order -> option Z;
  getChargeRetryCount : Order -> Z
}.
Arguments NODE_ENV {Ext}.
Arguments ordersLimits {Ext}.
Arguments now {Ext}.
Arguments md5 {Ext}.
Arguments capitalize {Ext}.
Arguments pluralize {Ext}.
Arguments recaptcha_verify {Ext}.
Arguments github_getRepo {Ext}.
Arguments github_getOrg {Ext}.
Arguments github_getAllOrganizationPublicRepos {Ext}.
Arguments Collective_findOrCreate {Ext}.
Arguments Collective_createOrganization {Ext}.
Arguments Tier_checkAvailableQuantity {Ext}.
Arguments User_findByEmailOrPaypalEmail {Ext}.
Arguments User_createUserWithCollective {Ext}.
Arguments PaymentMethod_getMatchingFund {Ext}.
Arguments PaymentMethod_canBeUsedForOrder {Ext}.
Arguments Order_setPaymentMethod {Ext}.
Arguments libPayments_executeOrder {Ext}.
Arguments PaymentMethod_findOne {Ext}.
Arguments PaymentMethod_createFromStripeSourceToken {Ext}.
Arguments getNextChargeAndPeriodStartDates {Ext}.
Arguments getChargeRetryCount {Ext}.

(** ** Store operations *)

Section Persistence.
Context {Ext : Type}.

Definition with_cache (f : gmap string Z -> gmap string Z) (s : Store Ext) : Store Ext :=
  mkStore (f (cache s)) (Collectives s) (Tiers s) (Orders s) (Subscriptions s)
    (Members s) (Activities s) (ext s).

Definition with_Orders (f : gmap Z OrderRow -> gmap Z OrderRow) (s : Store Ext) : Store Ext :=
  mkStore (cache s) (Collectives s) (Tiers s) (f (Orders s)) (Subscriptions s)
    (Members s) (Activities s) (ext s).

Definition with_Subscriptions (f : gmap Z SubscriptionRow -> gmap Z SubscriptionRow)
    (s : Store Ext) : Store Ext :=
  mkStore (cache s) (Collectives s) (Tiers s) (Orders s) (f (Subscriptions s))
    (Members s) (Activities s) (ext s).

Definition with_Members (f : list Member -> list Member) (s : Store Ext) : Store Ext :=
  mkStore (cache s) (Collectives s) (Tiers s) (Orders s) (Subscriptions s)
    (f (Members s)) (Activities s) (ext s).

Definition with_Activities (f : list Activity -> list Activity) (s : Store Ext) : Store Ext :=
  mkStore (cache s) (Collectives s) (Tiers s) (Orders s) (Subscriptions s)
    (Members s) (f (Activities s)) (ext s).

Definition with_ext (x : Ext) (s : Store Ext) : Store Ext :=
  mkStore (cache s) (Collectives s) (Tiers s) (Orders s) (Subscriptions s)
    (Members s) (Activities s) x.

Definition with_db (s : Store Ext) (w : World Ext) : World Ext := mkWorld s (calls w).

(** A store operation as a step of a mutation. *)
Definition inDb {A} (m : M (Store Ext) A) : M (World Ext) A := zoom db with_db m.

(** An operation of the models kept outside, as a step of a mutation. *)
Definition inExt {A} (m : M Ext A) : M (World Ext) A := inDb (zoom ext with_ext m).

Definition logCall (c : Call) : M (World Ext) unit :=
  modify (fun w => mkWorld (db w) (calls w ++ [c])%list).

(** Modelled from the spec: the rate limiter's counters, "an injected
    key-value capability"; [lib/cache] is not part of the sources.  One
    window is modelled: an entry stays until it is overwritten. *)
Definition cache_get (key : string) : M (World Ext) (option Z) :=
  inDb (gets (fun s => cache s !! key)).

Definition cache_set (key : string) (value : Z) (expirationInSeconds : Z) : M (World Ext) unit :=
  inDb (modify (with_cache (<[key := value]>))).

End Persistence.

(** The counter of a key: [(await cache.get(key)) || 0]. *)
Definition counter {Ext} (w : World Ext) (k : string) : Z := default 0 (cache (db w) !! k).

(** The world once the counter of a key has been written back, one higher. *)
Definition bump {Ext} (w : World Ext) (k : string) : World Ext :=
  mkWorld (mkStore (<[k := counter w k + 1]> (cache (db w))) (Collectives (db w))
             (Tiers (db w)) (Orders (db w)) (Subscriptions (db w)) (Members (db w))
             (Activities (db w)) (ext (db w)))
          (calls w).

(** ** The rate limiter: [checkOrdersLimit] (lines 27-92) *)

Record Limit : Type := mkLimit { key : string; value : Z }.

(** After [j] attempts the counters of a list of limits stand as follows: a
    key has been checked [j] times as long as no key before it has a threshold
    below [j]. *)
Fixpoint counted {Ext} (j : Z) (w : World Ext) (limits : list Limit) : Prop :=
  match limits with
  | [] => True
  | l :: rest => counter w (key l) = j /\ (j <= value l -> counted j w rest)
  end.

Definition limitMessage : string :=
  "Error while processing your request, please try again or contact support@opencollective.com".

Section RateLimiter.
Context {Ext : Type} (E : Env Ext).

(** [['circleci', 'test'].includes(process.env.NODE_ENV)] *)
Definition testEnvironment : bool :=
  match NODE_ENV E with
  | Some e => String.eqb e "circleci" || String.eqb e "test"
  | None => false
  end.

(** The error thrown when a limit is reached (lines 82-89). *)
Definition limitError : error :=
  match NODE_ENV E with
  | Some "development" => Error (limitMessage +:+ " - Orders limit reached")
  | _ => Error limitMessage
  end.

(** Lines 32-73: the keys to check and their thresholds. *)
Definition orderLimits (order : OrderInput) (reqIp : option string) : list Limit :=
  let ordersLimits := ordersLimits E in
  let collectiveId := oi_collective order ≫= ci_id in
  let fromCollectiveId := oi_fromCollective order ≫= fi_id in
  let userEmail := oi_user order ≫= ui_email in
  match definedZ fromCollectiveId with
  | Some fromCollectiveId =>
      (* Limit on authenticated users *)
      mkLimit ("order_limit_on_account_" +:+ pretty fromCollectiveId)
              (perAccount ordersLimits)
      :: match definedZ collectiveId with
         | Some collectiveId =>
             [mkLimit ("order_limit_on_account_" +:+ pretty fromCollectiveId
                         +:+ "_and_collective_" +:+ pretty collectiveId)
                      (perAccountForCollective ordersLimits)]
         | None => []
         end
  | None =>
      (* Limit on first time users *)
      match definedS userEmail with
      | Some userEmail =>
          let emailHash := md5 E userEmail in
          mkLimit ("order_limit_on_email_" +:+ emailHash) (perEmail ordersLimits)
          :: match definedZ collectiveId with
             | Some collectiveId =>
                 [mkLimit ("order_limit_on_email_" +:+ emailHash
                             +:+ "_and_collective_" +:+ pretty collectiveId)
                          (perEmailForCollective ordersLimits)]
             | None => []
             end
      | None => []
      end
      (* Limit on IPs *)
      ++ match definedS reqIp with
         | Some reqIp => [mkLimit ("order_limit_on_ip_" +:+ md5 E reqIp) (perIp ordersLimits)]
         | None => []
         end
  end.

(** Lines 75-91: the loop over the limits.  [cache.set] is started before
    the test of [limitReached], so the counter is written on both paths. *)
Fixpoint checkLimits (limits : list Limit) : M (World Ext) unit :=
  match limits with
  | [] => ret tt
  | limit :: rest =>
      let* cached := cache_get (key limit) in
      let count := default 0 cached in
      let limitReached := value limit <=? count in
      cache_set (key limit) (count + 1) oneHourInSeconds ;;;
      throwIf limitReached limitError ;;;
      checkLimits rest
  end.

Definition checkOrdersLimit (order : OrderInput) (remoteUser : option User)
    (reqIp : option string) : M (World Ext) unit :=
  if testEnvironment then ret tt
  else checkLimits (orderLimits order reqIp).

(** The world after [n] calls of [checkOrdersLimit] with the same
    arguments, whatever their outcomes. *)
Fixpoint attempts (n : nat) (order : OrderInput) (remoteUser : option User)
    (reqIp : option string) (w : World Ext) : World Ext :=
  match n with
  | O => w
  | S n => fst (checkOrdersLimit order remoteUser reqIp (attempts n order remoteUser reqIp w))
  end.

End RateLimiter.

(** ** Persistence of orders, subscriptions, roles and activity records *)

Section Models.
Context {Ext : Type}.

(** A step that changes a loaded order: the new store, the changed object
    and the error if the step failed. *)
Definition OrderStep : Type := Store Ext -> Store Ext * Order * option error.

(** Modelled from the spec: [models.Order.create], "create" of the
    persistence repository; [models/Order] is not part of the sources.  The
    row gets a primary key that is not in use. *)
Definition Order_create (orderData : OrderRow) : M (Store Ext) Order :=
  fun s =>
    let i := fresh (dom (Orders s)) in
    (with_Orders (<[i := orderData]>) s, inr (mkOrder i orderData None None None None None)).

(** Modelled from the spec: [order.update(values)] and [order.save()],
    "update" of the persistence repository: the values are set on the object
    and written to its row. *)
Definition Order_update (values : OrderRow -> OrderRow) (o : Order) : OrderStep :=
  fun s => (with_Orders (alter values (id o)) s, on_row values o, None).

(** Modelled from the spec: [models.Order.findByPk], "find-by-id". *)
Definition Order_findByPk (i : Z) : M (Store Ext) (option Order) :=
  gets (fun s => (fun r => mkOrder i r None None None None None) <$> Orders s !! i).

Definition Subscription_load (s : Store Ext) (i : Z) : option Subscription :=
  mkSubscription i <$> Subscriptions s !! i.

(** Modelled from the spec: [models.Order.findOne({ where: { id }, include })]
    with the Subscription and the two collectives included. *)
Definition Order_findOne (i : option Z) : M (Store Ext) (option Order) :=
  gets (fun s =>
    i ≫= fun i =>
    (fun r => mkOrder i r
                (SubscriptionId r ≫= Subscription_load s)
                (Collectives s !! CollectiveId r)
                (Collectives s !! FromCollectiveId r)
                None None) <$> Orders s !! i).

(** Modelled from the spec: [order.reload()], "reload": the row is read
    again; the attributes that are not columns stay.  A row that is gone
    makes the reload fail. *)
Definition Order_reload (o : Order) : M (Store Ext) Order :=
  fun s => match Orders s !! id o with
           | Some r => (s, inr (on_row (fun _ => r) o))
           | None => (s, inl (Error "Instance could not be reloaded because it does not exist anymore"))
           end.

(** Modelled from the spec: [models.Subscription.create]. *)
Definition Subscription_create (values : SubscriptionRow) : M (Store Ext) Subscription :=
  fun s =>
    let i := fresh (dom (Subscriptions s)) in
    (with_Subscriptions (<[i := values]>) s, inr (mkSubscription i values)).

(** Modelled from the spec: [subscription.update(values)]. *)
Definition Subscription_update (values : SubscriptionRow -> SubscriptionRow)
    (sub : Subscription) : M (Store Ext) Subscription :=
  fun s => (with_Subscriptions (alter values (sub_id sub)) s, inr (on_sub_row values sub)).

(** Modelled from the spec: [subscription.deactivate()], "deactivates the
    Subscription": the active flag is cleared, the deactivation time is set,
    and both are saved. *)
Definition Subscription_deactivate (now : Z) (sub : Subscription) : M (Store Ext) Subscription :=
  Subscription_update (fun r => set_deactivatedAt (Some now) (set_isActive false r)) sub.

(** Modelled from the spec: [collective.addUserWithRole(user, role)],
    the grant of a role on the collective. *)
Definition addUserWithRole (c : Collective) (userId userCollectiveId : Z) (r : role)
    : M (Store Ext) unit :=
  modify (with_Members (fun ms => (ms ++ [mkMember userId userCollectiveId (c_id c) r])%list)).

(** Modelled from the spec: [models.Activity.create], the emission of an
    activity record. *)
Definition Activity_create (a : Activity) : M (Store Ext) unit :=
  modify (with_Activities (fun l => (l ++ [a])%list)).

(** [loaders.collective.findById.load(id)] *)
Definition loadCollective (i : Z) : M (Store Ext) (option Collective) :=
  gets (fun s => Collectives s !! i).

(** [models.Tier.findByPk(id)] *)
Definition Tier_findByPk (i : option Z) : M (Store Ext) (option Tier) :=
  gets (fun s => i ≫= fun i => Tiers s !! i).

(** *** Local variables of a [try] block *)

Definition Locals : Type := World Ext * option Order.

Definition inW {A} (m : M (World Ext) A) : M Locals A :=
  zoom fst (fun w l => (w, snd l)) m.

Definition getLocal : M Locals (option Order) := gets snd.

Definition setLocal (o : Order) : M Locals unit := modify (fun l => (fst l, Some o)).

(** Runs a step on the order held by the local variable; the variable sees
    the changes the step made, whether it fails or not. *)
Definition mutating (step : OrderStep) : M Locals Order :=
  fun l =>
    match step (db (fst l)) with
    | (s', o', r) =>
        ((with_db s' (fst l), Some o'),
         match r with Some e => inl e | None => inr o' end)
    end.

(** Runs a block with a local variable, which goes out of scope at the end. *)
Definition scoped {A} (m : M Locals A) : M (World Ext) A :=
  fun w => match m (w, None) with (l, r) => (fst l, r) end.

(** The same steps where no [catch] block looks at the object. *)
Definition stepW (step : OrderStep) : M (World Ext) Order :=
  fun w =>
    match step (db w) with
    | (s', o', r) => (with_db s' w, match r with Some e => inl e | None => inr o' end)
    end.

End Models.
Arguments Locals Ext : clear implicits.
Arguments OrderStep Ext : clear implicits.

(** ** [checkRecaptcha] (lines 94-116) *)

Section Recaptcha.
Context {Ext : Type} (E : Env Ext).

Definition checkRecaptcha (order : OrderInput) (remoteUser : option User)
    (reqIp : option string) : M (World Ext) (option string) :=
  if testEnvironment E then ret None
  else
    match definedS (oi_recaptchaToken order) with
    | None =>
        (* Fail if Recaptcha is required *)
        match remoteUser with
        | None => throw (Error "Error while processing your request (Recaptcha token missing), please try again or contact support@opencollective.com")
        | Some _ => ret None
        end
    | Some token =>
        match recaptcha_verify E token reqIp with
        | inl e => throw e
        | inr response => ret response
        end
    end.

End Recaptcha.

(** ** [createOrder] (lines 118-431) *)

(** [s.includes(c)] for a one-character [c]. *)
Fixpoint includes (c : Ascii.ascii) (s : string) : bool :=
  match s with
  | EmptyString => false
  | String a rest => Ascii.eqb a c || includes c rest
  end.

(** [a === b] on an optional string and a literal. *)
Definition isS (a : option string) (b : string) : bool :=
  match a with Some s => String.eqb s b | None => false end.

Definition typeName (t : collective_type) : string :=
  match t with
  | COLLECTIVE => "collective"
  | EVENT => "event"
  | ORGANIZATION => "organization"
  | USER => "user"
  end.

(** What the validation part of [createOrder] has resolved when the order
    data is built (the local variables in scope at line 343). *)
Record Draft : Type := mkDraft {
  d_collective : Collective;
  d_tier : option Tier;
  d_paymentRequired : bool;
  d_user : option User;
  d_fromCollective : Collective;
  d_matchingFund : option PaymentMethod;
  d_referral : option Z;
  d_currency : string;
  d_quantity : Z;
  d_totalAmount : option Z;
  d_defaultDescription : string
}.

Section CreateOrder.
Context {Ext : Type} (E : Env Ext).

(** Line 218 *)
Definition paymentRequired (order : OrderInput) (tier : option Tier)
    (collective : Collective) : bool :=
  (gtZ (oi_totalAmount order) 0
   || match tier with Some tier => gtZ (t_amount tier) 0 | None => false end)
  && c_isActive collective.

(** Lines 222-223: no usable payment method reference. *)
Definition missingPaymentMethod (pm : option PaymentMethodInput) : bool :=
  match pm with
  | None => true
  | Some pm => negb (truthyS (pi_uuid pm) || truthyS (pi_token pm) || isS (pi_type pm) "manual")
  end.

(** Lines 123-125 *)
Definition checkPaymentMethodOnFile (order : OrderInput) (remoteUser : option User)
    : M (World Ext) unit :=
  throwIf
    (match oi_paymentMethod order with
     | Some pm => isS (pi_service pm) "stripe" && truthyS (pi_uuid pm)
                  && negb (bool_decide (is_Some remoteUser))
     | None => false
     end)
    (Error "You need to be logged in to be able to use a payment method on file").

(** Lines 127-137 *)
Definition checkCollectiveInput (order : OrderInput) : M (World Ext) CollectiveInput :=
  match oi_collective order with
  | None => throw (Error "No collective id/website/githubHandle provided")
  | Some c =>
      throwIf (negb (truthyZ (ci_id c)) && negb (truthyS (ci_website c))
               && negb (truthyS (ci_githubHandle c)))
              (Error "No collective id/website/githubHandle provided") ;;;
      throwIf (negb (truthyZ (ci_id c)) && negb (truthyS (ci_githubHandle c)))
              (ValidationFailed "An Open Collective id or a GitHub handle is mandatory.") ;;;
      ret c
  end.

(** Lines 139-170: pledge to a GitHub organization or project.  A rejected
    promise of the client is turned into [null] by [.catch(() => null)]. *)
Definition checkGithubHandle (githubHandle : option string) : M (World Ext) unit :=
  match definedS githubHandle with
  | None => ret tt
  | Some githubHandle =>
      if includes "/"%char githubHandle then
        (* A repository GitHub Handle (most common) *)
        match github_getRepo E githubHandle with
        | None => throw (ValidationFailed "We could not verify the GitHub repository")
        | Some repo =>
            throwIf (stargazers_count repo <? 100)
              (ValidationFailed "The repository need at least 100 GitHub stars to be pledged.")
        end
      else
        (* An organization GitHub Handle *)
        match github_getOrg E githubHandle with
        | None => throw (ValidationFailed "We could not verify the GitHub organization")
        | Some org =>
            match github_getAllOrganizationPublicRepos E githubHandle with
            | None => throw (TypeError "Cannot read property 'find' of null")
            | Some allRepos =>
                let repoWith100stars :=
                  List.find (fun repo => 100 <=? stargazers_count repo) allRepos in
                match repoWith100stars with
                | None => throw (ValidationFailed "The organization need at least one repository with 100 GitHub stars to be pledged.")
                | Some _ => ret tt
                end
            end
        end
  end.

(** Line 172 *)
Definition checkPlatformFee (order : OrderInput) (remoteUser : option User)
    : M (World Ext) unit :=
  if truthyZ (oi_platformFeePercent order) then
    match remoteUser with
    | None => throw (TypeError "Cannot read property 'isRoot' of undefined")
    | Some remoteUser =>
        throwIf (negb (u_isRoot remoteUser))
                (Error "Only a root can change the platformFeePercent")
    end
  else ret tt.

(** Lines 176-194: check the existence of the recipient Collective. *)
Definition resolveCollective (c : CollectiveInput) : M (World Ext) Collective :=
  let* collective :=
    match definedZ (ci_id c), definedS (ci_website c), definedS (ci_githubHandle c) with
    | Some id, _, _ => inDb (loadCollective id)
    | None, Some website, _ => inDb (Collective_findOrCreate E true website c)
    | None, None, Some githubHandle => inDb (Collective_findOrCreate E false githubHandle c)
    | None, None, None => ret None
    end in
  match collective with
  | None =>
      throw (Error ("No collective found: " +:+
                    match definedZ (ci_id c) with
                    | Some id => pretty id
                    | None => default "undefined" (ci_website c)
                    end))
  | Some collective => ret collective
  end.

(** Lines 196-205 *)
Definition checkFees (order : OrderInput) (remoteUser : option User)
    (collective : Collective) : M (World Ext) unit :=
  throwIf
    (match oi_fromCollective order with
     | Some fc => bool_decide (fi_id fc = Some (c_id collective))
     | None => false
     end)
    (Error "Orders cannot be created for a collective by that same collective.") ;;;
  if truthyZ (oi_hostFeePercent order) then
    let HostCollectiveId := c_HostCollectiveId collective in
    match remoteUser with
    | None => throw (TypeError "Cannot read property 'isAdmin' of undefined")
    | Some remoteUser =>
        throwIf (negb (u_isAdmin remoteUser HostCollectiveId))
                (Error "Only an admin of the host can change the hostFeePercent")
    end
  else ret tt.

(** Lines 209-216 *)
Definition resolveTier (order : OrderInput) (collective : Collective)
    : M (World Ext) (option Tier) :=
  match oi_tier order with
  | None => ret None
  | Some tierId =>
      let* tier := inDb (Tier_findByPk tierId) in
      match tier with
      | None =>
          throw (Error ("No tier found with tier id: "
                        +:+ from_option pretty "undefined" tierId
                        +:+ " for collective slug " +:+ c_slug collective))
      | Some tier => ret (Some tier)
      end
  end.

(** Lines 218-226 *)
Definition checkPaymentMethod (order : OrderInput) (tier : option Tier)
    (collective : Collective) : M (World Ext) bool :=
  let paymentRequired := paymentRequired order tier collective in
  throwIf (paymentRequired && missingPaymentMethod (oi_paymentMethod order))
          (Error "This order requires a payment method") ;;;
  ret paymentRequired.

(** The error of lines 229-231. *)
Definition quantityError (maxQuantityPerUser : Z) : error :=
  Error ("You can buy up to " +:+ pretty maxQuantityPerUser +:+ " "
         +:+ pluralize E "ticket" maxQuantityPerUser +:+ " per person").

(** Lines 228-239 *)
Definition checkQuantity (order : OrderInput) (tier : option Tier) : M (World Ext) unit :=
  match tier with
  | None => ret tt
  | Some tier =>
      match t_maxQuantityPerUser tier with
      | Some maxQuantityPerUser =>
          throwIf ((0 <? maxQuantityPerUser) && gtZ (oi_quantity order) maxQuantityPerUser)
                  (quantityError maxQuantityPerUser)
      | None => ret tt
      end ;;;
      let* enoughQuantityAvailable :=
        inDb (Tier_checkAvailableQuantity E tier (oi_quantity order)) in
      throwIf (negb enoughQuantityAvailable)
              (Error ("No more tickets left for " +:+ default "undefined" (t_name tier)))
  end.

(** Lines 241-260: find or create user. *)
Definition resolveUser (order : OrderInput) (remoteUser : option User)
    : M (World Ext) (option User) :=
  match oi_user order with
  | Some u =>
      match definedS (ui_email u) with
      | Some email =>
          let* existingUser := inDb (User_findByEmailOrPaypalEmail E email) in
          match existingUser with
          | Some _ =>
              throw (Error "An account already exists for this email address. Please login.")
          | None =>
              let* user := inDb (User_createUserWithCollective E u (oi_currency order)
                                   (u_id <$> remoteUser)) in
              ret (Some user)
          end
      | None => ret remoteUser
      end
  | None => ret remoteUser
  end.

(** Lines 262-298: the collective the order comes from. *)
Definition resolveFromCollective (order : OrderInput) (remoteUser user : option User)
    (collective : Collective) : M (World Ext) Collective :=
  let fromCollectiveId := definedZ (oi_fromCollective order ≫= fi_id) in
  let fromCollectiveName := definedS (oi_fromCollective order ≫= fi_name) in
  let* fromCollective :=
    match fromCollectiveId with
    | Some fromCollectiveId =>
        (* an existing collective: can the user create an order on its behalf? *)
        match remoteUser with
        | None => throw (Error "You need to be logged in to create an order for an existing open collective")
        | Some remoteUser =>
            let* fromCollective := inDb (loadCollective fromCollectiveId) in
            match fromCollective with
            | None =>
                throw (Error ("From collective id " +:+ pretty fromCollectiveId +:+ " not found"))
            | Some fromCollective =>
                let possibleRoles :=
                  [ADMIN; HOST]
                  ++ (if decide (c_type fromCollective = ORGANIZATION) then [MEMBER] else []) in
                (if u_hasRole remoteUser possibleRoles fromCollectiveId then ret tt
                 else
                   let HostId := c_HostCollectiveId collective in
                   throwIf (negb (u_isAdmin remoteUser HostId))
                     (Error ("You don't have sufficient permissions to create an order on behalf of the "
                             +:+ c_name fromCollective +:+ " "
                             +:+ typeName (c_type fromCollective)))) ;;;
                ret (Some fromCollective)
            end
        end
    | None =>
        match fromCollectiveName with
        | Some _ => ret None
        | None =>
            match user with
            | None => throw (TypeError "Cannot read property 'CollectiveId' of undefined")
            | Some user => inDb (loadCollective (u_CollectiveId user))
            end
        end
    end in
  match fromCollective with
  | Some fromCollective => ret fromCollective
  | None => inDb (Collective_createOrganization E (oi_fromCollective order) user remoteUser)
  end.

(** Lines 300-314 *)
Definition resolveMatchingFund (order : OrderInput) (user : option User)
    (collective : Collective) : M (World Ext) (option PaymentMethod) :=
  match definedS (oi_matchingFund order) with
  | None => ret None
  | Some code =>
      let* matchingFund := inDb (PaymentMethod_getMatchingFund E code (c_id collective)) in
      match matchingFund with
      | None => throw (TypeError "Cannot read property 'canBeUsedForOrder' of null")
      | Some matchingFund =>
          let* canBeUsedForOrder :=
            inDb (PaymentMethod_canBeUsedForOrder E matchingFund order user) in
          ret (if canBeUsedForOrder then Some matchingFund else None)
      end
  end.

(** Lines 316-341: currency, quantity, amount and description. *)
Definition draftOf (order : OrderInput) (collective : Collective) (tier : option Tier)
    (paymentRequired : bool) (user : option User) (fromCollective : Collective)
    (matchingFund : option PaymentMethod) : M (World Ext) Draft :=
  let currency :=
    match tier ≫= fun tier => definedS (t_currency tier) with
    | Some c => c
    | None => c_currency collective
    end in
  throwIf (match definedS (oi_currency order) with
           | Some c => negb (String.eqb c currency)
           | None => false
           end)
          (Error ("Invalid currency. Expected " +:+ currency +:+ ".")) ;;;
  let quantity := default 1 (definedZ (oi_quantity order)) in
  let totalAmount :=
    match tier with
    | Some tier =>
        match definedZ (t_amount tier) with
        | Some amount =>
            (* if the tier has presets, we can't enforce tier.amount *)
            if negb (t_presets tier) then Some (amount * quantity)
            else oi_totalAmount order
        | None => oi_totalAmount order
        end
    | None => oi_totalAmount order
    end in
  let tierNameInfo :=
    match tier ≫= fun tier => definedS (t_name tier) with
    | Some name => " (" +:+ name +:+ ")"
    | None => ""
    end in
  let defaultDescription :=
    match definedS (oi_interval order) with
    | Some interval =>
        capitalize E interval +:+ "ly donation to " +:+ c_name collective +:+ tierNameInfo
    | None =>
        (if bool_decide (totalAmount = Some 0) || bool_decide (c_type collective = EVENT)
         then "Registration" else "Donation")
        +:+ " to " +:+ c_name collective +:+ tierNameInfo
    end in
  let referral :=
    match matchingFund with
    | Some matchingFund => pm_CollectiveId matchingFund
    | None => oi_referral order
    end in
  ret (mkDraft collective tier paymentRequired user fromCollective matchingFund referral
         currency quantity totalAmount defaultDescription).

(** Lines 123-216, the start of the [try] block: the recipient collective
    and the tier of the order. *)
Definition createOrder_target (order : OrderInput) (remoteUser : option User)
    : M (World Ext) (Collective * option Tier) :=
  checkPaymentMethodOnFile order remoteUser ;;;
  let* c := checkCollectiveInput order in
  checkGithubHandle (ci_githubHandle c) ;;;
  checkPlatformFee order remoteUser ;;;
  let* collective := resolveCollective c in
  checkFees order remoteUser collective ;;;
  let* tier := resolveTier order collective in
  ret (collective, tier).

(** Lines 123-341, the [try] block up to the order data. *)
Definition createOrder_validate (order : OrderInput) (remoteUser : option User)
    : M (World Ext) Draft :=
  let* target := createOrder_target order remoteUser in
  let collective := fst target in
  let tier := snd target in
  let* paymentRequired := checkPaymentMethod order tier collective in
  checkQuantity order tier ;;;
  let* user := resolveUser order remoteUser in
  let* fromCollective := resolveFromCollective order remoteUser user collective in
  let* matchingFund := resolveMatchingFund order user collective in
  draftOf order collective tier paymentRequired user fromCollective matchingFund.

End CreateOrder.

Section Mutations.
Context {Ext : Type} (E : Env Ext).

(** The value of a variable that must not be [undefined] where it is read. *)
Definition defined {S A} (property : string) (v : option A) : M S A :=
  match v with
  | Some a => ret a
  | None => throw (TypeError ("Cannot read property '" +:+ property +:+ "' of undefined"))
  end.

(** Lines 374-376 and 463-465: a payment method to save is bound to the
    collective the order comes from. *)
Definition bindPaymentMethod (pm : option PaymentMethodInput) (FromCollectiveId : Z)
    : option PaymentMethodInput :=
  match pm with
  | Some pm =>
      if pi_save pm
      then Some (mkPaymentMethodInput (pi_service pm) (pi_type pm) (pi_uuid pm)
                   (pi_token pm) (pi_save pm) (Some FromCollectiveId))
      else Some pm
  | None => None
  end.

(** [pick(order, ['hostFeePercent', 'platformFeePercent'])] *)
Definition pickFees (order : OrderInput) : option Z * option Z :=
  (oi_hostFeePercent order, oi_platformFeePercent order).

(** Lines 343-366 *)
Definition orderDataOf (order : OrderInput) (reqIp recaptchaResponse : option string)
    (d : Draft) (CreatedByUserId : Z) : OrderRow :=
  let FromCollectiveId := c_id (d_fromCollective d) in
  mkOrderRow CreatedByUserId FromCollectiveId (c_id (d_collective d))
    (t_id <$> d_tier d) (d_quantity d) (d_totalAmount d) (d_currency d)
    (oi_interval order)
    (default (d_defaultDescription d) (definedS (oi_description order)))
    (oi_publicMessage order) (oi_privateMessage order)
    (if d_paymentRequired d || negb (c_isActive (d_collective d)) then None
     else Some (now E))
    (pm_id <$> d_matchingFund d)
    reqIp recaptchaResponse
    PENDING (* default status, will get updated after the order is processed *)
    (match d_referral d with
     | Some referral => if referral =? FromCollectiveId then None else Some referral
     | None => None
     end)
    None None None.

(** Lines 343-422, the rest of the [try] block: the order is created and
    then charged, held as a pledge or confirmed as a free ticket.  The
    attribute [matchingFund] of the new order holds the fund when it can be
    used; only the payment library reads it. *)
Definition createOrder_execute (order : OrderInput) (remoteUser : option User)
    (reqIp recaptchaResponse : option string) (d : Draft) : M (Locals Ext) Order :=
  let collective := d_collective d in
  let* CreatedByUserId :=
    match remoteUser with
    | Some remoteUser => ret (u_id remoteUser)
    | None => let* user := defined "id" (d_user d) in ret (u_id user)
    end in
  let orderData := orderDataOf order reqIp recaptchaResponse d CreatedByUserId in
  let* orderCreated := inW (inDb (Order_create orderData)) in
  let orderCreated := set_matchingFund (d_matchingFund d) orderCreated in
  setLocal orderCreated ;;;
  let paymentMethod :=
    bindPaymentMethod (oi_paymentMethod order) (FromCollectiveId (row orderCreated)) in
  (if d_paymentRequired d then
     let* orderCreated :=
       if isS (paymentMethod ≫= pi_type) "manual" then
         let orderCreated := set_paymentMethod paymentMethod orderCreated in
         setLocal orderCreated ;;; ret orderCreated
       else
         inW (logCall (CallSetPaymentMethod (id orderCreated))) ;;;
         mutating (Order_setPaymentMethod E orderCreated paymentMethod) in
     (* also adds the user as a BACKER of collective *)
     let* payer :=
       match remoteUser with
       | Some remoteUser => ret remoteUser
       | None => defined "id" (d_user d)
       end in
     inW (logCall (CallExecuteOrder (id orderCreated))) ;;;
     mutating (libPayments_executeOrder E payer orderCreated (pickFees order)) ;;;
     ret tt
   else if truthyS (oi_interval order) && bool_decide (c_type collective = COLLECTIVE) then
     (* create inactive subscription to hold the interval info for the pledge *)
     let* subscription :=
       inW (inDb (Subscription_create
                    (mkSubscriptionRow (oi_totalAmount order) (oi_currency order)
                       (oi_interval order) false None 0 None None None))) in
     mutating (Order_update (set_SubscriptionId (Some (sub_id subscription))) orderCreated) ;;;
     ret tt
   else if bool_decide (c_type collective = EVENT) then
     (* Free ticket, mark as processed and add user as an ATTENDEE *)
     let* orderCreated :=
       mutating (Order_update (fun r => set_processedAt (Some (now E)) (set_status PAID r))
                   orderCreated) in
     let* UserId :=
       match remoteUser with
       | Some remoteUser => ret (u_id remoteUser)
       | None => let* user := defined "id" (d_user d) in ret (u_id user)
       end in
     let* user := defined "id" (d_user d) in
     inW (inDb (addUserWithRole collective (u_id user) (u_CollectiveId user) ATTENDEE)) ;;;
     inW (inDb (Activity_create
                  (mkActivity TICKET_CONFIRMED None None
                     (TicketData (c_id collective) UserId (c_name (d_fromCollective d))
                        orderCreated (d_tier d)))))
   else ret tt) ;;;
  let* order := inW (inDb (Order_findByPk (id orderCreated))) in
  let* order := defined "ReferralCollectiveId" order in
  (* If there was a referral for this order, we add it as a FUNDRAISER role *)
  match definedZ (ReferralCollectiveId (row order)) with
  | Some ReferralCollectiveId =>
      let* user := defined "CollectiveId" (d_user d) in
      if negb (ReferralCollectiveId =? u_CollectiveId user) then
        inW (inDb (addUserWithRole collective (u_id user) ReferralCollectiveId FUNDRAISER))
      else ret tt
  | None => ret tt
  end ;;;
  ret order.

(** Lines 423-430, the [catch] block.  [orderCreated] is the variable the
    [try] block declares with [var]; the update is started and not awaited. *)
Definition createOrder_catch (e : error) : M (Locals Ext) Order :=
  let* orderCreated := getLocal in
  match orderCreated with
  | Some orderCreated =>
      if negb (bool_decide (is_Some (processedAt (row orderCreated)))) then
        mutating (Order_update (set_status ERROR) orderCreated) ;;; ret tt
      else ret tt
  | None => ret tt
  end ;;;
  throw e.

(** Lines 122-422, the [try] block. *)
Definition createOrder_try (order : OrderInput) (remoteUser : option User)
    (reqIp recaptchaResponse : option string) : M (Locals Ext) Order :=
  let* d := inW (createOrder_validate E order remoteUser) in
  createOrder_execute order remoteUser reqIp recaptchaResponse d.

(** Lines 120-121, what comes before the [try] block. *)
Definition createOrder_checks (order : OrderInput) (remoteUser : option User)
    (reqIp : option string) : M (World Ext) (option string) :=
  checkOrdersLimit E order remoteUser reqIp ;;;
  checkRecaptcha E order remoteUser reqIp.

Definition createOrder (order : OrderInput) (remoteUser : option User)
    (reqIp : option string) : M (World Ext) Order :=
  let* recaptchaResponse := createOrder_checks order remoteUser reqIp in
  scoped
    (tryCatch
       (createOrder_try order remoteUser reqIp recaptchaResponse)
       createOrder_catch).

(** ** [updateOrder] (lines 433-479) *)

Definition updateOrder (remoteUser : option User) (order : OrderInput)
    : M (World Ext) Order :=
  match remoteUser with
  | None => throw (Unauthorized "You need to be logged in to update an order")
  | Some remoteUser =>
      let* existingOrder := inDb (Order_findOne (oi_id order)) in
      match existingOrder with
      | None => throw (NotFound "Existing order not found")
      | Some existingOrder =>
          let* paymentRequired :=
            if gtZ (oi_totalAmount order) 0 then
              let* collective := defined "isActive" (collective existingOrder) in
              ret (c_isActive collective)
            else ret false in
          throwIf (paymentRequired && missingPaymentMethod (oi_paymentMethod order))
                  (Error "This order requires a payment method") ;;;
          let paymentMethod :=
            bindPaymentMethod (oi_paymentMethod order)
              (FromCollectiveId (row existingOrder)) in
          let* existingOrder :=
            if paymentRequired then
              let existingOrder := on_row (set_interval (oi_interval order)) existingOrder in
              let* existingOrder :=
                if isS (paymentMethod ≫= pi_type) "manual" then
                  ret (set_paymentMethod paymentMethod existingOrder)
                else
                  logCall (CallSetPaymentMethod (id existingOrder)) ;;;
                  stepW (Order_setPaymentMethod E existingOrder paymentMethod) in
              (* also adds the user as a BACKER of collective *)
              logCall (CallExecuteOrder (id existingOrder)) ;;;
              stepW (libPayments_executeOrder E remoteUser existingOrder (pickFees order))
            else ret existingOrder in
          inDb (Order_reload existingOrder)
      end
  end.

(** ** [cancelSubscription] (lines 481-540) *)

Definition cancelSubscription (remoteUser : option User) (orderId : Z)
    : M (World Ext) (option Order) :=
  match remoteUser with
  | None => throw (Unauthorized "You need to be logged in to cancel a subscription")
  | Some remoteUser =>
      let* order := inDb (Order_findOne (Some orderId)) in
      match order with
      | None => throw (Error "Subscription not found")
      | Some order =>
          throwIf (negb (u_isAdmin remoteUser (Some (FromCollectiveId (row order)))))
                  (Unauthorized "You don't have permission to cancel this subscription") ;;;
          let* subscription := defined "isActive" (Subscription_ order) in
          throwIf (negb (s_isActive (sub_row subscription))
                   && bool_decide (status (row order) = CANCELLED))
                  (Error "Subscription already canceled") ;;;
          let* order := stepW (Order_update (set_status CANCELLED) order) in
          let* subscription := inDb (Subscription_deactivate (now E) subscription) in
          let order := set_Subscription (Some subscription) order in
          (* createActivity - that sends out the email *)
          let* collective := defined "minimal" (collective order) in
          let* fromCollective := defined "minimal" (fromCollective order) in
          inDb (Activity_create
                  (mkActivity SUBSCRIPTION_CANCELED
                     (Some (CollectiveId (row order)))
                     (Some (CreatedByUserId (row order)))
                     (SubscriptionData subscription collective remoteUser fromCollective))) ;;;
          (* need to fetch it second time to get updated data. *)
          inDb (Order_findOne (Some orderId))
      end
  end.

(** ** [updateSubscription] (lines 542-639) *)

(** Lines 543-570: the order is loaded and the requester checked. *)
Definition updateSubscription_load (remoteUser : option User) (args : SubscriptionArgs)
    : M (World Ext) Order :=
  match remoteUser with
  | None => throw (Unauthorized "You need to be logged in to update a subscription")
  | Some remoteUser =>
      let* order := inDb (Order_findOne (Some (sa_id args))) in
      match order with
      | None => throw (Error "Subscription not found")
      | Some order =>
          throwIf (negb (u_isAdmin remoteUser (Some (FromCollectiveId (row order)))))
                  (Unauthorized "You don't have permission to update this subscription") ;;;
          let* subscription := defined "isActive" (Subscription_ order) in
          throwIf (negb (s_isActive (sub_row subscription)))
                  (Error "Subscription must be active to be updated") ;;;
          ret order
      end
  end.

(** Lines 572-606: a new payment method for the subscription. *)
Definition updateSubscription_paymentMethod (order : Order)
    (paymentMethod : option PaymentMethodInput) : M (World Ext) Order :=
  match paymentMethod with
  | None => ret order
  | Some paymentMethod =>
      let existing :=
        match definedS (pi_uuid paymentMethod) with
        | Some uuid => if Nat.eqb (String.length uuid) 36 then Some uuid else None
        | None => None
        end in
      let* newPm :=
        match existing with
        | Some uuid =>
            (* means it's an existing paymentMethod *)
            let* newPm := inExt (PaymentMethod_findOne E uuid) in
            match newPm with
            | None => throw (Error "Payment method not found with this uuid")
            | Some newPm => ret newPm
            end
        | None =>
            (* means it's a new paymentMethod *)
            let newPMData :=
              mkPaymentMethodInput (pi_service paymentMethod) (pi_type paymentMethod)
                (pi_uuid paymentMethod) (pi_token paymentMethod) (pi_save paymentMethod)
                (Some (FromCollectiveId (row order))) in
            inExt (PaymentMethod_createFromStripeSourceToken E newPMData)
        end in
      let* subscription := defined "chargeRetryCount" (Subscription_ order) in
      (* determine if this order was pastdue *)
      let* order :=
        if 0 <? s_chargeRetryCount (sub_row subscription) then
          let nextChargeDate := getNextChargeAndPeriodStartDates E order in
          let chargeRetryCount := getChargeRetryCount E order in
          let* subscription :=
            inDb (Subscription_update (set_retry nextChargeDate chargeRetryCount)
                    subscription) in
          ret (set_Subscription (Some subscription) order)
        else ret order in
      stepW (Order_update (set_PaymentMethodId (Some (pm_id newPm))) order)
  end.

(** Lines 608-636: a new amount for the subscription. *)
Definition updateSubscription_amount (order : Order) (amount : option Z)
    : M (World Ext) Order :=
  match amount with
  | None => ret order
  | Some amount =>
      let* subscription := defined "amount" (Subscription_ order) in
      throwIf (bool_decide (s_amount (sub_row subscription) = Some amount))
              (Error "Same amount") ;;;
      throwIf ((amount <? 100) || negb (Z.rem amount 100 =? 0))
              (Error "Invalid amount") ;;;
      let* subscription := inDb (Subscription_deactivate (now E) subscription) in
      let order := set_Subscription (Some subscription) order in
      let* order := stepW (Order_update (set_status CANCELLED) order) in
      let old := sub_row subscription in
      let newSubscriptionDataValues :=
        mkSubscriptionRow (Some amount) (s_currency old) (s_interval old) true
          (s_nextChargeDate old) (s_chargeRetryCount old)
          (Some (now E)) None (Some (now E)) in
      let* newSubscription := inDb (Subscription_create newSubscriptionDataValues) in
      let newOrderDataValues :=
        set_status PENDING
          (set_updatedAt (Some (now E))
             (set_SubscriptionId (Some (sub_id newSubscription))
                (set_totalAmount (Some amount) (row order)))) in
      inDb (Order_create newOrderDataValues)
  end.

(** Lines 543-606, what comes before the change of amount. *)
Definition updateSubscription_prepare (remoteUser : option User) (args : SubscriptionArgs)
    : M (World Ext) Order :=
  let* order := updateSubscription_load remoteUser args in
  updateSubscription_paymentMethod order (sa_paymentMethod args).

Definition updateSubscription (remoteUser : option User) (args : SubscriptionArgs)
    : M (World Ext) Order :=
  let* order := updateSubscription_prepare remoteUser args in
  updateSubscription_amount order (sa_amount args).

End Mutations.

(** ** [markOrderAsPaid] (lines 709-747) *)

(** The payment method lines 729-733 put on the order; its [paid: true] is
    read by the payment library only. *)
Definition manualPaymentMethod : PaymentMethodInput :=
  mkPaymentMethodInput (Some "opencollective") (Some "manual") None None false None.

Section MarkOrderAsPaid.
Context {Ext : Type} (E : Env Ext).

(** [models.Collective.getHostCollectiveId(CollectiveId)] *)
Definition Collective_getHostCollectiveId (CollectiveId : Z) : M (Store Ext) (option Z) :=
  gets (fun s => Collectives s !! CollectiveId ≫= c_HostCollectiveId).

(** [errors.Unauthorized()] is thrown without a message at line 711. *)
Definition markOrderAsPaid (remoteUser : option User) (orderId : Z) : M (World Ext) Order :=
  match remoteUser with
  | None => throw (Unauthorized "")
  | Some remoteUser =>
      (* fetch the order *)
      let* order := inDb (Order_findByPk orderId) in
      match order with
      | None => throw (NotFound "Order not found")
      | Some order =>
          throwIf (negb (bool_decide (status (row order) = PENDING)))
                  (ValidationFailed "The order's status must be PENDING") ;;;
          let* HostCollectiveId :=
            inDb (Collective_getHostCollectiveId (CollectiveId (row order))) in
          throwIf (negb (u_isAdmin remoteUser HostCollectiveId))
                  (Unauthorized "You must be logged in as an admin of the host of the collective") ;;;
          let order := set_paymentMethod (Some manualPaymentMethod) order in
          logCall (CallExecuteOrder (id order)) ;;;
          stepW (libPayments_executeOrder E remoteUser order (None, None))
      end
  end.

End MarkOrderAsPaid.

(** ** [refundTransaction] (lines 641-665) *)

Section RefundTransaction.
Context {Ext Transaction : Type}.

(** [models.Transaction.findByPk(id, { include })] *)
Variable Transaction_findByPk : Z -> M (Store Ext) (option Transaction).

(** [libPayments.refundTransaction(transaction, user)] *)
Variable libPayments_refundTransaction : Transaction -> User -> M (Store Ext) Transaction.

Definition refundTransaction (args_id : Z) (remoteUser : option User)
    : M (World Ext) Transaction :=
  (* 0. Retrieve transaction from database *)
  let* transaction := inDb (Transaction_findByPk args_id) in
  match transaction with
  | None => throw (NotFound "Transaction not found")
  | Some transaction =>
      (* 1. Verify user permission *)
      let* remoteUser := defined "isRoot" remoteUser in
      throwIf (negb (u_isRoot remoteUser)) (Unauthorized "Not a site admin") ;;;
      (* 2. Refund via payment method *)
      inDb (libPayments_refundTransaction transaction remoteUser)
  end.

End RefundTransaction.

(** ** [addFundsToOrg] (lines 682-707) *)

(** The [args] of [addFundsToOrg]. *)
Record AddFundsArgs : Type := mkAddFundsArgs {
  af_description : option string;
  af_CollectiveId : option Z;
  af_HostCollectiveId : option Z;
  af_totalAmount : option Z
}.

(** The values handed to [models.PaymentMethod.create] at lines 689-704. *)
Record PrepaidValues : Type := mkPrepaidValues {
  pv_name : string;
  pv_initialBalance : option Z;
  pv_monthlyLimitPerMember : option Z;
  pv_currency : string;
  pv_CollectiveId : option Z;
  pv_customerId : string;
  pv_expiryDate : string;
  pv_uuid : string;
  pv_data_HostCollectiveId : option Z;
  pv_service : string;
  pv_type : string;
  pv_createdAt : Z;
  pv_updatedAt : Z
}.

Section AddFundsToOrg.
Context {Ext : Type} (E : Env Ext).

(** [models.PaymentMethod.create(values)] *)
Variable PaymentMethod_create : PrepaidValues -> M (Store Ext) PaymentMethod.

(** [moment().add(1, 'year').format()] at the time of the call *)
Variable inOneYear : string.

(** [uuidv4()] *)
Variable uuidv4 : string.

(** [models.Collective.findByPk(id)] *)
Definition Collective_findByPk (i : option Z) : M (Store Ext) (option Collective) :=
  gets (fun s => i ≫= fun i => Collectives s !! i).

Definition addFundsToOrg (args : AddFundsArgs) (remoteUser : option User)
    : M (World Ext) PaymentMethod :=
  let* remoteUser := defined "isRoot" remoteUser in
  throwIf (negb (u_isRoot remoteUser)) (Error "Only site admins can perform this operation") ;;;
  let* fromCollective := inDb (Collective_findByPk (af_CollectiveId args)) in
  let* hostCollective := inDb (Collective_findByPk (af_HostCollectiveId args)) in
  (* creates a new Payment method; the values are evaluated in the order of
     the object literal: [hostCollective.currency], then [fromCollective.slug] *)
  let* hostCollective := defined "currency" hostCollective in
  let* fromCollective := defined "slug" fromCollective in
  inDb (PaymentMethod_create
          (mkPrepaidValues
             (default "Host funds" (definedS (af_description args)))
             (af_totalAmount args)
             None
             (c_currency hostCollective)
             (af_CollectiveId args)
             (c_slug fromCollective)
             inOneYear
             uuidv4
             (af_HostCollectiveId args)
             "opencollective"
             "prepaid"
             (now E)
             (now E))).

End AddFundsToOrg.

(** ** Footprints

    [quiet m]: the computation makes no call to the payment library. *)
Definition quiet {Ext A} (m : M (World Ext) A) : Prop :=
  forall w, calls (fst (m w)) = calls w.

(** ** A concrete environment and store, for the examples *)

Module Fixture.

Definition alice : User :=
  mkUser 1 11 false (fun c => bool_decide (c = Some 11)) (fun _ c => bool_decide (c = 11)).

Definition bob : User :=
  mkUser 2 12 false (fun c => bool_decide (c = Some 12)) (fun _ c => bool_decide (c = 12)).

Definition newcomer : User := mkUser 7 17 false (fun _ => false) (fun _ _ => false).

Definition meetup : Collective := mkCollective 20 EVENT true "Meetup" "meetup" "USD" (Some 30).
Definition project : Collective :=
  mkCollective 21 COLLECTIVE true "Project" "project" "USD" (Some 30).
Definition aliceProfile : Collective :=
  mkCollective 11 USER true "Alice" "alice" "USD" None.
Definition bobProfile : Collective :=
  mkCollective 12 USER true "Bob" "bob" "USD" None.

Definition freeTicket : Tier := mkTier 40 (Some "Free ticket") (Some 0) None false (Some 0).
Definition cappedTicket : Tier := mkTier 41 (Some "Seat") (Some 500) None false (Some 2).

Definition limits : OrdersLimits := mkOrdersLimits 10 2 10 2 5.

(** A provider that declines the token [tok_declined] and marks the order
    paid otherwise. *)
Definition executeOrder (user : User) (order : Order) (fees : option Z * option Z)
    (s : Store unit) : Store unit * Order * option error :=
  if isS (paymentMethod order ≫= pi_token) "tok_declined"
  then (s, order, Some (Error "Your card was declined."))
  else Order_update (fun r => set_processedAt (Some 1000) (set_status PAID r)) order s.

Definition env (NODE_ENV : option string) : Env unit :=
  mkEnv unit NODE_ENV limits 1000
    (fun s => "h" +:+ s)
    (fun s => s)
    (fun s n => if n =? 1 then s else s +:+ "s")
    (fun _ _ => inr (Some "ok"))
    (fun h => if String.eqb h "big/repo" then Some (mkRepo 150)
              else if String.eqb h "small/repo" then Some (mkRepo 5) else None)
    (fun h => if String.eqb h "bigorg" || String.eqb h "flaky" then Some tt else None)
    (fun h => if String.eqb h "bigorg" then Some [mkRepo 3; mkRepo 150] else None)
    (fun _ name _ => ret (Some (mkCollective 50 COLLECTIVE false name name "USD" None)))
    (fun _ _ _ => ret (mkCollective 51 ORGANIZATION true "Org" "org" "USD" None))
    (fun _ _ => ret true)
    (fun _ => ret None)
    (fun _ _ _ => ret newcomer)
    (fun _ _ => ret None)
    (fun _ _ _ => ret true)
    (fun o pm s => (s, set_paymentMethod pm o, None))
    executeOrder
    (fun _ => ret None)
    (fun pm => ret (mkPaymentMethod 60 (pi_CollectiveId pm)))
    (fun _ => None)
    (fun _ => 0).

Definition production : Env unit := env (Some "production").

Definition monthly : SubscriptionRow :=
  mkSubscriptionRow (Some 1000) (Some "USD") (Some "month") true (Some 5000) 0
    (Some 10) None (Some 10).

Definition aliceOrder : OrderRow :=
  mkOrderRow 1 11 21 None 1 (Some 1000) "USD" (Some "month") "Monthly donation to Project"
    None None (Some 10) None None None ACTIVE None (Some 70) None None.

Definition store : Store unit :=
  mkStore ∅
    (list_to_map [(20, meetup); (21, project); (11, aliceProfile); (12, bobProfile)])
    (list_to_map [(40, freeTicket); (41, cappedTicket)])
    {[ 80 := aliceOrder ]}
    {[ 70 := monthly ]}
    [] [] tt.

Definition world : World unit := mkWorld store [].

Definition noOrder : OrderInput :=
  mkOrderInput None None None None None None None None None None None None None None None
    None None None.

Definition to (c : Z) (o : OrderInput) : OrderInput :=
  mkOrderInput (oi_id o) (Some (mkCollectiveInput (Some c) None None None))
    (oi_fromCollective o) (oi_user o) (oi_paymentMethod o) (oi_tier o) (oi_totalAmount o)
    (oi_quantity o) (oi_currency o) (oi_interval o) (oi_description o)
    (oi_publicMessage o) (oi_privateMessage o) (oi_platformFeePercent o)
    (oi_hostFeePercent o) (oi_matchingFund o) (oi_referral o) (oi_recaptchaToken o).

Definition pledgeTo (handle : string) (o : OrderInput) : OrderInput :=
  mkOrderInput (oi_id o) (Some (mkCollectiveInput None None (Some handle) None))
    (oi_fromCollective o) (oi_user o) (oi_paymentMethod o) (oi_tier o) (oi_totalAmount o)
    (oi_quantity o) (oi_currency o) (oi_interval o) (oi_description o)
    (oi_publicMessage o) (oi_privateMessage o) (oi_platformFeePercent o)
    (oi_hostFeePercent o) (oi_matchingFund o) (oi_referral o) (oi_recaptchaToken o).

Definition from (c : Z) (o : OrderInput) : OrderInput :=
  mkOrderInput (oi_id o) (oi_collective o)
    (Some (mkFromCollectiveInput (Some c) None)) (oi_user o) (oi_paymentMethod o)
    (oi_tier o) (oi_totalAmount o)
    (oi_quantity o) (oi_currency o) (oi_interval o) (oi_description o)
    (oi_publicMessage o) (oi_privateMessage o) (oi_platformFeePercent o)
    (oi_hostFeePercent o) (oi_matchingFund o) (oi_referral o) (oi_recaptchaToken o).

Definition amount (a : Z) (o : OrderInput) : OrderInput :=
  mkOrderInput (oi_id o) (oi_collective o) (oi_fromCollective o) (oi_user o)
    (oi_paymentMethod o) (oi_tier o) (Some a)
    (oi_quantity o) (oi_currency o) (oi_interval o) (oi_description o)
    (oi_publicMessage o) (oi_privateMessage o) (oi_platformFeePercent o)
    (oi_hostFeePercent o) (oi_matchingFund o) (oi_referral o) (oi_recaptchaToken o).


Definition payingWith (token : string) (o : OrderInput) : OrderInput :=
  mkOrderInput (oi_id o) (oi_collective o) (oi_fromCollective o) (oi_user o)
    (Some (mkPaymentMethodInput (Some "stripe") (Some "creditcard") None (Some token)
             false None))
    (oi_tier o) (oi_totalAmount o)
    (oi_quantity o) (oi_currency o) (oi_interval o) (oi_description o)
    (oi_publicMessage o) (oi_privateMessage o) (oi_platformFeePercent o)
    (oi_hostFeePercent o) (oi_matchingFund o) (oi_referral o) (oi_recaptchaToken o).

Definition existing (i : Z) (o : OrderInput) : OrderInput :=
  mkOrderInput (Some i) (oi_collective o) (oi_fromCollective o) (oi_user o)
    (oi_paymentMethod o) (oi_tier o) (oi_totalAmount o)
    (oi_quantity o) (oi_currency o) (oi_interval o) (oi_description o)
    (oi_publicMessage o) (oi_privateMessage o) (oi_platformFeePercent o)
    (oi_hostFeePercent o) (oi_matchingFund o) (oi_referral o) (oi_recaptchaToken o).

(** The outcome of a call without the store. *)
Definition outcome {S A B} (f : A -> B) (r : S * (error + A)) : error + B :=
  match snd r with inl e => inl e | inr a => inr (f a) end.

End Fixture.

Import Fixture.

(** More users and collaborators for the examples. *)
Module Staff.

Definition root : User := mkUser 9 19 true (fun _ => true) (fun _ _ => true).

Definition hostAdmin : User :=
  mkUser 3 30 false (fun c => bool_decide (c = Some 30)) (fun _ c => bool_decide (c = 30)).

(** The ledger holds one transaction, 900. *)
Definition findTransaction (i : Z) : M (Store unit) (option Z) :=
  ret (if i =? 900 then Some 900 else None).

Definition refund (transaction : Z) (user : User) : M (Store unit) Z := ret transaction.

Definition createPrepaid (values : PrepaidValues) : M (Store unit) PaymentMethod :=
  ret (mkPaymentMethod 61 (pv_CollectiveId values)).

Definition every (interval : string) (o : OrderInput) : OrderInput :=
  mkOrderInput (oi_id o) (oi_collective o) (oi_fromCollective o) (oi_user o)
    (oi_paymentMethod o) (oi_tier o) (oi_totalAmount o)
    (oi_quantity o) (oi_currency o) (Some interval) (oi_description o)
    (oi_publicMessage o) (oi_privateMessage o) (oi_platformFeePercent o)
    (oi_hostFeePercent o) (oi_matchingFund o) (oi_referral o) (oi_recaptchaToken o).

Definition manually (o : OrderInput) : OrderInput :=
  mkOrderInput (oi_id o) (oi_collective o) (oi_fromCollective o) (oi_user o)
    (Some manualPaymentMethod) (oi_tier o) (oi_totalAmount o)
    (oi_quantity o) (oi_currency o) (oi_interval o) (oi_description o)
    (oi_publicMessage o) (oi_privateMessage o) (oi_platformFeePercent o)
    (oi_hostFeePercent o) (oi_matchingFund o) (oi_referral o) (oi_recaptchaToken o).

(** A card that is not on file yet, and the reference to one that would be. *)
Definition newCard : PaymentMethodInput :=
  mkPaymentMethodInput (Some "stripe") (Some "creditcard") None (Some "tok_new") false None.

Definition cardOnFile : PaymentMethodInput :=
  mkPaymentMethodInput (Some "stripe") (Some "creditcard")
    (Some "123e4567-e89b-12d3-a456-426614174000") None false None.

End Staff.

Import Staff.


(** * Properties *)

(** ** Running the monad *)

Section Running.
Context {S A B : Type}.

Lemma bind_inr (m : M S A) (k : A -> M S B) s s1 a :
  m s = (s1, inr a) -> bind m k s = k a s1.
Proof. unfold bind. intros ->. reflexivity. Qed.

Lemma bind_inl (m : M S A) (k : A -> M S B) s s1 e :
  m s = (s1, inl e) -> bind m k s = (s1, inl e).
Proof. unfold bind. intros ->. reflexivity. Qed.

Lemma bind_inv_inr (m : M S A) (k : A -> M S B) s s' b :
  bind m k s = (s', inr b) ->
  exists s1 a, m s = (s1, inr a) /\ k a s1 = (s', inr b).
Proof.
  unfold bind. destruct (m s) as [s1 [e|a]]; intros H.
  - discriminate.
  - eauto.
Qed.

Lemma throwIf_inv_inr (c : bool) (e : error) (s s' : S) u :
  throwIf c e s = (s', inr u) -> c = false /\ s' = s.
Proof.
  unfold throwIf, throw, ret. destruct c; intros H.
  - discriminate.
  - split; congruence.
Qed.

End Running.

(** ** The rate limiter *)

Section RateLimiterProperties.
Context {Ext : Type} (E : Env Ext).

Lemma counter_bump (w : World Ext) k k' :
  counter (bump w k) k' = if decide (k = k') then counter w k + 1 else counter w k'.
Proof.
  unfold counter, bump. cbn. rewrite lookup_insert.
  destruct (decide (k = k')) as [->|]; reflexivity.
Qed.

Lemma checkLimits_cons (l : Limit) rest (w : World Ext) :
  checkLimits E (l :: rest) w =
  if value l <=? counter w (key l)
  then (bump w (key l), inl (limitError E))
  else checkLimits E rest (bump w (key l)).
Proof.
  destruct w as [s c]. cbn [checkLimits].
  unfold bind, gets, cache_get, cache_set, inDb, zoom, modify, throwIf, counter, bump.
  cbn. destruct (value l <=? default 0 (cache s !! key l)); reflexivity.
Qed.

(** The only way the loop fails is the limit error. *)
Lemma checkLimits_outcome limits (w : World Ext) :
  snd (checkLimits E limits w) = inr tt \/ snd (checkLimits E limits w) = inl (limitError E).
Proof.
  revert w. induction limits as [|l rest IH]; intros w.
  - left. reflexivity.
  - rewrite checkLimits_cons. destruct (value l <=? counter w (key l)).
    + right. reflexivity.
    + apply IH.
Qed.

(** No counter ever goes down. *)
Lemma checkLimits_monotone limits (w : World Ext) k :
  counter w k <= counter (fst (checkLimits E limits w)) k.
Proof.
  revert w. induction limits as [|l rest IH]; intros w.
  - cbn. lia.
  - rewrite checkLimits_cons.
    assert (counter w k <= counter (bump w (key l)) k) as Hb.
    { rewrite counter_bump. destruct (decide (key l = k)) as [->|]; lia. }
    destruct (value l <=? counter w (key l)); cbn [fst].
    + exact Hb.
    + specialize (IH (bump w (key l))). lia.
Qed.

(** A key whose counter has reached its threshold makes the loop fail. *)
Lemma checkLimits_reached limits (w : World Ext) l :
  l ∈ limits -> value l <= counter w (key l) ->
  snd (checkLimits E limits w) = inl (limitError E).
Proof.
  revert w. induction limits as [|l0 rest IH]; intros w Hin Hle.
  - inversion Hin.
  - rewrite checkLimits_cons.
    destruct (value l0 <=? counter w (key l0)) eqn:Hc; [reflexivity|].
    apply elem_of_cons in Hin as [->|Hin].
    + apply Z.leb_gt in Hc. lia.
    + apply IH; [exact Hin|].
      rewrite counter_bump. destruct (decide (key l0 = key l)) as [Heq|]; [|exact Hle].
      rewrite Heq. lia.
Qed.

(** The keys the loop does not check keep their counters. *)
Lemma checkLimits_frame limits (w : World Ext) k :
  k ∉ (key <$> limits) -> counter (fst (checkLimits E limits w)) k = counter w k.
Proof.
  revert w. induction limits as [|l rest IH]; intros w Hk.
  - reflexivity.
  - rewrite checkLimits_cons. rewrite fmap_cons in Hk.
    apply not_elem_of_cons in Hk as [Hne Hk].
    assert (counter (bump w (key l)) k = counter w k) as Hb.
    { rewrite counter_bump. destruct (decide (key l = k)); congruence. }
    destruct (value l <=? counter w (key l)); cbn [fst].
    + exact Hb.
    + rewrite IH by exact Hk. exact Hb.
Qed.

(** When the loop fails, a key that had reached its threshold has been
    counted once more. *)
Lemma checkLimits_rejected_counted limits (w : World Ext) :
  NoDup (key <$> limits) ->
  snd (checkLimits E limits w) = inl (limitError E) ->
  exists l, l ∈ limits /\ value l <= counter w (key l)
            /\ counter (fst (checkLimits E limits w)) (key l) = counter w (key l) + 1.
Proof.
  revert w. induction limits as [|l rest IH]; intros w Hnd Hfail.
  - discriminate.
  - rewrite fmap_cons in Hnd. apply NoDup_cons in Hnd as [Hl Hnd].
    rewrite checkLimits_cons in Hfail |- *.
    destruct (value l <=? counter w (key l)) eqn:Hc.
    + exists l. split; [left|]. split; [apply Z.leb_le; exact Hc|].
      cbn [fst]. rewrite counter_bump. rewrite decide_True by reflexivity. reflexivity.
    + destruct (IH (bump w (key l)) Hnd Hfail) as (l' & Hin & Hle & Hcnt).
      assert (key l <> key l') as Hne.
      { intros Heq. apply Hl. rewrite Heq. apply list_elem_of_fmap. eauto. }
      rewrite counter_bump in Hle, Hcnt. rewrite decide_False in Hle, Hcnt by exact Hne.
      exists l'. split; [right; exact Hin|]. split; assumption.
Qed.

Lemma counted_ext j (w w' : World Ext) limits :
  (forall l, l ∈ limits -> counter w' (key l) = counter w (key l)) ->
  counted j w limits -> counted j w' limits.
Proof.
  induction limits as [|l rest IH]; intros Hext Hc; [exact I|].
  destruct Hc as [Hj Hrest]. split.
  - rewrite Hext by left. exact Hj.
  - intros Hle. apply IH; [|exact (Hrest Hle)].
    intros l' Hin. apply Hext. right. exact Hin.
Qed.

Lemma counted_fresh (w : World Ext) limits :
  (forall l, l ∈ limits -> cache (db w) !! key l = None) -> counted 0 w limits.
Proof.
  induction limits as [|l rest IH]; intros Hnone; [exact I|]. split.
  - unfold counter. rewrite Hnone by left. reflexivity.
  - intros _. apply IH. intros l' Hin. apply Hnone. right. exact Hin.
Qed.

(** One more attempt: the counters stand one attempt later, and the attempt
    passes exactly when it is below every threshold. *)
Lemma checkLimits_counted limits (w : World Ext) j :
  NoDup (key <$> limits) -> counted j w limits ->
  counted (j + 1) (fst (checkLimits E limits w)) limits
  /\ (snd (checkLimits E limits w) = inr tt <-> forall l, l ∈ limits -> j < value l).
Proof.
  revert w. induction limits as [|l rest IH]; intros w Hnd Hc.
  - split; [exact I|]. split; [|reflexivity]. intros _ l Hin. inversion Hin.
  - rewrite fmap_cons in Hnd. apply NoDup_cons in Hnd as [Hl Hnd].
    destruct Hc as [Hj Hrest]. rewrite checkLimits_cons. rewrite Hj.
    destruct (value l <=? j) eqn:Hv.
    + apply Z.leb_le in Hv. cbn [fst snd]. split.
      * split.
        -- rewrite counter_bump, decide_True by reflexivity. lia.
        -- intros Hle. lia.
      * split; [discriminate|]. intros Hall.
        specialize (Hall l (list_elem_of_here _ _)). lia.
    + apply Z.leb_gt in Hv.
      assert (counted j (bump w (key l)) rest) as Hc'.
      { apply counted_ext with (w := w); [|apply Hrest; lia].
        intros l' Hin. rewrite counter_bump. rewrite decide_False; [reflexivity|].
        intros Heq. apply Hl. rewrite Heq. apply list_elem_of_fmap. eauto. }
      destruct (IH (bump w (key l)) Hnd Hc') as [Hnext Hiff]. split.
      * split.
        -- rewrite checkLimits_frame by exact Hl.
           rewrite counter_bump, decide_True by reflexivity. lia.
        -- intros _. exact Hnext.
      * rewrite Hiff. split.
        -- intros Hall l' Hin. apply elem_of_cons in Hin as [->|Hin]; [lia|auto].
        -- intros Hall l' Hin. apply Hall. right. exact Hin.
Qed.

Lemma append_self (a t : string) : a = a +:+ t -> t = "".
Proof.
  induction a as [|c a IH]; intros H.
  - change ("" +:+ t) with t in H. congruence.
  - change (String c a +:+ t) with (String c (a +:+ t)) in H.
    injection H as H. exact (IH H).
Qed.

Lemma key_longer (p a s c : string) : s <> "" -> p +:+ a <> p +:+ a +:+ s +:+ c.
Proof.
  intros Hs H. apply (inj (String.append p)) in H. apply append_self in H.
  destruct s as [|x s]; [congruence|].
  change (String x s +:+ c) with (String x (s +:+ c)) in H. discriminate.
Qed.

(** The keys of one call are pairwise different. *)
Lemma orderLimits_NoDup order reqIp : NoDup (key <$> orderLimits E order reqIp).
Proof.
  unfold orderLimits.
  destruct (definedZ (oi_fromCollective order ≫= fi_id)) as [a|];
    destruct (definedZ (oi_collective order ≫= ci_id)) as [c|];
    destruct (definedS (oi_user order ≫= ui_email)) as [m|];
    destruct (definedS reqIp) as [ip|]; cbn [fmap list_fmap key app];
    repeat (apply NoDup_cons; split); try apply NoDup_nil_2;
    rewrite ?elem_of_cons, ?elem_of_nil; intros H;
    repeat (destruct H as [H|H]); try exact H;
    try (revert H; apply key_longer; discriminate);
    try (symmetry in H; revert H; apply key_longer; discriminate);
    cbv beta iota delta [String.append] in H; discriminate.
Qed.

Lemma checkOrdersLimit_live order remoteUser reqIp (w : World Ext) :
  testEnvironment E = false ->
  checkOrdersLimit E order remoteUser reqIp w = checkLimits E (orderLimits E order reqIp) w.
Proof. unfold checkOrdersLimit. intros ->. reflexivity. Qed.

Lemma attempts_counted order remoteUser reqIp (w : World Ext) n :
  testEnvironment E = false ->
  (forall l, l ∈ orderLimits E order reqIp -> cache (db w) !! key l = None) ->
  counted (Z.of_nat n) (attempts E n order remoteUser reqIp w) (orderLimits E order reqIp).
Proof.
  intros Hlive Hfresh. induction n as [|n IH].
  - apply counted_fresh. exact Hfresh.
  - cbn [attempts]. rewrite checkOrdersLimit_live by exact Hlive.
    rewrite Nat2Z.inj_succ. unfold Z.succ.
    apply checkLimits_counted; [apply orderLimits_NoDup|exact IH].
Qed.

(** C2. Outside of the test environments, an attempt fails exactly when one
    of its keys has a counter that has reached the threshold of the key, and
    it fails with the limit error; the key that rejects the attempt is
    still counted, one higher than before; no attempt lowers a counter; and
    of successive attempts on fresh counters the (n+1)-th passes exactly
    when n is below every threshold, so the first N pass and all later ones
    are rejected. *)
Theorem checkOrdersLimit_rejects_and_counts order remoteUser reqIp (w : World Ext) :
  testEnvironment E = false ->
  let limits := orderLimits E order reqIp in
  let attempt := checkOrdersLimit E order remoteUser reqIp in
  ((exists l, l ∈ limits /\ value l <= counter w (key l))
     <-> snd (attempt w) = inl (limitError E))
  /\ (snd (attempt w) = inl (limitError E) ->
      exists l, l ∈ limits /\ value l <= counter w (key l)
                /\ counter (fst (attempt w)) (key l) = counter w (key l) + 1)
  /\ (forall k, counter w k <= counter (fst (attempt w)) k)
  /\ ((forall l, l ∈ limits -> cache (db w) !! key l = None) ->
      forall n : nat,
        snd (attempt (attempts E n order remoteUser reqIp w)) = inr tt
        <-> forall l, l ∈ limits -> Z.of_nat n < value l).
Proof.
  intros Hlive limits attempt. subst limits attempt. cbv beta.
  rewrite !checkOrdersLimit_live by exact Hlive.
  split; [|split; [|split]].
  - split.
    + intros (l & Hin & Hle). eapply checkLimits_reached; eassumption.
    + intros Hfail.
      destruct (checkLimits_rejected_counted _ w (orderLimits_NoDup order reqIp) Hfail)
        as (l & Hin & Hle & _).
      eauto.
  - apply checkLimits_rejected_counted. apply orderLimits_NoDup.
  - intros k. apply checkLimits_monotone.
  - intros Hfresh n. rewrite checkOrdersLimit_live by exact Hlive.
    apply checkLimits_counted; [apply orderLimits_NoDup|].
    apply attempts_counted; assumption.
Qed.

End RateLimiterProperties.

(** With a threshold of 2 for the account and the collective, the third
    attempt of the same account on the same collective does not pass. *)
Lemma checkOrdersLimit_rejects_and_counts_witness :
  testEnvironment production = false
  /\ snd (checkOrdersLimit production (from 11 (to 21 noOrder)) (Some alice) None
            (attempts production 2 (from 11 (to 21 noOrder)) (Some alice) None world))
     <> inr tt.
Proof.
  split; [reflexivity|].
  destruct (checkOrdersLimit_rejects_and_counts production (from 11 (to 21 noOrder))
              (Some alice) None world eq_refl) as (_ & _ & _ & Hseq).
  intros Hpass.
  pose proof (proj1 (Hseq (fun l _ => lookup_empty (key l)) 2%nat) Hpass
                (mkLimit "order_limit_on_account_11_and_collective_21" 2)) as Hbelow.
  assert (2 < 2) as Habs; [|lia].
  apply Hbelow. right. left.
Defined.

(** ** [createOrder]: the [catch] block *)

Section CatchProperties.
Context {Ext : Type} (E : Env Ext).

(** The world once the status of an order has been set to [ERROR]. *)
Lemma catch_marks_error (w : World Ext) (oc : Order) e :
  processedAt (row oc) = None ->
  createOrder_catch e (w, Some oc)
  = ((with_db (with_Orders (alter (set_status ERROR) (id oc)) (db w)) w,
      Some (on_row (set_status ERROR) oc)), inl e).
Proof.
  intros Hnone. unfold createOrder_catch, bind, getLocal, gets, mutating, Order_update.
  cbn. rewrite Hnone. reflexivity.
Qed.

Lemma catch_leaves_processed (w : World Ext) (oc : Order) e :
  is_Some (processedAt (row oc)) ->
  createOrder_catch e (w, Some oc) = ((w, Some oc), inl e).
Proof.
  intros [t Ht]. unfold createOrder_catch, bind, getLocal, gets.
  cbn. rewrite Ht. reflexivity.
Qed.

Lemma catch_without_order (w : World Ext) e :
  createOrder_catch e (w, None) = ((w, None), inl e).
Proof. reflexivity. Qed.

(** C1. When the checks before the [try] block pass and the block fails
    with an error after the order has been created ([orderCreated] holds the
    order), [createOrder] raises that same error; if [processedAt] of the
    order is not set, the status of its row is set to [ERROR] and nothing
    else changes; if it is set, the store is left as the failure left it. *)
Theorem createOrder_error_after_persist order remoteUser reqIp
    (w0 w1 w2 : World Ext) recaptchaResponse (orderCreated : Order) e :
  createOrder_checks E order remoteUser reqIp w0 = (w1, inr recaptchaResponse) ->
  createOrder_try E order remoteUser reqIp recaptchaResponse (w1, None)
    = ((w2, Some orderCreated), inl e) ->
  exists w3,
    createOrder E order remoteUser reqIp w0 = (w3, inl e)
    /\ (processedAt (row orderCreated) = None ->
        calls w3 = calls w2
        /\ Orders (db w3) = alter (set_status ERROR) (id orderCreated) (Orders (db w2))
        /\ (forall r, Orders (db w2) !! id orderCreated = Some r ->
                      exists r', Orders (db w3) !! id orderCreated = Some r'
                                 /\ status r' = ERROR)
        /\ (forall i, i <> id orderCreated -> Orders (db w3) !! i = Orders (db w2) !! i))
    /\ (is_Some (processedAt (row orderCreated)) -> w3 = w2).
Proof.
  intros Hchecks Htry. unfold createOrder.
  rewrite (bind_inr _ _ _ _ _ Hchecks). unfold scoped, tryCatch. rewrite Htry.
  destruct (processedAt (row orderCreated)) as [t|] eqn:Hp.
  - rewrite catch_leaves_processed by eauto. cbn. eexists. split; [reflexivity|].
    split; [discriminate|]. reflexivity.
  - rewrite catch_marks_error by exact Hp. cbn [fst]. eexists. split; [reflexivity|].
    split; [|intros [? ?]; discriminate]. intros _. cbn.
    split; [reflexivity|]. split; [reflexivity|]. split.
    + intros r Hr. exists (set_status ERROR r). split; [|reflexivity].
      rewrite lookup_alter_eq, Hr. reflexivity.
    + intros i Hi. apply lookup_alter_ne. congruence.
Qed.

End CatchProperties.

(** A declined card: the order 81 is created, the charge fails, the row is
    marked [ERROR] and the error of the provider reaches the caller. *)
Lemma createOrder_error_after_persist_witness :
  let order := to 21 (amount 500 (payingWith "tok_declined" noOrder)) in
  let w1 := fst (createOrder_checks production order (Some alice) None world) in
  let failed := createOrder_try production order (Some alice) None None (w1, None) in
  createOrder_checks production order (Some alice) None world = (w1, inr None)
  /\ (exists oc, failed = ((fst (fst failed), Some oc), inl (Error "Your card was declined."))
                 /\ processedAt (row oc) = None /\ id oc = 81)
  /\ exists w3,
       createOrder production order (Some alice) None world
         = (w3, inl (Error "Your card was declined."))
       /\ status <$> Orders (db w3) !! 81 = Some ERROR.
Proof.
  intros order w1 failed.
  assert (createOrder_checks production order (Some alice) None world = (w1, inr None))
    as Hchecks by (vm_compute; reflexivity).
  assert (exists oc, failed = ((fst (fst failed), Some oc), inl (Error "Your card was declined."))
                     /\ processedAt (row oc) = None /\ id oc = 81) as Hfailed.
  { eexists. split; [vm_compute; reflexivity|]. split; reflexivity. }
  split; [exact Hchecks|]. split; [exact Hfailed|].
  destruct Hfailed as (oc & Hfailed & Hnone & Hid).
  destruct (createOrder_error_after_persist production order (Some alice) None
              world w1 (fst (fst failed)) None oc _ Hchecks Hfailed)
    as (w3 & Hrun & Hmark & _).
  exists w3. split; [exact Hrun|].
  destruct (Hmark Hnone) as (_ & _ & Hrow & _).
  rewrite Hid in Hrow.
  destruct (Hrow (set_processedAt None (set_status PENDING (orderDataOf production order None None
     (mkDraft project None true (Some alice) aliceProfile None None "USD" 1 (Some 500) "Donation to Project") 1))))
    as (r' & Hr' & Hst).
  - vm_compute. reflexivity.
  - rewrite Hr'. cbn. rewrite Hst. reflexivity.
Defined.

(** ** Computations that make no call to the payment library *)

Create HintDb quiet.

Section Quiet.
Context {Ext : Type} (E : Env Ext).

Lemma quiet_ret {A} (a : A) : quiet (Ext := Ext) (ret a).
Proof. intros w. reflexivity. Qed.

Lemma quiet_throw {A} e : quiet (Ext := Ext) (A := A) (throw e).
Proof. intros w. reflexivity. Qed.

Lemma quiet_throwIf c e : quiet (Ext := Ext) (throwIf c e).
Proof. intros w. destruct c; reflexivity. Qed.

Lemma quiet_gets {A} (f : World Ext -> A) : quiet (gets f).
Proof. intros w. reflexivity. Qed.

Lemma quiet_inDb {A} (m : M (Store Ext) A) : quiet (inDb m).
Proof. intros w. unfold inDb, zoom. destruct (m (db w)). reflexivity. Qed.

Lemma quiet_defined {A} p (v : option A) : quiet (Ext := Ext) (defined p v).
Proof. intros w. destruct v; reflexivity. Qed.

Lemma quiet_bind {A B} (m : M (World Ext) A) (k : A -> M (World Ext) B) :
  quiet m -> (forall a, quiet (k a)) -> quiet (bind m k).
Proof.
  intros Hm Hk w. unfold bind. specialize (Hm w).
  destruct (m w) as [w1 [e|a]]; cbn in *; [exact Hm|].
  rewrite Hk. exact Hm.
Qed.

Hint Resolve quiet_ret quiet_throw quiet_throwIf quiet_gets quiet_inDb quiet_defined : quiet.

Ltac quiet_step :=
  match goal with
  | |- quiet (bind _ _) => apply quiet_bind; [|intros ?]
  | |- quiet (match ?x with _ => _ end) => destruct x
  | |- quiet (let _ := _ in _) => cbv zeta
  | |- quiet _ => solve [auto with quiet]
  end.

Ltac quiet_steps := repeat quiet_step.

Lemma quiet_checkLimits limits : quiet (checkLimits E limits).
Proof.
  intros w. revert w. induction limits as [|l rest IH]; intros w; [reflexivity|].
  rewrite checkLimits_cons. destruct (value l <=? counter w (key l)); [reflexivity|].
  rewrite IH. reflexivity.
Qed.

Lemma quiet_checks order remoteUser reqIp :
  quiet (createOrder_checks E order remoteUser reqIp).
Proof.
  unfold createOrder_checks, checkOrdersLimit, checkRecaptcha.
  apply quiet_bind; [|intros _].
  - destruct (testEnvironment E); [apply quiet_ret|apply quiet_checkLimits].
  - quiet_steps.
Qed.

Lemma quiet_target order remoteUser : quiet (createOrder_target E order remoteUser).
Proof.
  unfold createOrder_target, checkPaymentMethodOnFile, checkCollectiveInput,
    checkGithubHandle, checkPlatformFee, resolveCollective, checkFees, resolveTier.
  quiet_steps.
Qed.

Lemma quiet_validate order remoteUser : quiet (createOrder_validate E order remoteUser).
Proof.
  unfold createOrder_validate. apply quiet_bind; [apply quiet_target|intros [collective tier]].
  unfold checkPaymentMethod, checkQuantity, resolveUser, resolveFromCollective,
    resolveMatchingFund, draftOf.
  quiet_steps.
Qed.

End Quiet.

(** ** [createOrder]: the checks on the payment method and on the quantity *)

Section ValidationProperties.
Context {Ext : Type} (E : Env Ext).

(** A failure of the validation reaches the caller as it is: no order has
    been created, so the [catch] block only re-throws. *)
Lemma createOrder_validation_fails order remoteUser reqIp
    (w0 w1 w2 : World Ext) recaptchaResponse e :
  createOrder_checks E order remoteUser reqIp w0 = (w1, inr recaptchaResponse) ->
  createOrder_validate E order remoteUser w1 = (w2, inl e) ->
  createOrder E order remoteUser reqIp w0 = (w2, inl e) /\ calls w2 = calls w0.
Proof.
  intros Hchecks Hval. split.
  - assert (createOrder_try E order remoteUser reqIp recaptchaResponse (w1, None)
            = ((w2, None), inl e)) as Htry.
    { unfold createOrder_try. apply bind_inl.
      unfold inW, zoom. cbn [fst]. rewrite Hval. reflexivity. }
    unfold createOrder. rewrite (bind_inr _ _ _ _ _ Hchecks).
    unfold scoped, tryCatch. rewrite Htry. reflexivity.
  - pose proof (quiet_checks E order remoteUser reqIp w0) as Hq1.
    pose proof (quiet_validate E order remoteUser w1) as Hq2.
    rewrite Hchecks in Hq1. rewrite Hval in Hq2. cbn in Hq1, Hq2. congruence.
Qed.

Lemma paymentRequired_iff order tier collective :
  paymentRequired order tier collective = true
  <-> ((exists a, oi_totalAmount order = Some a /\ 0 < a)
       \/ (exists t a, tier = Some t /\ t_amount t = Some a /\ 0 < a))
      /\ c_isActive collective = true.
Proof.
  unfold paymentRequired, gtZ. rewrite andb_true_iff, orb_true_iff. split.
  - intros [[H|H] Hact]; (split; [|exact Hact]).
    + left. destruct (oi_totalAmount order) as [a|]; [|discriminate].
      exists a. split; [reflexivity|]. apply Z.ltb_lt. exact H.
    + right. destruct tier as [t|]; [|discriminate].
      destruct (t_amount t) as [a|] eqn:Ha; [|discriminate].
      exists t, a. split; [reflexivity|]. split; [exact Ha|]. apply Z.ltb_lt. exact H.
  - intros [[(a & -> & Ha)|(t & a & -> & Ht & Ha)] Hact]; (split; [|exact Hact]).
    + left. apply Z.ltb_lt. exact Ha.
    + right. rewrite Ht. apply Z.ltb_lt. exact Ha.
Qed.

Lemma missingPaymentMethod_iff pm :
  missingPaymentMethod pm = true
  <-> pm = None
      \/ exists p, pm = Some p /\ truthyS (pi_uuid p) = false
                   /\ truthyS (pi_token p) = false /\ pi_type p <> Some "manual".
Proof.
  unfold missingPaymentMethod. destruct pm as [p|]; [|split; auto].
  rewrite negb_true_iff, !orb_false_iff. unfold isS. split.
  - intros [[Hu Ht] Hm]. right. exists p. repeat split; try assumption.
    intros Heq. rewrite Heq in Hm. discriminate.
  - intros [H|(p' & Hp & Hu & Ht & Hm)]; [discriminate|]. injection Hp as <-.
    repeat split; try assumption.
    destruct (pi_type p) as [s|]; [|reflexivity].
    apply String.eqb_neq. congruence.
Qed.

(** C5. Payment is required exactly when the total amount or the amount of
    the tier is positive and the collective is active.  A call that passes
    the checks made before and resolves its collective and tier, for which
    payment is required and whose payment method is absent or carries
    neither a uuid, nor a token, nor the type 'manual', fails with the
    error "This order requires a payment method", and the payment library
    has not been called. *)
Theorem createOrder_requires_payment_method order remoteUser reqIp
    (w0 w1 w2 : World Ext) recaptchaResponse collective tier :
  createOrder_checks E order remoteUser reqIp w0 = (w1, inr recaptchaResponse) ->
  createOrder_target E order remoteUser w1 = (w2, inr (collective, tier)) ->
  (paymentRequired order tier collective = true
   <-> ((exists a, oi_totalAmount order = Some a /\ 0 < a)
        \/ (exists t a, tier = Some t /\ t_amount t = Some a /\ 0 < a))
       /\ c_isActive collective = true)
  /\ (paymentRequired order tier collective = true ->
      (oi_paymentMethod order = None
       \/ exists p, oi_paymentMethod order = Some p /\ truthyS (pi_uuid p) = false
                    /\ truthyS (pi_token p) = false /\ pi_type p <> Some "manual") ->
      createOrder E order remoteUser reqIp w0
        = (w2, inl (Error "This order requires a payment method"))
      /\ calls w2 = calls w0).
Proof.
  intros Hchecks Htarget. split; [apply paymentRequired_iff|].
  intros Hreq Hmissing. apply missingPaymentMethod_iff in Hmissing.
  apply (createOrder_validation_fails _ _ _ _ _ _ _ _ Hchecks).
  unfold createOrder_validate. rewrite (bind_inr _ _ _ _ _ Htarget). cbn [fst snd].
  apply bind_inl. unfold checkPaymentMethod. apply bind_inl.
  rewrite Hreq, Hmissing. reflexivity.
Qed.


End ValidationProperties.

(** A donation of 500 to an active collective without a payment method. *)
Lemma createOrder_requires_payment_method_witness :
  let order := to 21 (amount 500 noOrder) in
  createOrder_checks production order (Some alice) None world
    = (fst (createOrder_checks production order (Some alice) None world), inr None)
  /\ createOrder_target production order (Some alice)
       (fst (createOrder_checks production order (Some alice) None world))
     = (world, inr (project, None))
  /\ paymentRequired order None project = true
  /\ createOrder production order (Some alice) None world
     = (world, inl (Error "This order requires a payment method")).
Proof.
  intros order.
  assert (createOrder_checks production order (Some alice) None world
          = (fst (createOrder_checks production order (Some alice) None world), inr None))
    as Hchecks by (vm_compute; reflexivity).
  assert (createOrder_target production order (Some alice)
            (fst (createOrder_checks production order (Some alice) None world))
          = (world, inr (project, None))) as Htarget by (vm_compute; reflexivity).
  split; [exact Hchecks|]. split; [exact Htarget|]. split; [reflexivity|].
  destruct (createOrder_requires_payment_method production order (Some alice) None
              world _ world None project None Hchecks Htarget) as [_ Hfails].
  apply Hfails; [reflexivity|]. left. reflexivity.
Defined.



Section FreeTicket.
Context {Ext : Type} (E : Env Ext).

Lemma validate_draft order remoteUser (w w' : World Ext) d :
  createOrder_validate E order remoteUser w = (w', inr d) ->
  d_paymentRequired d = paymentRequired order (d_tier d) (d_collective d).
Proof.
  unfold createOrder_validate. intros H.
  apply bind_inv_inr in H as (w1 & [collective tier] & _ & H). cbn [fst snd] in H.
  apply bind_inv_inr in H as (w2 & pr & Hpr & H).
  apply bind_inv_inr in H as (w3 & _ & _ & H).
  apply bind_inv_inr in H as (w4 & user & _ & H).
  apply bind_inv_inr in H as (w5 & fromCollective & _ & H).
  apply bind_inv_inr in H as (w6 & matchingFund & _ & H).
  unfold draftOf in H. apply bind_inv_inr in H as (w7 & _ & _ & H).
  unfold ret in H. injection H as _ <-. cbn.
  unfold checkPaymentMethod in Hpr. apply bind_inv_inr in Hpr as (w8 & _ & _ & Hpr).
  unfold ret in Hpr. congruence.
Qed.

Lemma execute_free_ticket order remoteUser reqIp recaptchaResponse d user (w : World Ext) :
  d_paymentRequired d = false ->
  c_type (d_collective d) = EVENT ->
  d_user d = Some user ->
  exists w' oc o,
    createOrder_execute E order remoteUser reqIp recaptchaResponse d (w, None)
      = ((w', oc), inr o)
    /\ id o = fresh (dom (Orders (db w)))
    /\ status (row o) = PAID
    /\ processedAt (row o) = Some (now E)
    /\ Orders (db w') !! id o = Some (row o)
    /\ mkMember (u_id user) (u_CollectiveId user) (c_id (d_collective d)) ATTENDEE
        ∈ Members (db w')
    /\ (exists a, Activities (db w') = Activities (db w) ++ [a]
                  /\ a_type a = TICKET_CONFIRMED)
    /\ calls w' = calls w.
Proof.
  intros Hpr Htype Huser. unfold createOrder_execute.
  rewrite Hpr, Htype, Huser.
  rewrite (bool_decide_eq_false_2 (EVENT = COLLECTIVE)) by discriminate.
  rewrite (bool_decide_eq_true_2 (EVENT = EVENT)) by reflexivity.
  rewrite andb_false_r.
  destruct remoteUser as [ru|];
    unfold bind, ret, defined, setLocal, modify, inW, inDb, zoom, mutating, Order_create,
      Order_update, addUserWithRole, Activity_create, Order_findByPk, gets;
    cbn; rewrite lookup_alter_eq, lookup_insert_eq; cbn;
    match goal with
    | |- context [definedZ ?x] => destruct (definedZ x) as [referral|]
    end; cbn;
    try match goal with
    | |- context [negb ?b] => destruct b
    end; cbn;
    (eexists _, _, _; split; [reflexivity|]; cbn;
     rewrite ?lookup_alter_eq, ?lookup_insert_eq; cbn;
     repeat split; try reflexivity;
     [ rewrite ?elem_of_app, ?list_elem_of_singleton; auto
     | eexists; split; reflexivity ]).
Qed.

Lemma createOrder_runs order remoteUser reqIp (w0 w1 w2 w3 : World Ext)
    recaptchaResponse d oc o :
  createOrder_checks E order remoteUser reqIp w0 = (w1, inr recaptchaResponse) ->
  createOrder_validate E order remoteUser w1 = (w2, inr d) ->
  createOrder_execute E order remoteUser reqIp recaptchaResponse d (w2, None)
    = ((w3, oc), inr o) ->
  createOrder E order remoteUser reqIp w0 = (w3, inr o).
Proof.
  intros Hchecks Hval Hexec.
  assert (createOrder_try E order remoteUser reqIp recaptchaResponse (w1, None)
          = ((w3, oc), inr o)) as Htry.
  { unfold createOrder_try. rewrite <- Hexec. apply bind_inr.
    unfold inW, zoom. cbn [fst]. rewrite Hval. reflexivity. }
  unfold createOrder. rewrite (bind_inr _ _ _ _ _ Hchecks).
  unfold scoped, tryCatch. rewrite Htry. reflexivity.
Qed.


End FreeTicket.


(** ** [createOrder]: pledges to a GitHub handle *)

Section GithubProperties.
Context {Ext : Type} (E : Env Ext).

(** A repository that cannot be verified or has fewer than 100 stars. *)
Lemma checkGithubHandle_repository (w : World Ext) githubHandle h :
  definedS githubHandle = Some h -> includes "/"%char h = true ->
  (github_getRepo E h = None
   \/ exists repo, github_getRepo E h = Some repo /\ stargazers_count repo < 100) ->
  exists message, checkGithubHandle E githubHandle w = (w, inl (ValidationFailed message)).
Proof.
  intros Hh Hrepo Hbad. unfold checkGithubHandle. rewrite Hh, Hrepo.
  destruct Hbad as [->|(repo & -> & Hstars)]; [eexists; reflexivity|].
  assert ((stargazers_count repo <? 100) = true) as -> by (apply Z.ltb_lt; exact Hstars).
  eexists. reflexivity.
Qed.

(** An organization that cannot be verified, or none of whose listed
    repositories has 100 stars. *)
Lemma checkGithubHandle_organization (w : World Ext) githubHandle h :
  definedS githubHandle = Some h -> includes "/"%char h = false ->
  (github_getOrg E h = None
   \/ exists allRepos, github_getAllOrganizationPublicRepos E h = Some allRepos
                       /\ Forall (fun repo => stargazers_count repo < 100) allRepos) ->
  exists message, checkGithubHandle E githubHandle w = (w, inl (ValidationFailed message)).
Proof.
  intros Hh Horg Hbad. unfold checkGithubHandle. rewrite Hh, Horg.
  destruct Hbad as [->|(allRepos & -> & Hall)]; [eexists; reflexivity|].
  destruct (github_getOrg E h); [|eexists; reflexivity].
  destruct (find _ allRepos) as [repo|] eqn:Hfind; [|eexists; reflexivity].
  apply find_some in Hfind as [Hin Hstars].
  rewrite Forall_forall in Hall. apply list_elem_of_In, Hall in Hin.
  apply Z.leb_le in Hstars. lia.
Qed.

(** An organization that is verified but whose repositories cannot be
    listed: [allRepos] is [null] and [allRepos.find] raises. *)
Lemma checkGithubHandle_organization_unlisted (w : World Ext) githubHandle h org :
  definedS githubHandle = Some h -> includes "/"%char h = false ->
  github_getOrg E h = Some org ->
  github_getAllOrganizationPublicRepos E h = None ->
  checkGithubHandle E githubHandle w
  = (w, inl (TypeError "Cannot read property 'find' of null")).
Proof.
  intros Hh Horg Hfound Hnone. unfold checkGithubHandle.
  rewrite Hh, Horg, Hfound, Hnone. reflexivity.
Qed.

End GithubProperties.

(** C8, where the code departs from it.  The organization [flaky] is
    verified, the list of its repositories cannot be fetched: the call fails
    with a [TypeError], not with [ValidationFailed]. *)
Theorem createOrder_pledge_unlisted_organization :
  includes "/"%char "flaky" = false
  /\ github_getOrg production "flaky" = Some tt
  /\ github_getAllOrganizationPublicRepos production "flaky" = None
  /\ createOrder production (pledgeTo "flaky" (amount 500 noOrder)) (Some alice) None world
     = (world, inl (TypeError "Cannot read property 'find' of null")).
Proof.
  split; [reflexivity|]. split; [reflexivity|]. split; [reflexivity|].
  vm_compute. reflexivity.
Qed.

(** ** [updateOrder] *)

Section UpdateOrderProperties.
Context {Ext : Type} (E : Env Ext).

(** C10. For a logged-in requester and an existing order, when the total
    amount submitted is not above 0 or the collective of the order is not
    active, [updateOrder] returns the stored row of the order and leaves
    the world as it was: no call to the payment library, no write. *)
Theorem updateOrder_without_payment remoteUser order (w : World Ext) i r :
  oi_id order = Some i ->
  Orders (db w) !! i = Some r ->
  (gtZ (oi_totalAmount order) 0 = false
   \/ exists c, Collectives (db w) !! CollectiveId r = Some c /\ c_isActive c = false) ->
  exists o, updateOrder E (Some remoteUser) order w = (w, inr o)
            /\ id o = i /\ row o = r /\ paymentMethod o = None.
Proof.
  intros Hid Hrow Hfree. destruct w as [s c]. cbn in Hrow, Hfree.
  unfold updateOrder, bind, inDb, zoom, Order_findOne, Order_reload, gets, defined.
  cbn. rewrite Hid. cbn. rewrite Hrow. cbn.
  destruct (gtZ (oi_totalAmount order) 0) eqn:Hgt.
  - destruct Hfree as [Hfree|(col & Hcol & Hinactive)]; [discriminate|].
    rewrite Hcol. cbn. rewrite Hinactive. cbn. rewrite Hrow.
    eexists. split; [reflexivity|]. cbn. repeat split.
  - cbn. rewrite Hrow. eexists. split; [reflexivity|]. cbn. repeat split.
Qed.

End UpdateOrderProperties.

(** An update with a total amount of 0 returns the stored order. *)
Lemma updateOrder_without_payment_witness :
  oi_id (existing 80 (amount 0 noOrder)) = Some 80
  /\ Orders (db world) !! 80 = Some aliceOrder
  /\ exists o, updateOrder production (Some bob) (existing 80 (amount 0 noOrder)) world
               = (world, inr o) /\ row o = aliceOrder.
Proof.
  split; [reflexivity|]. split; [reflexivity|].
  destruct (updateOrder_without_payment production bob (existing 80 (amount 0 noOrder))
              world 80 aliceOrder eq_refl eq_refl (or_introl eq_refl))
    as (o & Hrun & _ & Hrow & _).
  exists o. split; [exact Hrun|exact Hrow].
Defined.

(** ** [cancelSubscription] *)

Section CancelProperties.
Context {Ext : Type} (E : Env Ext).


Lemma cancel_already_cancelled remoteUser orderId (w : World Ext) r sid s :
  Orders (db w) !! orderId = Some r ->
  SubscriptionId r = Some sid ->
  Subscriptions (db w) !! sid = Some s ->
  s_isActive s = false -> status r = CANCELLED ->
  exists e, cancelSubscription E remoteUser orderId w = (w, inl e)
            /\ (forall u, remoteUser = Some u ->
                          u_isAdmin u (Some (FromCollectiveId r)) = true ->
                          e = Error "Subscription already canceled").
Proof.
  intros Hrow Hsid Hsub Hinactive Hstatus. destruct w as [st c]. cbn in Hrow, Hsub.
  unfold cancelSubscription.
  destruct remoteUser as [u|]; [|eexists; split; [reflexivity|discriminate]].
  unfold bind, inDb, zoom, Order_findOne, Subscription_load, gets, defined. cbn.
  rewrite Hrow. cbn. rewrite Hsid. cbn. rewrite Hsub. cbn.
  destruct (u_isAdmin u (Some (FromCollectiveId r))) eqn:Hadmin; cbn.
  - rewrite Hinactive, Hstatus. cbn. eexists. split; [reflexivity|]. reflexivity.
  - eexists. split; [reflexivity|]. intros u' Hu'. injection Hu' as <-. congruence.
Qed.

Lemma cancel_accepted u orderId (w : World Ext) r sid s c fc :
  Orders (db w) !! orderId = Some r ->
  SubscriptionId r = Some sid ->
  Subscriptions (db w) !! sid = Some s ->
  u_isAdmin u (Some (FromCollectiveId r)) = true ->
  (s_isActive s = true \/ status r <> CANCELLED) ->
  Collectives (db w) !! CollectiveId r = Some c ->
  Collectives (db w) !! FromCollectiveId r = Some fc ->
  exists w' o a,
    cancelSubscription E (Some u) orderId w = (w', inr (Some o))
    /\ id o = orderId
    /\ row o = set_status CANCELLED r
    /\ Orders (db w') = alter (set_status CANCELLED) orderId (Orders (db w))
    /\ Subscriptions (db w')
       = alter (fun x => set_deactivatedAt (Some (now E)) (set_isActive false x)) sid
           (Subscriptions (db w))
    /\ Activities (db w') = Activities (db w) ++ [a]
    /\ a_type a = SUBSCRIPTION_CANCELED
    /\ calls w' = calls w.
Proof.
  intros Hrow Hsid Hsub Hadmin Hlive Hc Hfc. destruct w as [st cl]. cbn in Hrow, Hsub, Hc, Hfc.
  unfold cancelSubscription.
  unfold bind, inDb, zoom, stepW, Order_findOne, Order_update, Subscription_deactivate,
    Subscription_update, Subscription_load, Activity_create, gets, modify, defined.
  cbn. rewrite Hrow. cbn. rewrite Hsid. cbn. rewrite Hsub, Hc, Hfc. cbn.
  rewrite Hadmin. cbn.
  assert (negb (s_isActive s) && bool_decide (status r = CANCELLED) = false) as ->.
  { destruct Hlive as [->|Hne]; [reflexivity|].
    rewrite (bool_decide_eq_false_2 _ Hne). apply andb_false_r. }
  cbn. rewrite lookup_alter_eq, Hrow. cbn.
  eexists _, _, _. split; [reflexivity|]. cbn. repeat split.
Qed.


End CancelProperties.


(** ** [updateSubscription] *)

Section UpdateSubscriptionProperties.
Context {Ext : Type} (E : Env Ext).

(** C9. When the subscription of the order is not active, every call of
    [updateSubscription] fails and leaves the world as it was, whatever
    payment method or amount it carries; for a requester who is an admin of
    the collective the order comes from the error is "Subscription must be
    active to be updated". *)
Theorem updateSubscription_inactive remoteUser args (w : World Ext) r sid s :
  Orders (db w) !! sa_id args = Some r ->
  SubscriptionId r = Some sid ->
  Subscriptions (db w) !! sid = Some s ->
  s_isActive s = false ->
  exists e,
    updateSubscription E remoteUser args w = (w, inl e)
    /\ (forall u, remoteUser = Some u ->
                  u_isAdmin u (Some (FromCollectiveId r)) = true ->
                  e = Error "Subscription must be active to be updated").
Proof.
  intros Hrow Hsid Hsub Hinactive. destruct w as [st c]. cbn in Hrow, Hsub.
  unfold updateSubscription, updateSubscription_prepare.
  assert (exists e, updateSubscription_load remoteUser args (mkWorld st c)
                    = (mkWorld st c, inl e)
                    /\ (forall u, remoteUser = Some u ->
                                  u_isAdmin u (Some (FromCollectiveId r)) = true ->
                                  e = Error "Subscription must be active to be updated"))
    as (e & Hload & He).
  { unfold updateSubscription_load.
    destruct remoteUser as [u|]; [|eexists; split; [reflexivity|discriminate]].
    unfold bind, inDb, zoom, Order_findOne, Subscription_load, gets, defined. cbn.
    rewrite Hrow. cbn. rewrite Hsid. cbn. rewrite Hsub. cbn.
    destruct (u_isAdmin u (Some (FromCollectiveId r))) eqn:Hadmin; cbn.
    - rewrite Hinactive. cbn. eexists. split; [reflexivity|]. reflexivity.
    - eexists. split; [reflexivity|]. intros u' Hu'. injection Hu' as <-. congruence. }
  exists e. split; [|exact He].
  apply bind_inl. apply bind_inl. exact Hload.
Qed.

Lemma load_inv remoteUser args (w w' : World Ext) o :
  updateSubscription_load remoteUser args w = (w', inr o) ->
  w' = w /\ id o = sa_id args /\ is_Some (Orders (db w) !! id o)
  /\ exists sub, Subscription_ o = Some sub
                 /\ is_Some (Subscriptions (db w) !! sub_id sub).
Proof.
  unfold updateSubscription_load. destruct remoteUser as [u|]; [|discriminate].
  destruct w as [st c].
  unfold bind, inDb, zoom, Order_findOne, Subscription_load, gets, defined. cbn.
  destruct (Orders st !! sa_id args) as [r|] eqn:Hrow; cbn; [|discriminate].
  destruct (u_isAdmin u (Some (FromCollectiveId r))); cbn; [|discriminate].
  destruct (SubscriptionId r) as [sid|]; cbn; [|discriminate].
  destruct (Subscriptions st !! sid) as [s|] eqn:Hsub; cbn; [|discriminate].
  destruct (s_isActive s); cbn; [|discriminate].
  intros H. injection H as <- <-. cbn. rewrite Hrow.
  split; [reflexivity|]. split; [reflexivity|]. split; [eauto|].
  eexists. split; [reflexivity|]. cbn. rewrite Hsub. eauto.
Qed.

Lemma inExt_frame {A} (m : M Ext A) (w w' : World Ext) r :
  inExt m w = (w', r) ->
  Orders (db w') = Orders (db w) /\ Subscriptions (db w') = Subscriptions (db w).
Proof.
  unfold inExt, inDb, zoom. destruct (m (ext (db w))) as [x a].
  intros H. injection H as <- _. split; reflexivity.
Qed.

Lemma paymentMethod_frame order paymentMethod (w w1 : World Ext) order1 :
  updateSubscription_paymentMethod E order paymentMethod w = (w1, inr order1) ->
  id order1 = id order
  /\ dom (Orders (db w1)) = dom (Orders (db w))
  /\ dom (Subscriptions (db w1)) = dom (Subscriptions (db w))
  /\ (forall sub, Subscription_ order = Some sub ->
                  exists sub1, Subscription_ order1 = Some sub1 /\ sub_id sub1 = sub_id sub).
Proof.
  unfold updateSubscription_paymentMethod. destruct paymentMethod as [pm|].
  2:{ intros H. injection H as <- <-. repeat split. eauto. }
  intros H. apply bind_inv_inr in H as (wa & newPm & Hpm & H).
  assert (Orders (db wa) = Orders (db w) /\ Subscriptions (db wa) = Subscriptions (db w))
    as [Ho Hs].
  { destruct (match definedS (pi_uuid pm) with
              | Some uuid => if Nat.eqb (String.length uuid) 36 then Some uuid else None
              | None => None
              end) as [uuid|].
    - apply bind_inv_inr in Hpm as (wb & found & Hfind & Hpm).
      apply inExt_frame in Hfind. destruct found; [|discriminate].
      injection Hpm as <- _. exact Hfind.
    - eapply inExt_frame. exact Hpm. }
  apply bind_inv_inr in H as (wc & sub & Hsub & H).
  destruct (Subscription_ order) as [sub0|] eqn:Hsub0; [|discriminate].
  injection Hsub as <- <-.
  apply bind_inv_inr in H as (wd & order' & Hretry & H).
  unfold stepW, Order_update in H. injection H as <- <-.
  destruct (0 <? s_chargeRetryCount (sub_row sub0)).
  - unfold bind, inDb, zoom, Subscription_update, ret in Hretry.
    injection Hretry as <- <-. cbn.
    rewrite !dom_alter_L, Ho, Hs. repeat split.
    intros sub Hsub. injection Hsub as <-. eexists. split; reflexivity.
  - injection Hretry as <- <-. cbn.
    rewrite !dom_alter_L, Ho, Hs. repeat split.
    intros sub Hsub. injection Hsub as <-. rewrite Hsub0. eauto.
Qed.

Lemma prepare_inv remoteUser args (w w1 : World Ext) order :
  updateSubscription_prepare E remoteUser args w = (w1, inr order) ->
  dom (Orders (db w1)) = dom (Orders (db w))
  /\ dom (Subscriptions (db w1)) = dom (Subscriptions (db w))
  /\ id order ∈ dom (Orders (db w1))
  /\ exists old, Subscription_ order = Some old
                 /\ sub_id old ∈ dom (Subscriptions (db w1)).
Proof.
  unfold updateSubscription_prepare. intros H.
  apply bind_inv_inr in H as (w' & o & Hload & Hpm).
  apply load_inv in Hload as (-> & Hid & Hrow & sub & Hsub & Hsubrow).
  apply paymentMethod_frame in Hpm as (Hid1 & Ho & Hs & Hkeep).
  destruct (Hkeep sub Hsub) as (sub1 & Hsub1 & Hsid).
  split; [exact Ho|]. split; [exact Hs|]. split.
  - rewrite Ho, Hid1. apply elem_of_dom. exact Hrow.
  - exists sub1. split; [exact Hsub1|]. rewrite Hs, Hsid. apply elem_of_dom. exact Hsubrow.
Qed.

Lemma amount_rejected order old amount (w : World Ext) :
  Subscription_ order = Some old ->
  (s_amount (sub_row old) = Some amount \/ amount < 100 \/ Z.rem amount 100 <> 0) ->
  exists e, updateSubscription_amount E order (Some amount) w = (w, inl e).
Proof.
  intros Hold Hbad. unfold updateSubscription_amount, bind, defined, throwIf.
  rewrite Hold. cbn.
  destruct (bool_decide (s_amount (sub_row old) = Some amount)) eqn:Hsame;
    [eexists; reflexivity|].
  apply bool_decide_eq_false in Hsame. cbn.
  destruct ((amount <? 100) || negb (Z.rem amount 100 =? 0)) eqn:Hinvalid;
    [eexists; reflexivity|].
  apply orb_false_iff in Hinvalid as [Hlow Hrem].
  apply Z.ltb_ge in Hlow. apply negb_false_iff, Z.eqb_eq in Hrem.
  destruct Hbad as [?|[?|?]]; [contradiction|lia|contradiction].
Qed.

Lemma amount_accepted order old amount (w : World Ext) :
  Subscription_ order = Some old ->
  s_amount (sub_row old) <> Some amount -> 100 <= amount -> Z.rem amount 100 = 0 ->
  id order ∈ dom (Orders (db w)) ->
  sub_id old ∈ dom (Subscriptions (db w)) ->
  exists w2 newOrder newSubscription,
    updateSubscription_amount E order (Some amount) w = (w2, inr newOrder)
    /\ (s_isActive <$> Subscriptions (db w2) !! sub_id old) = Some false
    /\ (status <$> Orders (db w2) !! id order) = Some CANCELLED
    /\ (sub_id newSubscription ∉ dom (Subscriptions (db w)))
    /\ Subscriptions (db w2) !! sub_id newSubscription = Some (sub_row newSubscription)
    /\ s_isActive (sub_row newSubscription) = true
    /\ s_amount (sub_row newSubscription) = Some amount
    /\ (id newOrder ∉ dom (Orders (db w)))
    /\ Orders (db w2) !! id newOrder = Some (row newOrder)
    /\ status (row newOrder) = PENDING
    /\ SubscriptionId (row newOrder) = Some (sub_id newSubscription)
    /\ totalAmount (row newOrder) = Some amount
    /\ dom (Orders (db w2)) = {[id newOrder]} ∪ dom (Orders (db w))
    /\ dom (Subscriptions (db w2))
       = {[sub_id newSubscription]} ∪ dom (Subscriptions (db w))
    /\ Activities (db w2) = Activities (db w)
    /\ calls w2 = calls w.
Proof.
  intros Hold Hdiff Hmin Hmult Horder Hsub. destruct w as [st c]. cbn in Horder, Hsub.
  apply elem_of_dom in Horder as [r Hr]. apply elem_of_dom in Hsub as [s Hs].
  unfold updateSubscription_amount, bind, defined, throwIf.
  rewrite Hold. cbn.
  rewrite (bool_decide_eq_false_2 _ Hdiff). cbn.
  assert ((amount <? 100) = false) as -> by (apply Z.ltb_ge; exact Hmin).
  rewrite Hmult. cbn.
  unfold inDb, zoom, stepW, Subscription_deactivate, Subscription_update, Subscription_create,
    Order_update, Order_create, ret. cbn.
  set (subs := alter _ (sub_id old) (Subscriptions st)).
  set (ords := alter (set_status CANCELLED) (id order) (Orders st)).
  assert (fresh (dom subs) ∉ dom (Subscriptions st)) as Hfs.
  { assert (dom subs = dom (Subscriptions st)) as Hd by apply dom_alter_L.
    rewrite <- Hd. apply is_fresh. }
  assert (fresh (dom ords) ∉ dom (Orders st)) as Hfo.
  { assert (dom ords = dom (Orders st)) as Hd by apply dom_alter_L.
    rewrite <- Hd. apply is_fresh. }
  assert (fresh (dom subs) <> sub_id old) as Hns.
  { intros Heq. apply Hfs. rewrite Heq. apply elem_of_dom. eauto. }
  assert (fresh (dom ords) <> id order) as Hno.
  { intros Heq. apply Hfo. rewrite Heq. apply elem_of_dom. eauto. }
  eexists _, _, (mkSubscription (fresh (dom subs)) _).
  split; [reflexivity|]. cbn.
  split. { rewrite lookup_insert_ne by exact Hns. subst subs.
           rewrite lookup_alter_eq, Hs. reflexivity. }
  split. { rewrite lookup_insert_ne by exact Hno. subst ords.
           rewrite lookup_alter_eq, Hr. reflexivity. }
  split; [exact Hfs|].
  split; [apply lookup_insert_eq|].
  split; [reflexivity|]. split; [reflexivity|].
  split; [exact Hfo|].
  split; [apply lookup_insert_eq|].
  split; [reflexivity|]. split; [reflexivity|]. split; [reflexivity|].
  split. { rewrite dom_insert_L. subst ords. rewrite dom_alter_L. reflexivity. }
  split. { rewrite dom_insert_L. subst subs. rewrite dom_alter_L. reflexivity. }
  split; reflexivity.
Qed.

(** C3. For a call that supplies an amount and reaches the change of amount
    (the requester, the order and its active subscription have been checked
    and the payment method, if one is supplied, has been replaced; none of
    which creates an order or a subscription): if the amount equals the
    amount of the subscription, is below 100 or is not a multiple of 100,
    the call fails and changes nothing more, so no row is created;
    otherwise the old subscription is inactive afterwards, the old order
    has the status [CANCELLED], one subscription and one order have been
    added, the new subscription is active and carries the new amount, and
    the new order, which is returned, has the status [PENDING] and refers
    to the new subscription. *)
Theorem updateSubscription_amount_spec remoteUser args (w w1 : World Ext) order amount :
  sa_amount args = Some amount ->
  updateSubscription_prepare E remoteUser args w = (w1, inr order) ->
  exists old,
    Subscription_ order = Some old
    /\ dom (Orders (db w1)) = dom (Orders (db w))
    /\ dom (Subscriptions (db w1)) = dom (Subscriptions (db w))
    /\ ((s_amount (sub_row old) = Some amount \/ amount < 100 \/ Z.rem amount 100 <> 0) ->
        exists e, updateSubscription E remoteUser args w = (w1, inl e))
    /\ (s_amount (sub_row old) <> Some amount -> 100 <= amount -> Z.rem amount 100 = 0 ->
        exists w2 newOrder newSubscription,
          updateSubscription E remoteUser args w = (w2, inr newOrder)
          /\ (s_isActive <$> Subscriptions (db w2) !! sub_id old) = Some false
          /\ (status <$> Orders (db w2) !! id order) = Some CANCELLED
          /\ (sub_id newSubscription ∉ dom (Subscriptions (db w1)))
          /\ Subscriptions (db w2) !! sub_id newSubscription
             = Some (sub_row newSubscription)
          /\ s_isActive (sub_row newSubscription) = true
          /\ s_amount (sub_row newSubscription) = Some amount
          /\ (id newOrder ∉ dom (Orders (db w1)))
          /\ Orders (db w2) !! id newOrder = Some (row newOrder)
          /\ status (row newOrder) = PENDING
          /\ SubscriptionId (row newOrder) = Some (sub_id newSubscription)
          /\ totalAmount (row newOrder) = Some amount
          /\ dom (Orders (db w2)) = {[id newOrder]} ∪ dom (Orders (db w1))
          /\ dom (Subscriptions (db w2))
             = {[sub_id newSubscription]} ∪ dom (Subscriptions (db w1))).
Proof.
  intros Hamount Hprepare.
  destruct (prepare_inv _ _ _ _ _ Hprepare) as (Ho & Hs & Horder & old & Hold & Hsub).
  exists old. split; [exact Hold|]. split; [exact Ho|]. split; [exact Hs|].
  unfold updateSubscription. rewrite (bind_inr _ _ _ _ _ Hprepare), Hamount. split.
  - intros Hbad. eapply amount_rejected; eassumption.
  - intros Hdiff Hmin Hmult.
    destruct (amount_accepted order old amount w1 Hold Hdiff Hmin Hmult Horder Hsub)
      as (w2 & newOrder & newSubscription & Hrun & H1 & H2 & H3 & H4 & H5 & H6 & H7 & H8
          & H9 & H10 & H11 & H12 & H13 & _).
    exists w2, newOrder, newSubscription. repeat (split; [assumption|]). assumption.
Qed.

End UpdateSubscriptionProperties.

(** From 1000 to 2000 a month: a new order and a new subscription; 2050 is
    not a multiple of 100 and is rejected. *)
Lemma updateSubscription_amount_spec_witness :
  let args := mkSubscriptionArgs 80 None (Some 2000) in
  sa_amount args = Some 2000
  /\ (exists order,
        updateSubscription_prepare production (Some alice) args world = (world, inr order)
        /\ id order = 80 /\ Subscription_ order = Some (mkSubscription 70 monthly))
  /\ (exists w2 newOrder,
        updateSubscription production (Some alice) args world = (w2, inr newOrder)
        /\ status (row newOrder) = PENDING
        /\ (s_isActive <$> Subscriptions (db w2) !! 70) = Some false
        /\ (status <$> Orders (db w2) !! 80) = Some CANCELLED)
  /\ exists e,
       updateSubscription production (Some alice) (mkSubscriptionArgs 80 None (Some 2050)) world
       = (world, inl e).
Proof.
  intros args. split; [reflexivity|].
  assert (exists order,
            updateSubscription_prepare production (Some alice) args world = (world, inr order)
            /\ id order = 80 /\ Subscription_ order = Some (mkSubscription 70 monthly))
    as Hprepare.
  { eexists. split; [vm_compute; reflexivity|]. split; reflexivity. }
  split; [exact Hprepare|].
  destruct Hprepare as (order & Hprepare & Hid & Hsub).
  split.
  - destruct (updateSubscription_amount_spec production (Some alice) args world world order
                2000 eq_refl Hprepare) as (old & Hold & _ & _ & _ & Haccept).
    rewrite Hsub in Hold. injection Hold as <-.
    destruct Haccept as (w2 & newOrder & newSub & Hrun & H1 & H2 & _ & _ & _ & _ & _ & _
                         & H9 & _); [discriminate|lia|reflexivity|].
    exists w2, newOrder. rewrite Hid in H2. cbn in H1. auto.
  - destruct (updateSubscription_amount_spec production (Some alice)
                (mkSubscriptionArgs 80 None (Some 2050)) world world order
                2050 eq_refl Hprepare) as (old & Hold & _ & _ & Hreject & _).
    apply Hreject. right. right. discriminate.
Defined.

(** Once cancelled, the subscription of Alice cannot be updated. *)
Lemma updateSubscription_inactive_witness :
  let w := fst (cancelSubscription production (Some alice) 80 world) in
  (exists r s, Orders (db w) !! 80 = Some r /\ SubscriptionId r = Some 70
               /\ Subscriptions (db w) !! 70 = Some s /\ s_isActive s = false)
  /\ updateSubscription production (Some alice) (mkSubscriptionArgs 80 None (Some 2000)) w
     = (w, inl (Error "Subscription must be active to be updated")).
Proof.
  intros w.
  assert (Orders (db w) !! 80 = Some (set_status CANCELLED aliceOrder)) as Hrow
    by (vm_compute; reflexivity).
  assert (Subscriptions (db w) !! 70
          = Some (set_deactivatedAt (Some 1000) (set_isActive false monthly))) as Hsub
    by (vm_compute; reflexivity).
  split.
  { eexists _, _. split; [exact Hrow|]. split; [reflexivity|].
    split; [exact Hsub|reflexivity]. }
  destruct (updateSubscription_inactive production (Some alice)
              (mkSubscriptionArgs 80 None (Some 2000)) w _ 70 _ Hrow eq_refl Hsub eq_refl)
    as (e & Hrun & He).
  rewrite Hrun. rewrite (He alice eq_refl eq_refl). reflexivity.
Defined.

(** * Further properties *)

(** ** The rate limiter, attempt by attempt *)

Section RateLimiterSteps.
Context {Ext : Type} (E : Env Ext).

(** The loop writes counters and nothing else. *)
Lemma checkLimits_store limits (w : World Ext) :
  db (fst (checkLimits E limits w))
  = with_cache (fun _ => cache (db (fst (checkLimits E limits w)))) (db w).
Proof.
  revert w. induction limits as [|l rest IH]; intros w.
  - destruct w as [[] ?]. reflexivity.
  - rewrite checkLimits_cons. destruct (value l <=? counter w (key l)); cbn [fst].
    + reflexivity.
    + rewrite IH at 1. reflexivity.
Qed.

Lemma checkLimits_all_pass limits (w : World Ext) :
  NoDup (key <$> limits) ->
  (forall l, l ∈ limits -> counter w (key l) < value l) ->
  snd (checkLimits E limits w) = inr tt
  /\ forall l, l ∈ limits ->
               counter (fst (checkLimits E limits w)) (key l) = counter w (key l) + 1.
Proof.
  revert w. induction limits as [|l rest IH]; intros w Hnd Hbelow.
  - split; [reflexivity|]. intros l Hin. inversion Hin.
  - rewrite fmap_cons in Hnd. apply NoDup_cons in Hnd as [Hl Hnd].
    rewrite checkLimits_cons.
    assert ((value l <=? counter w (key l)) = false) as ->.
    { apply Z.leb_gt. apply Hbelow. left. }
    assert (forall l', l' ∈ rest -> key l <> key l') as Hne.
    { intros l' Hin Heq. apply Hl. rewrite Heq. apply list_elem_of_fmap. eauto. }
    destruct (IH (bump w (key l)) Hnd) as [Hpass Hcount].
    { intros l' Hin. rewrite counter_bump, decide_False by (apply Hne; exact Hin).
      apply Hbelow. right. exact Hin. }
    split; [exact Hpass|].
    intros l' Hin. apply elem_of_cons in Hin as [->|Hin].
    + rewrite checkLimits_frame by exact Hl.
      rewrite counter_bump, decide_True by reflexivity. reflexivity.
    + rewrite Hcount by exact Hin.
      rewrite counter_bump, decide_False by (apply Hne; exact Hin). reflexivity.
Qed.

(** X1. Outside of the test environments, an attempt all of whose keys are
    below their thresholds passes, raises the counter of each of its keys by
    exactly one, and changes nothing else: no other counter, no table, no
    call. *)
Theorem checkOrdersLimit_passes order remoteUser reqIp (w : World Ext) :
  testEnvironment E = false ->
  (forall l, l ∈ orderLimits E order reqIp -> counter w (key l) < value l) ->
  exists w',
    checkOrdersLimit E order remoteUser reqIp w = (w', inr tt)
    /\ (forall l, l ∈ orderLimits E order reqIp ->
                  counter w' (key l) = counter w (key l) + 1)
    /\ (forall k, k ∉ (key <$> orderLimits E order reqIp) -> counter w' k = counter w k)
    /\ db w' = with_cache (fun _ => cache (db w')) (db w)
    /\ calls w' = calls w.
Proof.
  intros Hlive Hbelow. rewrite checkOrdersLimit_live by exact Hlive.
  destruct (checkLimits_all_pass _ w (orderLimits_NoDup E order reqIp) Hbelow)
    as [Hpass Hcount].
  exists (fst (checkLimits E (orderLimits E order reqIp) w)).
  split; [|split; [exact Hcount|split; [|split]]].
  - destruct (checkLimits E (orderLimits E order reqIp) w) as [w' r].
    cbn in Hpass |- *. rewrite Hpass. reflexivity.
  - intros k Hk. apply checkLimits_frame. exact Hk.
  - apply checkLimits_store.
  - apply quiet_checkLimits.
Qed.

(** X2. The loop stops at the first key that has reached its threshold: the
    keys before it and the key itself are counted once more, the keys after
    it are not looked at and keep their counters. *)
Theorem checkLimits_stops_at_first_reached pre l post (w : World Ext) :
  NoDup (key <$> pre ++ l :: post) ->
  (forall l', l' ∈ pre -> counter w (key l') < value l') ->
  value l <= counter w (key l) ->
  let w' := fst (checkLimits E (pre ++ l :: post) w) in
  snd (checkLimits E (pre ++ l :: post) w) = inl (limitError E)
  /\ (forall l', l' ∈ pre ++ [l] -> counter w' (key l') = counter w (key l') + 1)
  /\ (forall l', l' ∈ post -> counter w' (key l') = counter w (key l')).
Proof.
  revert w. induction pre as [|p pre IH]; intros w Hnd Hbelow Hreached; cbn [app].
  - rewrite checkLimits_cons.
    assert ((value l <=? counter w (key l)) = true) as -> by (apply Z.leb_le; exact Hreached).
    cbn [fst snd]. split; [reflexivity|].
    cbn [app] in Hnd. rewrite fmap_cons in Hnd. apply NoDup_cons in Hnd as [Hl _]. split.
    + intros l' Hin. apply list_elem_of_singleton in Hin as ->.
      rewrite counter_bump, decide_True by reflexivity. reflexivity.
    + intros l' Hin. rewrite counter_bump, decide_False; [reflexivity|].
      intros Heq. apply Hl. rewrite Heq. apply list_elem_of_fmap. eauto.
  - cbn [app] in Hnd. rewrite fmap_cons in Hnd. apply NoDup_cons in Hnd as [Hp Hnd].
    rewrite checkLimits_cons.
    assert ((value p <=? counter w (key p)) = false) as ->.
    { apply Z.leb_gt. apply Hbelow. left. }
    assert (forall l', l' ∈ pre ++ l :: post -> key p <> key l') as Hne.
    { intros l' Hin Heq. apply Hp. rewrite Heq. apply list_elem_of_fmap. eauto. }
    destruct (IH (bump w (key p)) Hnd) as (Hfail & Hcounted & Hafter).
    { intros l' Hin. rewrite counter_bump, decide_False.
      - apply Hbelow. right. exact Hin.
      - apply Hne. apply elem_of_app. left. exact Hin. }
    { rewrite counter_bump, decide_False; [exact Hreached|].
      apply Hne. apply elem_of_app. right. left. }
    split; [exact Hfail|]. split.
    + intros l' Hin. apply elem_of_cons in Hin as [->|Hin].
      * rewrite checkLimits_frame by exact Hp.
        rewrite counter_bump, decide_True by reflexivity. reflexivity.
      * rewrite Hcounted by exact Hin. rewrite counter_bump, decide_False; [reflexivity|].
        apply Hne. apply elem_of_app in Hin as [Hin|Hin]; apply elem_of_app.
        -- left. exact Hin.
        -- right. apply list_elem_of_singleton in Hin as ->. left.
    + intros l' Hin. rewrite Hafter by exact Hin.
      rewrite counter_bump, decide_False; [reflexivity|].
      apply Hne. apply elem_of_app. right. right. exact Hin.
Qed.

Lemma account_key_not_ip (a x : string) :
  "order_limit_on_account_" +:+ a <> "order_limit_on_ip_" +:+ x.
Proof. cbv beta iota delta [String.append]. discriminate. Qed.

Lemma account_key_not_email (a x : string) :
  "order_limit_on_account_" +:+ a <> "order_limit_on_email_" +:+ x.
Proof. cbv beta iota delta [String.append]. discriminate. Qed.

(** X3. An order placed on behalf of an existing collective is limited by
    account only: the counters of the IP and email keys are not touched,
    whatever email and IP the request carries. *)
Theorem checkOrdersLimit_account_only order remoteUser reqIp (w : World Ext) a x :
  definedZ (oi_fromCollective order ≫= fi_id) = Some a ->
  let w' := fst (checkOrdersLimit E order remoteUser reqIp w) in
  counter w' ("order_limit_on_ip_" +:+ x) = counter w ("order_limit_on_ip_" +:+ x)
  /\ counter w' ("order_limit_on_email_" +:+ x) = counter w ("order_limit_on_email_" +:+ x)
  /\ (length (orderLimits E order reqIp) <= 2)%nat.
Proof.
  intros Ha w'. subst w'. unfold checkOrdersLimit.
  assert (forall k, k ∈ (key <$> orderLimits E order reqIp) ->
                    exists s, k = "order_limit_on_account_" +:+ s) as Hkeys.
  { unfold orderLimits. rewrite Ha.
    destruct (definedZ (oi_collective order ≫= ci_id)) as [c|]; cbn [fmap list_fmap key];
      intros k Hk; rewrite ?elem_of_cons, ?elem_of_nil in Hk;
      repeat (destruct Hk as [Hk|Hk]); try contradiction; subst k; eexists; reflexivity. }
  assert (length (orderLimits E order reqIp) <= 2)%nat as Hlen.
  { unfold orderLimits. rewrite Ha.
    destruct (definedZ (oi_collective order ≫= ci_id)); cbn; lia. }
  destruct (testEnvironment E); cbn [fst ret]; [repeat split; exact Hlen|].
  split; [|split; [|exact Hlen]]; apply checkLimits_frame; intros Hin;
    destruct (Hkeys _ Hin) as [s Hs]; symmetry in Hs; revert Hs.
  - apply account_key_not_ip.
  - apply account_key_not_email.
Qed.

End RateLimiterSteps.

(** The first order of Alice's account to the project passes and is counted
    under both of its keys. *)
Lemma checkOrdersLimit_passes_witness :
  testEnvironment production = false
  /\ exists w',
       checkOrdersLimit production (from 11 (to 21 noOrder)) (Some alice) None world
         = (w', inr tt)
       /\ counter w' "order_limit_on_account_11" = 1
       /\ counter w' "order_limit_on_account_11_and_collective_21" = 1.
Proof.
  split; [reflexivity|].
  destruct (checkOrdersLimit_passes production (from 11 (to 21 noOrder)) (Some alice) None
              world eq_refl) as (w' & Hrun & Hcount & _).
  - intros l Hin. cbn in Hin.
    apply elem_of_cons in Hin as [->|Hin]; [reflexivity|].
    apply list_elem_of_singleton in Hin as ->. reflexivity.
  - exists w'. split; [exact Hrun|]. split.
    + apply (Hcount (mkLimit "order_limit_on_account_11" 10)). left.
    + apply (Hcount (mkLimit "order_limit_on_account_11_and_collective_21" 2)).
      right. left.
Defined.

(** Three keys, the second at its threshold: the third is not counted. *)
Lemma checkLimits_stops_at_first_reached_witness :
  let w := mkWorld (with_cache (fun _ => {[ "b" := 1 ]}) store) [] in
  let limits := [mkLimit "a" 3; mkLimit "b" 1; mkLimit "c" 5] in
  NoDup (key <$> limits)
  /\ counter w "a" < 3
  /\ 1 <= counter w "b"
  /\ snd (checkLimits production limits w) = inl (limitError production)
  /\ counter (fst (checkLimits production limits w)) "c" = 0.
Proof.
  intros w limits.
  assert (NoDup (key <$> limits)) as Hnd.
  { apply (bool_decide_unpack _). vm_compute. exact I. }
  split; [exact Hnd|]. split; [reflexivity|]. split; [vm_compute; discriminate|].
  destruct (checkLimits_stops_at_first_reached production [mkLimit "a" 3] (mkLimit "b" 1)
              [mkLimit "c" 5] w Hnd) as (Hfail & _ & Hafter).
  - intros l Hin. apply list_elem_of_singleton in Hin as ->. reflexivity.
  - vm_compute. discriminate.
  - split; [exact Hfail|]. apply (Hafter (mkLimit "c" 5)). left.
Defined.

(** An order from Alice's account leaves the counter of the request's
    address alone. *)
Lemma checkOrdersLimit_account_only_witness :
  definedZ (oi_fromCollective (from 11 (to 21 noOrder)) ≫= fi_id) = Some 11
  /\ counter (fst (checkOrdersLimit production (from 11 (to 21 noOrder)) (Some alice)
                     (Some "10.0.0.1") world))
             ("order_limit_on_ip_" +:+ md5 production "10.0.0.1") = 0.
Proof.
  split; [reflexivity|].
  destruct (checkOrdersLimit_account_only production (from 11 (to 21 noOrder)) (Some alice)
              (Some "10.0.0.1") world 11 (md5 production "10.0.0.1") eq_refl)
    as (Hip & _ & _).
  rewrite Hip. reflexivity.
Defined.

Section ChecksProperties.
Context {Ext : Type} (E : Env Ext).

(** X4. Outside of the test environments, an anonymous request without a
    recaptcha token that is below its limits is refused by [createOrder] with
    the recaptcha error, and is counted all the same: the counter of each of
    its keys is one higher, nothing else has changed and the payment library
    has not been called. *)
Theorem createOrder_recaptcha_missing_counts order reqIp (w : World Ext) :
  testEnvironment E = false ->
  (forall l, l ∈ orderLimits E order reqIp -> counter w (key l) < value l) ->
  definedS (oi_recaptchaToken order) = None ->
  exists w',
    createOrder E order None reqIp w
      = (w', inl (Error "Error while processing your request (Recaptcha token missing), please try again or contact support@opencollective.com"))
    /\ (forall l, l ∈ orderLimits E order reqIp ->
                  counter w' (key l) = counter w (key l) + 1)
    /\ db w' = with_cache (fun _ => cache (db w')) (db w)
    /\ calls w' = calls w.
Proof.
  intros Hlive Hbelow Htoken.
  destruct (checkLimits_all_pass E _ w (orderLimits_NoDup E order reqIp) Hbelow)
    as [Hpass Hcount].
  exists (fst (checkLimits E (orderLimits E order reqIp) w)).
  split; [|split; [exact Hcount|split; [apply checkLimits_store|apply quiet_checkLimits]]].
  unfold createOrder. apply bind_inl. unfold createOrder_checks.
  assert (checkOrdersLimit E order None reqIp w
          = (fst (checkLimits E (orderLimits E order reqIp) w), inr tt)) as Hrun.
  { rewrite checkOrdersLimit_live by exact Hlive.
    destruct (checkLimits E (orderLimits E order reqIp) w) as [w' r].
    cbn in Hpass |- *. rewrite Hpass. reflexivity. }
  rewrite (bind_inr _ _ _ _ _ Hrun). unfold checkRecaptcha.
  rewrite Hlive, Htoken. reflexivity.
Qed.

End ChecksProperties.

(** An anonymous donor without a token, from a new address. *)
Lemma createOrder_recaptcha_missing_counts_witness :
  let order := to 21 (amount 500 noOrder) in
  testEnvironment production = false
  /\ definedS (oi_recaptchaToken order) = None
  /\ exists w' e,
       createOrder production order None (Some "10.0.0.1") world = (w', inl e)
       /\ counter w' ("order_limit_on_ip_" +:+ md5 production "10.0.0.1") = 1.
Proof.
  intros order. split; [reflexivity|]. split; [reflexivity|].
  destruct (createOrder_recaptcha_missing_counts production order (Some "10.0.0.1") world
              eq_refl) as (w' & Hrun & Hcount & _).
  - intros l Hin. cbn in Hin. apply list_elem_of_singleton in Hin as ->. reflexivity.
  - reflexivity.
  - exists w'. eexists. split; [exact Hrun|].
    apply (Hcount (mkLimit ("order_limit_on_ip_" +:+ md5 production "10.0.0.1") 5)). left.
Defined.

Section ChargeLog.
Context {Ext : Type} (E : Env Ext).

Lemma bindPaymentMethod_type pm c :
  bindPaymentMethod pm c ≫= pi_type = pm ≫= pi_type.
Proof. destruct pm as [pm|]; [|reflexivity]. cbn. destruct (pi_save pm); reflexivity. Qed.

Lemma execute_calls order remoteUser reqIp recaptchaResponse d (w : World Ext) :
  exists l,
    calls (fst (fst (createOrder_execute E order remoteUser reqIp recaptchaResponse d (w, None))))
    = calls w ++ l
    /\ (l = []
        \/ exists i j,
             l = [CallExecuteOrder i]
             \/ (isS (oi_paymentMethod order ≫= pi_type) "manual" = false
                 /\ (l = [CallSetPaymentMethod i]
                     \/ l = [CallSetPaymentMethod i; CallExecuteOrder j]))).
Proof.
  unfold createOrder_execute.
  unfold bind, ret, throw, defined, setLocal, modify, inW, inDb, zoom, mutating, logCall,
    Order_create, Order_update, Subscription_create, addUserWithRole, Activity_create,
    Order_findByPk, gets, throwIf.
  destruct remoteUser as [ru|]; destruct (d_user d) as [user|];
    destruct (d_paymentRequired d);
  repeat (cbn;
    match goal with
    | |- context [bindPaymentMethod ?p ?c ≫= pi_type] =>
        rewrite (bindPaymentMethod_type p c)
    | |- context [isS (oi_paymentMethod order ≫= pi_type) "manual"] =>
        destruct (isS (oi_paymentMethod order ≫= pi_type) "manual")
    | |- context [Order_setPaymentMethod ?a ?b ?c ?d] =>
        destruct (Order_setPaymentMethod a b c d) as [[? ?] [?|]]
    | |- context [libPayments_executeOrder ?a ?b ?c ?d ?e] =>
        destruct (libPayments_executeOrder a b c d e) as [[? ?] [?|]]
    | |- context [if ?b then _ else _] => destruct b
    | |- context [@lookup _ _ (gmap _ _) _ ?i ?m] => destruct (m !! i)
    | |- context [definedZ ?x] => destruct (definedZ x)
    end).
  all: cbn.
  all: first
    [ exists []; split; [rewrite app_nil_r; reflexivity|left; reflexivity]
    | eexists [_]; split; [reflexivity|right; eexists _, 0; eauto 6]
    | eexists [_; _]; split; [rewrite <- app_assoc; reflexivity|right; eexists _, _; eauto 6] ].
Qed.
Lemma createOrder_catch_calls e (st : Locals Ext) :
  calls (fst (fst (createOrder_catch e st))) = calls (fst st).
Proof.
  destruct st as [w [oc|]]; [|reflexivity].
  unfold createOrder_catch, bind, getLocal, gets, mutating, Order_update. cbn.
  destruct (processedAt (row oc)); reflexivity.
Qed.

(** X5. Whatever the request and whatever its outcome, [createOrder] calls
    [executeOrder] at most once and [setPaymentMethod] at most once, the
    latter first and never for a payment method of type 'manual'. *)
Theorem createOrder_charges_at_most_once order remoteUser reqIp (w : World Ext) :
  exists l,
    calls (fst (createOrder E order remoteUser reqIp w)) = calls w ++ l
    /\ (l = []
        \/ exists i j,
             l = [CallExecuteOrder i]
             \/ (isS (oi_paymentMethod order ≫= pi_type) "manual" = false
                 /\ (l = [CallSetPaymentMethod i]
                     \/ l = [CallSetPaymentMethod i; CallExecuteOrder j]))).
Proof.
  unfold createOrder, bind.
  pose proof (quiet_checks E order remoteUser reqIp w) as Hq1.
  destruct (createOrder_checks E order remoteUser reqIp w) as [w1 [e|response]];
    cbn [fst] in Hq1.
  { exists []. rewrite app_nil_r. cbn. auto. }
  unfold scoped, tryCatch, createOrder_try, bind, inW, zoom. cbn [fst snd].
  pose proof (quiet_validate E order remoteUser w1) as Hq2.
  destruct (createOrder_validate E order remoteUser w1) as [w2 [e|d]]; cbn [fst] in Hq2.
  { exists []. rewrite app_nil_r. cbn. split; [congruence|auto]. }
  destruct (execute_calls order remoteUser reqIp response d w2) as (l & Hl & Hshape).
  exists l. split; [|exact Hshape].
  destruct (createOrder_execute E order remoteUser reqIp response d (w2, None))
    as [st [e|o]]; cbn [fst] in Hl.
  - pose proof (createOrder_catch_calls e st) as Hc.
    destruct (createOrder_catch e st) as [st' r]. cbn in Hc |- *. congruence.
  - cbn. congruence.
Qed.

End ChargeLog.

(** ** What a validated order satisfies *)

Section ValidatedOrders.
Context {Ext : Type} (E : Env Ext).

Lemma validate_inv order remoteUser (w w' : World Ext) d :
  createOrder_validate E order remoteUser w = (w', inr d) ->
  exists w1 w2 w3 w4 w5 collective tier user fromCollective matchingFund,
    createOrder_target E order remoteUser w = (w1, inr (collective, tier))
    /\ paymentRequired order tier collective
       && missingPaymentMethod (oi_paymentMethod order) = false
    /\ checkQuantity E order tier w1 = (w2, inr tt)
    /\ resolveUser E order remoteUser w2 = (w3, inr user)
    /\ resolveFromCollective E order remoteUser user collective w3 = (w4, inr fromCollective)
    /\ resolveMatchingFund E order user collective w4 = (w5, inr matchingFund)
    /\ draftOf E order collective tier (paymentRequired order tier collective) user
         fromCollective matchingFund w5 = (w', inr d).
Proof.
  unfold createOrder_validate. intros H.
  apply bind_inv_inr in H as (w1 & [collective tier] & Htarget & H). cbn [fst snd] in H.
  apply bind_inv_inr in H as (w1' & pr & Hpr & H).
  unfold checkPaymentMethod in Hpr. apply bind_inv_inr in Hpr as (w1'' & [] & Hthrow & Hpr).
  apply throwIf_inv_inr in Hthrow as [Hpresent ->].
  unfold ret in Hpr. injection Hpr as <- <-.
  apply bind_inv_inr in H as (w2 & [] & Hquantity & H).
  apply bind_inv_inr in H as (w3 & user & Huser & H).
  apply bind_inv_inr in H as (w4 & fromCollective & Hfrom & H).
  apply bind_inv_inr in H as (w5 & matchingFund & Hfund & H).
  exists w1, w2, w3, w4, w5, collective, tier, user, fromCollective, matchingFund.
  repeat (split; [assumption|]). exact H.
Qed.

Lemma draftOf_inv order collective tier pr user fromCollective matchingFund
    (w w' : World Ext) d :
  draftOf E order collective tier pr user fromCollective matchingFund w = (w', inr d) ->
  d_collective d = collective /\ d_tier d = tier /\ d_paymentRequired d = pr
  /\ d_user d = user /\ d_fromCollective d = fromCollective
  /\ d_matchingFund d = matchingFund
  /\ d_quantity d = default 1 (definedZ (oi_quantity order))
  /\ (forall c, definedS (oi_currency order) = Some c -> c = d_currency d)
  /\ d_referral d = match matchingFund with
                    | Some fund => pm_CollectiveId fund
                    | None => oi_referral order
                    end
  /\ (forall t a, tier = Some t -> definedZ (t_amount t) = Some a -> t_presets t = false ->
                  d_totalAmount d = Some (a * d_quantity d)).
Proof.
  unfold draftOf. intros H. apply bind_inv_inr in H as (w1 & [] & Hcurrency & H).
  apply throwIf_inv_inr in Hcurrency as [Hcurrency ->].
  unfold ret in H. injection H as -> <-. cbn.
  repeat (split; [reflexivity|]). split; [|split; [reflexivity|]].
  - intros c Hc. rewrite Hc in Hcurrency.
    apply negb_false_iff, String.eqb_eq in Hcurrency. exact Hcurrency.
  - intros t a -> Ha Hpresets. rewrite Ha, Hpresets. reflexivity.
Qed.

Lemma onFile_inv order remoteUser (w w' : World Ext) u :
  checkPaymentMethodOnFile order remoteUser w = (w', inr u) ->
  w' = w
  /\ forall pm, oi_paymentMethod order = Some pm -> pi_service pm = Some "stripe" ->
                truthyS (pi_uuid pm) = true -> is_Some remoteUser.
Proof.
  unfold checkPaymentMethodOnFile. intros H. apply throwIf_inv_inr in H as [H ->].
  split; [reflexivity|]. intros pm Hpm Hservice Huuid.
  rewrite Hpm in H. unfold isS in H. rewrite Hservice, Huuid in H. cbn in H.
  apply negb_false_iff, bool_decide_eq_true in H. exact H.
Qed.

Lemma collectiveInput_inv order (w w' : World Ext) c :
  checkCollectiveInput order w = (w', inr c) ->
  w' = w /\ oi_collective order = Some c
  /\ (truthyZ (ci_id c) = true \/ truthyS (ci_githubHandle c) = true).
Proof.
  unfold checkCollectiveInput. destruct (oi_collective order) as [c'|]; [|discriminate].
  intros H. apply bind_inv_inr in H as (? & [] & H1 & H).
  apply throwIf_inv_inr in H1 as [_ ->].
  apply bind_inv_inr in H as (? & [] & H2 & H).
  apply throwIf_inv_inr in H2 as [H2 ->]. unfold ret in H. injection H as <- <-.
  split; [reflexivity|]. split; [reflexivity|].
  destruct (truthyZ (ci_id c')); [left; reflexivity|].
  destruct (truthyS (ci_githubHandle c')); [right; reflexivity|discriminate].
Qed.

Lemma githubHandle_inv githubHandle (w w' : World Ext) u :
  checkGithubHandle E githubHandle w = (w', inr u) ->
  w' = w
  /\ forall h, definedS githubHandle = Some h ->
       if includes "/"%char h
       then exists repo, github_getRepo E h = Some repo /\ 100 <= stargazers_count repo
       else exists org allRepos repo,
              github_getOrg E h = Some org
              /\ github_getAllOrganizationPublicRepos E h = Some allRepos
              /\ repo ∈ allRepos /\ 100 <= stargazers_count repo.
Proof.
  unfold checkGithubHandle. destruct (definedS githubHandle) as [h|].
  2:{ intros H. unfold ret in H. injection H as <-. split; [reflexivity|]. discriminate. }
  destruct (includes "/"%char h) eqn:Hinc.
  - destruct (github_getRepo E h) as [repo|] eqn:Hrepo; [|discriminate].
    intros H. apply throwIf_inv_inr in H as [H ->]. split; [reflexivity|].
    intros h' Hh. injection Hh as <-. rewrite Hinc. exists repo. split; [exact Hrepo|].
    apply Z.ltb_ge. exact H.
  - destruct (github_getOrg E h) as [org|] eqn:Horg; [|discriminate].
    destruct (github_getAllOrganizationPublicRepos E h) as [allRepos|] eqn:Hall;
      [|discriminate].
    destruct (find _ allRepos) as [repo|] eqn:Hfind; [|discriminate].
    intros H. unfold ret in H. injection H as <-. split; [reflexivity|].
    intros h' Hh. injection Hh as <-. rewrite Hinc.
    apply find_some in Hfind as [Hin Hstars].
    exists org, allRepos, repo. split; [exact Horg|]. split; [exact Hall|].
    split; [apply list_elem_of_In; exact Hin|apply Z.leb_le; exact Hstars].
Qed.

Lemma platformFee_inv order remoteUser (w w' : World Ext) u :
  checkPlatformFee order remoteUser w = (w', inr u) ->
  w' = w
  /\ (truthyZ (oi_platformFeePercent order) = true ->
      exists user, remoteUser = Some user /\ u_isRoot user = true).
Proof.
  unfold checkPlatformFee. destruct (truthyZ (oi_platformFeePercent order)).
  2:{ intros H. unfold ret in H. injection H as <-. split; [reflexivity|]. discriminate. }
  destruct remoteUser as [user|]; [|discriminate].
  intros H. apply throwIf_inv_inr in H as [H ->]. split; [reflexivity|].
  intros _. exists user. split; [reflexivity|]. apply negb_false_iff. exact H.
Qed.

Lemma fees_inv order remoteUser collective (w w' : World Ext) u :
  checkFees order remoteUser collective w = (w', inr u) ->
  w' = w
  /\ (forall fc, oi_fromCollective order = Some fc -> fi_id fc <> Some (c_id collective))
  /\ (truthyZ (oi_hostFeePercent order) = true ->
      exists user, remoteUser = Some user
                   /\ u_isAdmin user (c_HostCollectiveId collective) = true).
Proof.
  unfold checkFees. intros H. apply bind_inv_inr in H as (? & [] & H1 & H).
  apply throwIf_inv_inr in H1 as [Hself ->].
  assert (forall fc, oi_fromCollective order = Some fc -> fi_id fc <> Some (c_id collective))
    as Hne.
  { intros fc Hfc. rewrite Hfc in Hself. apply bool_decide_eq_false in Hself. exact Hself. }
  revert H. destruct (truthyZ (oi_hostFeePercent order)).
  2:{ intros H. unfold ret in H. injection H as <-. split; [reflexivity|]. split; [exact Hne|discriminate]. }
  destruct remoteUser as [user|]; [|discriminate].
  intros H. apply throwIf_inv_inr in H as [H ->]. split; [reflexivity|].
  split; [exact Hne|]. intros _. exists user. split; [reflexivity|].
  apply negb_false_iff. exact H.
Qed.

Lemma target_inv order remoteUser (w w' : World Ext) collective tier :
  createOrder_target E order remoteUser w = (w', inr (collective, tier)) ->
  exists w1 c,
    checkPaymentMethodOnFile order remoteUser w = (w, inr tt)
    /\ checkCollectiveInput order w = (w, inr c)
    /\ checkGithubHandle E (ci_githubHandle c) w = (w, inr tt)
    /\ checkPlatformFee order remoteUser w = (w, inr tt)
    /\ resolveCollective E c w = (w1, inr collective)
    /\ checkFees order remoteUser collective w1 = (w1, inr tt)
    /\ resolveTier order collective w1 = (w', inr tier).
Proof.
  unfold createOrder_target. intros H.
  apply bind_inv_inr in H as (wa & [] & Hfile & H).
  destruct (onFile_inv _ _ _ _ _ Hfile) as [-> _].
  apply bind_inv_inr in H as (wb & c & Hinput & H).
  destruct (collectiveInput_inv _ _ _ _ Hinput) as [-> _].
  apply bind_inv_inr in H as (wc & [] & Hgithub & H).
  destruct (githubHandle_inv _ _ _ _ Hgithub) as [-> _].
  apply bind_inv_inr in H as (wd & [] & Hplatform & H).
  destruct (platformFee_inv _ _ _ _ _ Hplatform) as [-> _].
  apply bind_inv_inr in H as (w1 & collective' & Hcollective & H).
  apply bind_inv_inr in H as (we & [] & Hfees & H).
  destruct (fees_inv _ _ _ _ _ _ Hfees) as [-> _].
  apply bind_inv_inr in H as (w2 & tier' & Htier & H).
  unfold ret in H. injection H as <- <- <-.
  exists w1, c. repeat (split; [assumption|]). assumption.
Qed.


Lemma fromCollective_inv order remoteUser user collective (w w' : World Ext) fromCollective a :
  resolveFromCollective E order remoteUser user collective w = (w', inr fromCollective) ->
  definedZ (oi_fromCollective order ≫= fi_id) = Some a ->
  w' = w
  /\ Collectives (db w) !! a = Some fromCollective
  /\ exists u, remoteUser = Some u
               /\ (u_hasRole u ([ADMIN; HOST]
                                ++ (if decide (c_type fromCollective = ORGANIZATION)
                                    then [MEMBER] else [])) a = true
                   \/ u_isAdmin u (c_HostCollectiveId collective) = true).
Proof.
  unfold resolveFromCollective. intros H Ha. cbv zeta in H. rewrite Ha in H.
  apply bind_inv_inr in H as (w1 & found & Hload & H).
  destruct remoteUser as [u|]; [|discriminate].
  apply bind_inv_inr in Hload as (w2 & loaded & Hget & Hload).
  unfold inDb, zoom, loadCollective, gets in Hget. injection Hget as <- <-.
  assert (with_db (db w) w = w) as Hw by (destruct w; reflexivity).
  rewrite Hw in Hload. clear Hw.
  destruct (Collectives (db w) !! a) as [fc|] eqn:Hfc; [|discriminate].
  apply bind_inv_inr in Hload as (w3 & [] & Hrole & Hload).
  unfold ret in Hload. injection Hload as <- <-.
  unfold ret in H. injection H as <- <-.
  revert Hrole.
  destruct (u_hasRole u _ a) eqn:Hhas.
  - intros Hrole. unfold ret in Hrole. injection Hrole as <-.
    split; [reflexivity|]. split; [reflexivity|]. exists u. split; [reflexivity|].
    left. exact Hhas.
  - intros Hrole. apply throwIf_inv_inr in Hrole as [Hadmin ->].
    split; [reflexivity|]. split; [reflexivity|]. exists u. split; [reflexivity|].
    right. apply negb_false_iff. exact Hadmin.
Qed.

(** X6. An order passes the validation of [createOrder] only with the
    rights it needs: a Stripe payment method on file needs a logged-in
    requester, [platformFeePercent] a root, [hostFeePercent] an admin of the
    host of the collective, and an order on behalf of an existing collective a
    logged-in requester with a role on it (admin or host, also member for an
    organization) or an admin of the host of the recipient. *)
Theorem createOrder_validate_privileges order remoteUser (w w' : World Ext) d :
  createOrder_validate E order remoteUser w = (w', inr d) ->
  (forall pm, oi_paymentMethod order = Some pm -> pi_service pm = Some "stripe" ->
              truthyS (pi_uuid pm) = true -> is_Some remoteUser)
  /\ (truthyZ (oi_platformFeePercent order) = true ->
      exists u, remoteUser = Some u /\ u_isRoot u = true)
  /\ (truthyZ (oi_hostFeePercent order) = true ->
      exists u, remoteUser = Some u
                /\ u_isAdmin u (c_HostCollectiveId (d_collective d)) = true)
  /\ (forall a, definedZ (oi_fromCollective order ≫= fi_id) = Some a ->
        exists u, remoteUser = Some u
                  /\ (u_hasRole u ([ADMIN; HOST]
                                   ++ (if decide (c_type (d_fromCollective d) = ORGANIZATION)
                                       then [MEMBER] else [])) a = true
                      \/ u_isAdmin u (c_HostCollectiveId (d_collective d)) = true)).
Proof.
  intros H.
  destruct (validate_inv _ _ _ _ _ H)
    as (w1 & w2 & w3 & w4 & w5 & collective & tier & user & fromCollective & fund
        & Htarget & _ & _ & _ & Hfrom & _ & Hdraft).
  destruct (draftOf_inv _ _ _ _ _ _ _ _ _ _ Hdraft) as (-> & _ & _ & _ & -> & _).
  destruct (target_inv _ _ _ _ _ _ Htarget)
    as (wa & c & Hfile & _ & _ & Hplatform & _ & Hfees & _).
  split; [apply (onFile_inv _ _ _ _ _ Hfile)|].
  split; [apply (platformFee_inv _ _ _ _ _ Hplatform)|].
  split; [apply (fees_inv _ _ _ _ _ _ Hfees)|].
  intros a Ha. destruct (fromCollective_inv _ _ _ _ _ _ _ _ Hfrom Ha) as (_ & _ & Hrole).
  exact Hrole.
Qed.


(** X8. A pledge passes the validation only with the stars: for a handle
    with a '/', the repository is found and has at least 100 stars; for
    another handle, the organization is found, its repositories are listed
    and one of them has at least 100 stars. *)
Theorem createOrder_validate_stars order remoteUser (w w' : World Ext) d c h :
  createOrder_validate E order remoteUser w = (w', inr d) ->
  oi_collective order = Some c ->
  definedS (ci_githubHandle c) = Some h ->
  if includes "/"%char h
  then exists repo, github_getRepo E h = Some repo /\ 100 <= stargazers_count repo
  else exists org allRepos repo,
         github_getOrg E h = Some org
         /\ github_getAllOrganizationPublicRepos E h = Some allRepos
         /\ repo ∈ allRepos /\ 100 <= stargazers_count repo.
Proof.
  intros H Hc Hh.
  destruct (validate_inv _ _ _ _ _ H)
    as (w1 & w2 & w3 & w4 & w5 & collective & tier & user & fromCollective & fund
        & Htarget & _).
  destruct (target_inv _ _ _ _ _ _ Htarget) as (wa & c' & _ & Hinput & Hgithub & _).
  destruct (collectiveInput_inv _ _ _ _ Hinput) as (_ & Hc' & _).
  rewrite Hc in Hc'. injection Hc' as <-.
  apply (githubHandle_inv _ _ _ _ Hgithub). exact Hh.
Qed.

End ValidatedOrders.

(** Alice gives on behalf of her own collective, with a card token. *)
Lemma createOrder_validate_privileges_witness :
  let order := from 11 (to 21 (amount 500 (payingWith "tok_visa" noOrder))) in
  exists d,
    createOrder_validate production order (Some alice) world = (world, inr d)
    /\ exists u, Some alice = Some u
                 /\ (u_hasRole u ([ADMIN; HOST]
                                  ++ (if decide (c_type (d_fromCollective d) = ORGANIZATION)
                                      then [MEMBER] else [])) 11 = true
                     \/ u_isAdmin u (c_HostCollectiveId (d_collective d)) = true).
Proof.
  intros order.
  assert (exists d, createOrder_validate production order (Some alice) world = (world, inr d))
    as [d Hd] by (eexists; vm_compute; reflexivity).
  exists d. split; [exact Hd|].
  destruct (createOrder_validate_privileges production order (Some alice) world world d Hd)
    as (_ & _ & _ & Hrole).
  apply (Hrole 11). reflexivity.
Defined.


(** A pledge to a repository with 150 stars. *)
Lemma createOrder_validate_stars_witness :
  let order := pledgeTo "big/repo" (amount 500 noOrder) in
  exists d w',
    createOrder_validate production order (Some alice) world = (w', inr d)
    /\ exists repo, github_getRepo production "big/repo" = Some repo
                    /\ 100 <= stargazers_count repo.
Proof.
  intros order.
  assert (exists d w', createOrder_validate production order (Some alice) world = (w', inr d))
    as (d & w' & Hd) by (eexists _, _; vm_compute; reflexivity).
  exists d, w'. split; [exact Hd|].
  exact (createOrder_validate_stars production order (Some alice) world w' d
           (mkCollectiveInput None None (Some "big/repo") None) "big/repo" Hd eq_refl eq_refl).
Defined.

(** ** [createOrder] without payment *)

Section WithoutPayment.
Context {Ext : Type} (E : Env Ext).

Lemma alter_insert_same {A} (f : A -> A) (i : Z) (x : A) (m : gmap Z A) :
  alter f i (<[i := x]> m) = <[i := f x]> m.
Proof.
  apply map_eq. intros j. destruct (decide (i = j)) as [->|Hne].
  - rewrite lookup_alter_eq, !lookup_insert_eq. reflexivity.
  - rewrite lookup_alter_ne, !lookup_insert_ne by exact Hne. reflexivity.
Qed.

Lemma execute_without_payment order remoteUser reqIp recaptchaResponse d user (w : World Ext) :
  d_paymentRequired d = false ->
  d_user d = Some user ->
  let pledge := truthyS (oi_interval order) && bool_decide (c_type (d_collective d) = COLLECTIVE) in
  let event := bool_decide (c_type (d_collective d) = EVENT) in
  let data := orderDataOf E order reqIp recaptchaResponse d
                (match remoteUser with Some u => u_id u | None => u_id user end) in
  let sid := fresh (dom (Subscriptions (db w))) in
  exists w' oc o,
    createOrder_execute E order remoteUser reqIp recaptchaResponse d (w, None)
      = ((w', oc), inr o)
    /\ id o = fresh (dom (Orders (db w)))
    /\ row o = (if pledge then set_SubscriptionId (Some sid) data
                else if event then set_processedAt (Some (now E)) (set_status PAID data)
                else data)
    /\ Orders (db w') = <[id o := row o]> (Orders (db w))
    /\ Subscriptions (db w')
       = (if pledge
          then <[sid := mkSubscriptionRow (oi_totalAmount order) (oi_currency order)
                          (oi_interval order) false None 0 None None None]>
                 (Subscriptions (db w))
          else Subscriptions (db w))
    /\ (if pledge then Activities (db w') = Activities (db w)
        else if event then exists a, Activities (db w') = Activities (db w) ++ [a]
                                     /\ a_type a = TICKET_CONFIRMED
        else Activities (db w') = Activities (db w))
    /\ calls w' = calls w.
Proof.
  intros Hpr Huser pledge event data sid. subst pledge event data sid.
  unfold createOrder_execute. rewrite Hpr, Huser.
  destruct (truthyS (oi_interval order) && bool_decide (c_type (d_collective d) = COLLECTIVE));
    [|destruct (bool_decide (c_type (d_collective d) = EVENT))];
    destruct remoteUser as [ru|];
    unfold bind, ret, defined, setLocal, modify, inW, inDb, zoom, mutating, Order_create,
      Order_update, Subscription_create, addUserWithRole, Activity_create, Order_findByPk,
      gets;
    cbn; rewrite ?lookup_alter_eq, lookup_insert_eq; cbn;
    match goal with
    | |- context [definedZ ?x] => destruct (definedZ x) as [referral|]
    end; cbn;
    try match goal with
    | |- context [negb ?b] => destruct b
    end; cbn;
    (eexists _, _, _; split; [reflexivity|]; cbn;
     repeat split; try reflexivity;
     try (rewrite alter_insert_same; reflexivity);
     try (eexists; split; reflexivity)).
Qed.

Lemma checks_validate_calls order remoteUser reqIp (w0 w1 w2 : World Ext) response d :
  createOrder_checks E order remoteUser reqIp w0 = (w1, inr response) ->
  createOrder_validate E order remoteUser w1 = (w2, inr d) ->
  calls w2 = calls w0.
Proof.
  intros Hchecks Hval.
  pose proof (quiet_checks E order remoteUser reqIp w0) as Hq1.
  pose proof (quiet_validate E order remoteUser w1) as Hq2.
  rewrite Hchecks in Hq1. rewrite Hval in Hq2. cbn in Hq1, Hq2. congruence.
Qed.

(** X9. A recurring order for which no payment is required, to a collective
    of type COLLECTIVE, is held as a pledge: the order stays [PENDING] and
    refers to a new subscription that is not active and carries the amount,
    the currency and the interval of the request; [processedAt] is set exactly
    when the collective is active; no activity is emitted and the payment
    library is not called. *)
Theorem createOrder_pledge order remoteUser reqIp (w0 w1 w2 : World Ext) response d user :
  createOrder_checks E order remoteUser reqIp w0 = (w1, inr response) ->
  createOrder_validate E order remoteUser w1 = (w2, inr d) ->
  paymentRequired order (d_tier d) (d_collective d) = false ->
  truthyS (oi_interval order) = true ->
  c_type (d_collective d) = COLLECTIVE ->
  d_user d = Some user ->
  exists w3 o sid,
    createOrder E order remoteUser reqIp w0 = (w3, inr o)
    /\ status (row o) = PENDING
    /\ SubscriptionId (row o) = Some sid
    /\ (sid ∉ dom (Subscriptions (db w2)))
    /\ Subscriptions (db w3)
       = <[sid := mkSubscriptionRow (oi_totalAmount order) (oi_currency order)
                    (oi_interval order) false None 0 None None None]>
           (Subscriptions (db w2))
    /\ processedAt (row o) = (if c_isActive (d_collective d) then Some (now E) else None)
    /\ (id o ∉ dom (Orders (db w2)))
    /\ Orders (db w3) = <[id o := row o]> (Orders (db w2))
    /\ Activities (db w3) = Activities (db w2)
    /\ calls w3 = calls w0.
Proof.
  intros Hchecks Hval Hfree Hinterval Htype Huser.
  assert (d_paymentRequired d = false) as Hpr.
  { rewrite (validate_draft _ _ _ _ _ _ Hval). exact Hfree. }
  destruct (execute_without_payment order remoteUser reqIp response d user w2 Hpr Huser)
    as (w3 & oc & o & Hexec & Hid & Hrow & Horders & Hsubs & Hact & Hcalls).
  rewrite Hinterval, Htype in Hrow, Hsubs, Hact.
  rewrite (bool_decide_eq_true_2 (COLLECTIVE = COLLECTIVE)) in Hrow, Hsubs, Hact
    by reflexivity.
  cbn [andb] in Hrow, Hsubs, Hact.
  exists w3, o, (fresh (dom (Subscriptions (db w2)))).
  split; [eapply createOrder_runs; eassumption|].
  split; [rewrite Hrow; reflexivity|].
  split; [rewrite Hrow; reflexivity|].
  split; [apply is_fresh|].
  split; [exact Hsubs|].
  split.
  { rewrite Hrow. cbn. rewrite Hpr. cbn.
    destruct (c_isActive (d_collective d)); reflexivity. }
  split; [rewrite Hid; apply is_fresh|].
  split; [exact Horders|]. split; [exact Hact|].
  rewrite Hcalls. eapply checks_validate_calls; eassumption.
Qed.

(** X10. An order to a collective that is not active is never charged:
    once validated (with an acting user) it is created without a call to the
    payment library, whatever its amount and payment method; it is [PAID]
    with [processedAt] set for an event, and [PENDING] with [processedAt]
    unset otherwise. *)
Theorem createOrder_inactive_collective order remoteUser reqIp (w0 w1 w2 : World Ext)
    response d user :
  createOrder_checks E order remoteUser reqIp w0 = (w1, inr response) ->
  createOrder_validate E order remoteUser w1 = (w2, inr d) ->
  c_isActive (d_collective d) = false ->
  d_user d = Some user ->
  exists w3 o,
    createOrder E order remoteUser reqIp w0 = (w3, inr o)
    /\ calls w3 = calls w0
    /\ (id o ∉ dom (Orders (db w2)))
    /\ Orders (db w3) = <[id o := row o]> (Orders (db w2))
    /\ status (row o) = (if bool_decide (c_type (d_collective d) = EVENT)
                         then PAID else PENDING)
    /\ processedAt (row o) = (if bool_decide (c_type (d_collective d) = EVENT)
                              then Some (now E) else None).
Proof.
  intros Hchecks Hval Hinactive Huser.
  assert (d_paymentRequired d = false) as Hpr.
  { rewrite (validate_draft _ _ _ _ _ _ Hval). unfold paymentRequired.
    rewrite Hinactive. apply andb_false_r. }
  destruct (execute_without_payment order remoteUser reqIp response d user w2 Hpr Huser)
    as (w3 & oc & o & Hexec & Hid & Hrow & Horders & _ & _ & Hcalls).
  exists w3, o.
  split; [eapply createOrder_runs; eassumption|].
  split; [rewrite Hcalls; eapply checks_validate_calls; eassumption|].
  split; [rewrite Hid; apply is_fresh|].
  split; [exact Horders|].
  rewrite Hrow.
  destruct (c_type (d_collective d)) eqn:Htype;
    rewrite ?(bool_decide_eq_true_2 (COLLECTIVE = COLLECTIVE)) by reflexivity;
    rewrite ?(bool_decide_eq_true_2 (EVENT = EVENT)) by reflexivity;
    rewrite ?(bool_decide_eq_false_2 (EVENT = COLLECTIVE)) by discriminate;
    rewrite ?(bool_decide_eq_false_2 (ORGANIZATION = COLLECTIVE)) by discriminate;
    rewrite ?(bool_decide_eq_false_2 (USER = COLLECTIVE)) by discriminate;
    rewrite ?(bool_decide_eq_false_2 (COLLECTIVE = EVENT)) by discriminate;
    rewrite ?(bool_decide_eq_false_2 (ORGANIZATION = EVENT)) by discriminate;
    rewrite ?(bool_decide_eq_false_2 (USER = EVENT)) by discriminate;
    rewrite ?andb_false_r;
    destruct (truthyS (oi_interval order)); cbn;
    rewrite ?Hpr, ?Hinactive; split; reflexivity.
Qed.

End WithoutPayment.

(** A monthly pledge of Alice to the project, without an amount. *)
Lemma createOrder_pledge_witness :
  let order := to 21 (every "month" (amount 0 noOrder)) in
  exists w1 d,
    createOrder_checks production order (Some alice) None world = (w1, inr None)
    /\ createOrder_validate production order (Some alice) w1 = (world, inr d)
    /\ paymentRequired order (d_tier d) (d_collective d) = false
    /\ exists w3 o sid,
         createOrder production order (Some alice) None world = (w3, inr o)
         /\ status (row o) = PENDING /\ SubscriptionId (row o) = Some sid.
Proof.
  intros order.
  assert (exists w1 d,
            createOrder_checks production order (Some alice) None world = (w1, inr None)
            /\ createOrder_validate production order (Some alice) w1 = (world, inr d)
            /\ paymentRequired order (d_tier d) (d_collective d) = false
            /\ c_type (d_collective d) = COLLECTIVE
            /\ d_user d = Some alice)
    as (w1 & d & Hchecks & Hval & Hfree & Htype & Huser).
  { eexists _, _. split; [vm_compute; reflexivity|].
    split; [vm_compute; reflexivity|]. repeat split. }
  exists w1, d. split; [exact Hchecks|]. split; [exact Hval|]. split; [exact Hfree|].
  destruct (createOrder_pledge production order (Some alice) None world w1 world None d alice
              Hchecks Hval Hfree eq_refl Htype Huser)
    as (w3 & o & sid & Hrun & Hstatus & Hsid & _).
  exists w3, o, sid. auto.
Defined.

(** A pledge of 500 with a card to a repository that has no active
    collective yet: the card is not charged. *)
Lemma createOrder_inactive_collective_witness :
  let order := pledgeTo "big/repo" (amount 500 (payingWith "tok_visa" noOrder)) in
  exists w1 w2 d,
    createOrder_checks production order (Some alice) None world = (w1, inr None)
    /\ createOrder_validate production order (Some alice) w1 = (w2, inr d)
    /\ c_isActive (d_collective d) = false
    /\ exists w3 o,
         createOrder production order (Some alice) None world = (w3, inr o)
         /\ calls w3 = [] /\ status (row o) = PENDING.
Proof.
  intros order.
  assert (exists w1 w2 d,
            createOrder_checks production order (Some alice) None world = (w1, inr None)
            /\ createOrder_validate production order (Some alice) w1 = (w2, inr d)
            /\ c_isActive (d_collective d) = false
            /\ c_type (d_collective d) = COLLECTIVE
            /\ d_user d = Some alice)
    as (w1 & w2 & d & Hchecks & Hval & Hinactive & Htype & Huser).
  { eexists _, _, _. split; [vm_compute; reflexivity|].
    split; [vm_compute; reflexivity|]. repeat split. }
  exists w1, w2, d. split; [exact Hchecks|]. split; [exact Hval|]. split; [exact Hinactive|].
  destruct (createOrder_inactive_collective production order (Some alice) None world w1 w2
              None d alice Hchecks Hval Hinactive Huser)
    as (w3 & o & Hrun & Hcalls & _ & _ & Hstatus & _).
  exists w3, o. split; [exact Hrun|]. split; [exact Hcalls|].
  rewrite Hstatus, Htype. reflexivity.
Defined.

(** ** [updateOrder]: rejections and the charge *)

Section UpdateOrderMore.
Context {Ext : Type} (E : Env Ext).

(** X11. [updateOrder] refuses, without changing anything: a requester who
    is not logged in ([Unauthorized]); an order that does not exist
    ([NotFound]); and, when the total amount is above 0 and the collective of
    the order is active, a request without a usable payment method. *)
Theorem updateOrder_rejections order (w : World Ext) :
  updateOrder E None order w
    = (w, inl (Unauthorized "You need to be logged in to update an order"))
  /\ (forall u,
        (oi_id order ≫= fun i => Orders (db w) !! i) = None ->
        updateOrder E (Some u) order w = (w, inl (NotFound "Existing order not found")))
  /\ (forall u i r c,
        oi_id order = Some i -> Orders (db w) !! i = Some r ->
        Collectives (db w) !! CollectiveId r = Some c -> c_isActive c = true ->
        gtZ (oi_totalAmount order) 0 = true ->
        missingPaymentMethod (oi_paymentMethod order) = true ->
        updateOrder E (Some u) order w
          = (w, inl (Error "This order requires a payment method"))).
Proof.
  destruct w as [s c]. split; [reflexivity|]. split.
  - intros u Hnone. unfold updateOrder, bind, inDb, zoom, Order_findOne, gets. cbn in *.
    destruct (oi_id order) as [i|]; cbn in *; [|reflexivity].
    rewrite Hnone. reflexivity.
  - intros u i r col Hid Hrow Hcol Hactive Hgt Hmissing.
    unfold updateOrder, bind, inDb, zoom, Order_findOne, gets, defined. cbn in *.
    rewrite Hid. cbn. rewrite Hrow. cbn. rewrite Hgt, Hcol. cbn.
    rewrite Hactive, Hmissing. reflexivity.
Qed.

(** X12. [updateOrder] looks neither at the status of the order nor at who
    the logged-in requester is: for any existing order of an active
    collective, a request with a total amount above 0 and a payment method
    of type 'manual' hands the order to [executeOrder] once, with that payment
    method and the interval of the request set on it, and the store is left as
    [executeOrder] leaves it. *)
Theorem updateOrder_manual_charge u order (w : World Ext) i r c pm :
  oi_id order = Some i ->
  Orders (db w) !! i = Some r ->
  Collectives (db w) !! CollectiveId r = Some c ->
  c_isActive c = true ->
  gtZ (oi_totalAmount order) 0 = true ->
  oi_paymentMethod order = Some pm ->
  pi_type pm = Some "manual" ->
  let loaded := mkOrder i r (SubscriptionId r ≫= Subscription_load (db w)) (Some c)
                  (Collectives (db w) !! FromCollectiveId r) None None in
  let given := set_paymentMethod (bindPaymentMethod (Some pm) (FromCollectiveId r))
                 (on_row (set_interval (oi_interval order)) loaded) in
  let charged := libPayments_executeOrder E u given (pickFees order) (db w) in
  calls (fst (updateOrder E (Some u) order w)) = calls w ++ [CallExecuteOrder i]
  /\ db (fst (updateOrder E (Some u) order w)) = fst (fst charged)
  /\ (forall e, snd charged = Some e -> snd (updateOrder E (Some u) order w) = inl e).
Proof.
  intros Hid Hrow Hcol Hactive Hgt Hpm Hmanual loaded given charged.
  subst charged given loaded. destruct w as [s cl]. cbn in Hrow, Hcol |- *.
  unfold updateOrder, bind, inDb, zoom, Order_findOne, gets, defined, logCall, modify, stepW,
    Order_reload, ret.
  cbn. rewrite Hid. cbn. rewrite Hrow. cbn. rewrite Hgt, Hcol. cbn. rewrite Hactive.
  assert (missingPaymentMethod (oi_paymentMethod order) = false) as ->.
  { rewrite Hpm. unfold missingPaymentMethod, isS. rewrite Hmanual. cbn.
    rewrite !orb_true_r. reflexivity. }
  cbn. rewrite Hpm. cbn.
  assert (isS (pi_type (if pi_save pm
                        then mkPaymentMethodInput (pi_service pm) (pi_type pm) (pi_uuid pm)
                               (pi_token pm) (pi_save pm) (Some (FromCollectiveId r))
                        else pm)) "manual" = true) as Hm.
  { destruct (pi_save pm); cbn; unfold isS; rewrite Hmanual; reflexivity. }
  destruct (pi_save pm) eqn:Hsave; cbn in Hm |- *; rewrite Hm; cbn;
    match goal with
    | |- context [libPayments_executeOrder ?a ?b ?c ?d ?e] =>
        destruct (libPayments_executeOrder a b c d e) as [[s' o'] [e'|]]
    end; cbn;
    try (destruct (Orders s' !! id o')); cbn;
    (split; [reflexivity|]; split; [reflexivity|]);
    intros e0 He0; try discriminate; injection He0 as <-; reflexivity.
Qed.

End UpdateOrderMore.

(** Nobody logged in; an order that is not there; an amount without a
    payment method. *)
Lemma updateOrder_rejections_witness :
  (oi_id (existing 99 noOrder) ≫= fun i => Orders (db world) !! i) = None
  /\ updateOrder production (Some alice) (existing 99 noOrder) world
     = (world, inl (NotFound "Existing order not found"))
  /\ updateOrder production (Some alice) (existing 80 (amount 300 noOrder)) world
     = (world, inl (Error "This order requires a payment method")).
Proof.
  split; [reflexivity|]. split.
  - destruct (updateOrder_rejections production (existing 99 noOrder) world)
      as (_ & Hmissing & _).
    apply Hmissing. reflexivity.
  - destruct (updateOrder_rejections production (existing 80 (amount 300 noOrder)) world)
      as (_ & _ & Hpayment).
    apply (Hpayment alice 80 aliceOrder project); reflexivity.
Defined.

(** Bob, who has no role on it, has the active order of Alice charged again
    with a manual payment of 300. *)
Lemma updateOrder_manual_charge_witness :
  let order := existing 80 (amount 300 (manually noOrder)) in
  Orders (db world) !! 80 = Some aliceOrder
  /\ status aliceOrder = ACTIVE
  /\ u_isAdmin bob (Some (FromCollectiveId aliceOrder)) = false
  /\ calls (fst (updateOrder production (Some bob) order world)) = [CallExecuteOrder 80].
Proof.
  intros order. split; [reflexivity|]. split; [reflexivity|]. split; [reflexivity|].
  destruct (updateOrder_manual_charge production bob order world 80 aliceOrder project
              manualPaymentMethod eq_refl eq_refl eq_refl eq_refl eq_refl eq_refl eq_refl)
    as (Hcalls & _).
  exact Hcalls.
Defined.

(** ** [cancelSubscription]: rejections and the missing collective *)

Section CancelMore.
Context {Ext : Type} (E : Env Ext).

(** X13. [cancelSubscription] refuses, without changing anything: a
    requester who is not logged in, before the order is looked up
    ([Unauthorized]); an order that does not exist ("Subscription not
    found"); and, for an admin, an order that has no subscription, with a
    [TypeError]. *)
Theorem cancelSubscription_rejections orderId (w : World Ext) :
  cancelSubscription E None orderId w
    = (w, inl (Unauthorized "You need to be logged in to cancel a subscription"))
  /\ (forall u, Orders (db w) !! orderId = None ->
                cancelSubscription E (Some u) orderId w
                = (w, inl (Error "Subscription not found")))
  /\ (forall u r,
        Orders (db w) !! orderId = Some r ->
        u_isAdmin u (Some (FromCollectiveId r)) = true ->
        (SubscriptionId r ≫= fun sid => Subscriptions (db w) !! sid) = None ->
        cancelSubscription E (Some u) orderId w
        = (w, inl (TypeError "Cannot read property 'isActive' of undefined"))).
Proof.
  destruct w as [s c]. split; [reflexivity|]. split.
  - intros u Hnone. unfold cancelSubscription, bind, inDb, zoom, Order_findOne, gets.
    cbn in *. rewrite Hnone. reflexivity.
  - intros u r Hrow Hadmin Hnone.
    unfold cancelSubscription, bind, inDb, zoom, Order_findOne, Subscription_load, gets,
      defined. cbn in *. rewrite Hrow. cbn. rewrite Hadmin. cbn.
    destruct (SubscriptionId r) as [sid|]; cbn in *; [|reflexivity].
    rewrite Hnone. reflexivity.
Qed.

(** X14. The cancellation is not undone when the activity cannot be built:
    if the collective of the order cannot be loaded, the order is
    [CANCELLED] and the subscription deactivated all the same, no activity is
    emitted and the call fails with a [TypeError]. *)
Theorem cancelSubscription_missing_collective u orderId (w : World Ext) r sid s :
  Orders (db w) !! orderId = Some r ->
  SubscriptionId r = Some sid ->
  Subscriptions (db w) !! sid = Some s ->
  u_isAdmin u (Some (FromCollectiveId r)) = true ->
  (s_isActive s = true \/ status r <> CANCELLED) ->
  Collectives (db w) !! CollectiveId r = None ->
  exists w',
    cancelSubscription E (Some u) orderId w
      = (w', inl (TypeError "Cannot read property 'minimal' of undefined"))
    /\ Orders (db w') !! orderId = Some (set_status CANCELLED r)
    /\ (s_isActive <$> Subscriptions (db w') !! sid) = Some false
    /\ Activities (db w') = Activities (db w).
Proof.
  intros Hrow Hsid Hsub Hadmin Hlive Hc. destruct w as [st cl]. cbn in Hrow, Hsub, Hc.
  unfold cancelSubscription.
  unfold bind, inDb, zoom, stepW, Order_findOne, Order_update, Subscription_deactivate,
    Subscription_update, Subscription_load, Activity_create, gets, modify, defined.
  cbn. rewrite Hrow. cbn. rewrite Hsid. cbn. rewrite Hsub, Hc. cbn.
  rewrite Hadmin. cbn.
  assert (negb (s_isActive s) && bool_decide (status r = CANCELLED) = false) as ->.
  { destruct Hlive as [->|Hne]; [reflexivity|].
    rewrite (bool_decide_eq_false_2 _ Hne). apply andb_false_r. }
  cbn. eexists. split; [reflexivity|]. cbn.
  rewrite !lookup_alter_eq, Hrow, Hsub. repeat split.
Qed.

End CancelMore.

(** Order 99 does not exist. *)
Lemma cancelSubscription_rejections_witness :
  Orders (db world) !! 99 = None
  /\ cancelSubscription production (Some alice) 99 world
     = (world, inl (Error "Subscription not found")).
Proof.
  split; [reflexivity|].
  destruct (cancelSubscription_rejections production 99 world) as (_ & Hmissing & _).
  apply Hmissing. reflexivity.
Defined.

(** The project of Alice's order has been removed from the store. *)
Lemma cancelSubscription_missing_collective_witness :
  let w := mkWorld (mkStore ∅ {[ 11 := aliceProfile ]} ∅ {[ 80 := aliceOrder ]}
                      {[ 70 := monthly ]} [] [] tt) [] in
  Collectives (db w) !! CollectiveId aliceOrder = None
  /\ exists w' e,
       cancelSubscription production (Some alice) 80 w = (w', inl e)
       /\ Orders (db w') !! 80 = Some (set_status CANCELLED aliceOrder)
       /\ Activities (db w') = [].
Proof.
  intros w. split; [reflexivity|].
  destruct (cancelSubscription_missing_collective production alice 80 w aliceOrder 70 monthly
              eq_refl eq_refl eq_refl eq_refl (or_introl eq_refl) eq_refl)
    as (w' & Hrun & Hrow & _ & Hact).
  exists w'. eexists. split; [exact Hrun|]. split; [exact Hrow|exact Hact].
Defined.

(** ** [updateSubscription]: rejections, payment method, lineage *)

Section UpdateSubscriptionMore.
Context {Ext : Type} (E : Env Ext).

(** The order as [updateSubscription] loads it. *)
Lemma load_run u args (w : World Ext) r sid s :
  Orders (db w) !! sa_id args = Some r ->
  SubscriptionId r = Some sid ->
  Subscriptions (db w) !! sid = Some s ->
  u_isAdmin u (Some (FromCollectiveId r)) = true ->
  s_isActive s = true ->
  updateSubscription_load (Some u) args w
  = (w, inr (mkOrder (sa_id args) r (Some (mkSubscription sid s))
               (Collectives (db w) !! CollectiveId r)
               (Collectives (db w) !! FromCollectiveId r) None None)).
Proof.
  intros Hrow Hsid Hsub Hadmin Hactive. destruct w as [st c]. cbn in Hrow, Hsub |- *.
  unfold updateSubscription_load, bind, inDb, zoom, Order_findOne, Subscription_load, gets,
    defined.
  cbn. rewrite Hrow. cbn. rewrite Hsid. cbn. rewrite Hsub. cbn. rewrite Hadmin. cbn.
  rewrite Hactive. reflexivity.
Qed.

Lemma update_inactive_fails remoteUser args (w : World Ext) r sid s :
  Orders (db w) !! sa_id args = Some r ->
  SubscriptionId r = Some sid ->
  Subscriptions (db w) !! sid = Some s ->
  s_isActive s = false ->
  exists e, updateSubscription E remoteUser args w = (w, inl e).
Proof.
  intros Hrow Hsid Hsub Hinactive. destruct w as [st c]. cbn in Hrow, Hsub.
  assert (exists e, updateSubscription_load remoteUser args (mkWorld st c)
                    = (mkWorld st c, inl e)) as [e Hload].
  { unfold updateSubscription_load.
    destruct remoteUser as [u|]; [|eexists; reflexivity].
    unfold bind, inDb, zoom, Order_findOne, Subscription_load, gets, defined. cbn.
    rewrite Hrow. cbn. rewrite Hsid. cbn. rewrite Hsub. cbn.
    destruct (u_isAdmin u (Some (FromCollectiveId r))); cbn.
    - rewrite Hinactive. cbn. eexists. reflexivity.
    - eexists. reflexivity. }
  exists e. unfold updateSubscription, updateSubscription_prepare.
  apply bind_inl. apply bind_inl. exact Hload.
Qed.

(** X15. [updateSubscription] refuses, without changing anything and
    whatever payment method and amount it is given: a requester who is not
    logged in, before the order is looked up ([Unauthorized]); an order that
    does not exist ("Subscription not found"); a requester who is not an admin
    of the collective the order comes from ([Unauthorized]); and, for an
    admin, an order that has no subscription, with a [TypeError]. *)
Theorem updateSubscription_rejections args (w : World Ext) :
  updateSubscription E None args w
    = (w, inl (Unauthorized "You need to be logged in to update a subscription"))
  /\ (forall u, Orders (db w) !! sa_id args = None ->
                updateSubscription E (Some u) args w
                = (w, inl (Error "Subscription not found")))
  /\ (forall u r,
        Orders (db w) !! sa_id args = Some r ->
        u_isAdmin u (Some (FromCollectiveId r)) = false ->
        updateSubscription E (Some u) args w
        = (w, inl (Unauthorized "You don't have permission to update this subscription")))
  /\ (forall u r,
        Orders (db w) !! sa_id args = Some r ->
        u_isAdmin u (Some (FromCollectiveId r)) = true ->
        (SubscriptionId r ≫= fun sid => Subscriptions (db w) !! sid) = None ->
        updateSubscription E (Some u) args w
        = (w, inl (TypeError "Cannot read property 'isActive' of undefined"))).
Proof.
  destruct w as [st c]. unfold updateSubscription, updateSubscription_prepare.
  split; [reflexivity|]. split; [|split].
  - intros u Hnone. apply bind_inl, bind_inl.
    unfold updateSubscription_load, bind, inDb, zoom, Order_findOne, gets. cbn in *.
    rewrite Hnone. reflexivity.
  - intros u r Hrow Hadmin. apply bind_inl, bind_inl.
    unfold updateSubscription_load, bind, inDb, zoom, Order_findOne, gets. cbn in *.
    rewrite Hrow. cbn. rewrite Hadmin. reflexivity.
  - intros u r Hrow Hadmin Hnone. apply bind_inl, bind_inl.
    unfold updateSubscription_load, bind, inDb, zoom, Order_findOne, Subscription_load, gets,
      defined. cbn in *.
    rewrite Hrow. cbn. rewrite Hadmin. cbn.
    destruct (SubscriptionId r) as [sid|]; cbn in *; [|reflexivity].
    rewrite Hnone. reflexivity.
Qed.

(** The payment method is created from the reference and bound. *)
Lemma paymentMethod_created order sub pm newPm x' (w : World Ext) :
  Subscription_ order = Some sub ->
  match definedS (pi_uuid pm) with
  | Some uuid => Nat.eqb (String.length uuid) 36 = false
  | None => True
  end ->
  PaymentMethod_createFromStripeSourceToken E
    (mkPaymentMethodInput (pi_service pm) (pi_type pm) (pi_uuid pm) (pi_token pm)
       (pi_save pm) (Some (FromCollectiveId (row order))))
    (ext (db w)) = (x', inr newPm) ->
  exists w1 order1,
    updateSubscription_paymentMethod E order (Some pm) w = (w1, inr order1)
    /\ id order1 = id order
    /\ row order1 = set_PaymentMethodId (Some (pm_id newPm)) (row order)
    /\ (exists sub1, Subscription_ order1 = Some sub1 /\ sub_id sub1 = sub_id sub
                     /\ s_amount (sub_row sub1) = s_amount (sub_row sub))
    /\ Orders (db w1)
       = alter (set_PaymentMethodId (Some (pm_id newPm))) (id order) (Orders (db w))
    /\ Subscriptions (db w1)
       = (if 0 <? s_chargeRetryCount (sub_row sub)
          then alter (set_retry (getNextChargeAndPeriodStartDates E order)
                        (getChargeRetryCount E order)) (sub_id sub) (Subscriptions (db w))
          else Subscriptions (db w))
    /\ ext (db w1) = x'
    /\ Activities (db w1) = Activities (db w)
    /\ calls w1 = calls w.
Proof.
  intros Hsub Hnew Hcreate. destruct w as [st c]. cbn in Hcreate.
  unfold updateSubscription_paymentMethod.
  assert (match definedS (pi_uuid pm) with
          | Some uuid => if Nat.eqb (String.length uuid) 36 then Some uuid else None
          | None => None
          end = None) as ->.
  { destruct (definedS (pi_uuid pm)); [rewrite Hnew|]; reflexivity. }
  unfold bind, inExt, inDb, zoom, stepW, Order_update, Subscription_update, defined, ret.
  cbn. rewrite Hcreate. cbn. rewrite Hsub. cbn.
  destruct (0 <? s_chargeRetryCount (sub_row sub)); cbn;
    (eexists _, _; split; [reflexivity|]; cbn; repeat split;
     eexists; repeat split; try reflexivity; try exact Hsub).
Qed.

(** X16. A payment method reference whose uuid does not have 36
    characters is taken as a new one: it is created from its token for the
    collective the order comes from, and the order, which is returned, gets
    its id as [PaymentMethodId].  The subscription keeps its amount; its next
    charge date and retry count are replaced by those of the billing calendar
    when a charge had failed ([chargeRetryCount] above 0) and left alone
    otherwise.  No order or subscription is added. *)
Theorem updateSubscription_new_payment_method u args (w : World Ext) r sid s pm newPm x' :
  Orders (db w) !! sa_id args = Some r ->
  SubscriptionId r = Some sid ->
  Subscriptions (db w) !! sid = Some s ->
  u_isAdmin u (Some (FromCollectiveId r)) = true ->
  s_isActive s = true ->
  sa_paymentMethod args = Some pm ->
  sa_amount args = None ->
  match definedS (pi_uuid pm) with
  | Some uuid => Nat.eqb (String.length uuid) 36 = false
  | None => True
  end ->
  PaymentMethod_createFromStripeSourceToken E
    (mkPaymentMethodInput (pi_service pm) (pi_type pm) (pi_uuid pm) (pi_token pm)
       (pi_save pm) (Some (FromCollectiveId r)))
    (ext (db w)) = (x', inr newPm) ->
  exists w1 order1,
    updateSubscription E (Some u) args w = (w1, inr order1)
    /\ id order1 = sa_id args
    /\ row order1 = set_PaymentMethodId (Some (pm_id newPm)) r
    /\ Orders (db w1) !! sa_id args = Some (set_PaymentMethodId (Some (pm_id newPm)) r)
    /\ dom (Orders (db w1)) = dom (Orders (db w))
    /\ dom (Subscriptions (db w1)) = dom (Subscriptions (db w))
    /\ Subscriptions (db w1) !! sid
       = Some (if 0 <? s_chargeRetryCount s
               then set_retry
                      (getNextChargeAndPeriodStartDates E
                         (mkOrder (sa_id args) r (Some (mkSubscription sid s))
                            (Collectives (db w) !! CollectiveId r)
                            (Collectives (db w) !! FromCollectiveId r) None None))
                      (getChargeRetryCount E
                         (mkOrder (sa_id args) r (Some (mkSubscription sid s))
                            (Collectives (db w) !! CollectiveId r)
                            (Collectives (db w) !! FromCollectiveId r) None None)) s
               else s).
Proof.
  intros Hrow Hsid Hsub Hadmin Hactive Hpm Hamount Hnew Hcreate.
  pose proof (load_run u args w r sid s Hrow Hsid Hsub Hadmin Hactive) as Hload.
  set (loaded := mkOrder (sa_id args) r (Some (mkSubscription sid s))
                   (Collectives (db w) !! CollectiveId r)
                   (Collectives (db w) !! FromCollectiveId r) None None) in *.
  destruct (paymentMethod_created loaded (mkSubscription sid s) pm newPm x' w
              eq_refl Hnew Hcreate)
    as (w1 & order1 & Hrun & Hid & Hrow1 & _ & Horders & Hsubs & _).
  exists w1, order1. split.
  { assert (updateSubscription_prepare E (Some u) args w = (w1, inr order1)) as Hprepare.
    { unfold updateSubscription_prepare. rewrite (bind_inr _ _ _ _ _ Hload), Hpm.
      exact Hrun. }
    unfold updateSubscription. rewrite (bind_inr _ _ _ _ _ Hprepare), Hamount.
    reflexivity. }
  split; [exact Hid|]. split; [exact Hrow1|].
  split; [rewrite Horders; cbn; rewrite lookup_alter_eq, Hrow; reflexivity|].
  split; [rewrite Horders; apply dom_alter_L|].
  cbn in Hsubs. rewrite Hsubs.
  destruct (0 <? s_chargeRetryCount s).
  - split; [apply dom_alter_L|]. rewrite lookup_alter_eq, Hsub. reflexivity.
  - split; [reflexivity|exact Hsub].
Qed.

(** X17. A payment method reference with a uuid of 36 characters must be
    on file: when it is not found the update fails with "Payment method not
    found with this uuid", whatever amount comes with it, and no order or
    subscription has changed. *)
Theorem updateSubscription_unknown_payment_method u args (w : World Ext) r sid s pm uuid x' :
  Orders (db w) !! sa_id args = Some r ->
  SubscriptionId r = Some sid ->
  Subscriptions (db w) !! sid = Some s ->
  u_isAdmin u (Some (FromCollectiveId r)) = true ->
  s_isActive s = true ->
  sa_paymentMethod args = Some pm ->
  definedS (pi_uuid pm) = Some uuid ->
  String.length uuid = 36%nat ->
  PaymentMethod_findOne E uuid (ext (db w)) = (x', inr None) ->
  exists w1,
    updateSubscription E (Some u) args w
      = (w1, inl (Error "Payment method not found with this uuid"))
    /\ Orders (db w1) = Orders (db w)
    /\ Subscriptions (db w1) = Subscriptions (db w)
    /\ ext (db w1) = x'
    /\ calls w1 = calls w.
Proof.
  intros Hrow Hsid Hsub Hadmin Hactive Hpm Huuid Hlen Hfind.
  pose proof (load_run u args w r sid s Hrow Hsid Hsub Hadmin Hactive) as Hload.
  destruct w as [st c]. cbn in Hfind.
  eexists. split.
  { unfold updateSubscription. apply bind_inl.
    unfold updateSubscription_prepare. rewrite (bind_inr _ _ _ _ _ Hload), Hpm.
    unfold updateSubscription_paymentMethod. rewrite Huuid, Hlen. cbn [Nat.eqb].
    unfold bind, inExt, inDb, zoom. cbn. rewrite Hfind. reflexivity. }
  cbn. repeat split.
Qed.

(** X18. The change of payment method is not undone when the amount that
    comes with it is rejected: the call fails, and the order keeps the new
    [PaymentMethodId]. *)
Theorem updateSubscription_rejected_amount_keeps_payment_method
    u args (w : World Ext) r sid s pm newPm x' amount :
  Orders (db w) !! sa_id args = Some r ->
  SubscriptionId r = Some sid ->
  Subscriptions (db w) !! sid = Some s ->
  u_isAdmin u (Some (FromCollectiveId r)) = true ->
  s_isActive s = true ->
  sa_paymentMethod args = Some pm ->
  sa_amount args = Some amount ->
  (s_amount s = Some amount \/ amount < 100 \/ Z.rem amount 100 <> 0) ->
  match definedS (pi_uuid pm) with
  | Some uuid => Nat.eqb (String.length uuid) 36 = false
  | None => True
  end ->
  PaymentMethod_createFromStripeSourceToken E
    (mkPaymentMethodInput (pi_service pm) (pi_type pm) (pi_uuid pm) (pi_token pm)
       (pi_save pm) (Some (FromCollectiveId r)))
    (ext (db w)) = (x', inr newPm) ->
  exists w1 e,
    updateSubscription E (Some u) args w = (w1, inl e)
    /\ Orders (db w1) !! sa_id args = Some (set_PaymentMethodId (Some (pm_id newPm)) r)
    /\ dom (Orders (db w1)) = dom (Orders (db w))
    /\ dom (Subscriptions (db w1)) = dom (Subscriptions (db w)).
Proof.
  intros Hrow Hsid Hsub Hadmin Hactive Hpm Hamount Hbad Hnew Hcreate.
  pose proof (load_run u args w r sid s Hrow Hsid Hsub Hadmin Hactive) as Hload.
  set (loaded := mkOrder (sa_id args) r (Some (mkSubscription sid s))
                   (Collectives (db w) !! CollectiveId r)
                   (Collectives (db w) !! FromCollectiveId r) None None) in *.
  destruct (paymentMethod_created loaded (mkSubscription sid s) pm newPm x' w
              eq_refl Hnew Hcreate)
    as (w1 & order1 & Hrun & Hid & Hrow1 & (sub1 & Hsub1 & _ & Hamt) & Horders & Hsubs & _).
  assert (updateSubscription_prepare E (Some u) args w = (w1, inr order1)) as Hprepare.
  { unfold updateSubscription_prepare. rewrite (bind_inr _ _ _ _ _ Hload), Hpm. exact Hrun. }
  destruct (amount_rejected E order1 sub1 amount w1 Hsub1) as [e He].
  { rewrite Hamt. exact Hbad. }
  exists w1, e. split.
  { unfold updateSubscription. rewrite (bind_inr _ _ _ _ _ Hprepare), Hamount. exact He. }
  split; [rewrite Horders; cbn; rewrite lookup_alter_eq, Hrow; reflexivity|].
  split; [rewrite Horders; apply dom_alter_L|].
  cbn in Hsubs. rewrite Hsubs.
  destruct (0 <? s_chargeRetryCount s); [apply dom_alter_L|reflexivity].
Qed.

Lemma prepare_plain u args (w : World Ext) r sid s :
  Orders (db w) !! sa_id args = Some r ->
  SubscriptionId r = Some sid ->
  Subscriptions (db w) !! sid = Some s ->
  u_isAdmin u (Some (FromCollectiveId r)) = true ->
  s_isActive s = true ->
  sa_paymentMethod args = None ->
  updateSubscription_prepare E (Some u) args w
  = (w, inr (mkOrder (sa_id args) r (Some (mkSubscription sid s))
               (Collectives (db w) !! CollectiveId r)
               (Collectives (db w) !! FromCollectiveId r) None None)).
Proof.
  intros Hrow Hsid Hsub Hadmin Hactive Hpm.
  unfold updateSubscription_prepare.
  rewrite (bind_inr _ _ _ _ _ (load_run u args w r sid s Hrow Hsid Hsub Hadmin Hactive)), Hpm.
  reflexivity.
Qed.

Lemma amount_run order old amount (w : World Ext) :
  Subscription_ order = Some old ->
  s_amount (sub_row old) <> Some amount -> 100 <= amount -> Z.rem amount 100 = 0 ->
  let sidn := fresh (dom (Subscriptions (db w))) in
  let oidn := fresh (dom (Orders (db w))) in
  let newSubscription :=
    mkSubscriptionRow (Some amount) (s_currency (sub_row old)) (s_interval (sub_row old))
      true (s_nextChargeDate (sub_row old)) (s_chargeRetryCount (sub_row old))
      (Some (now E)) None (Some (now E)) in
  let newRow :=
    set_status PENDING
      (set_updatedAt (Some (now E))
         (set_SubscriptionId (Some sidn)
            (set_totalAmount (Some amount) (set_status CANCELLED (row order))))) in
  exists w2,
    updateSubscription_amount E order (Some amount) w
      = (w2, inr (mkOrder oidn newRow None None None None None))
    /\ Orders (db w2)
       = <[oidn := newRow]> (alter (set_status CANCELLED) (id order) (Orders (db w)))
    /\ Subscriptions (db w2)
       = <[sidn := newSubscription]>
           (alter (fun x => set_deactivatedAt (Some (now E)) (set_isActive false x))
              (sub_id old) (Subscriptions (db w)))
    /\ calls w2 = calls w.
Proof.
  intros Hold Hdiff Hmin Hmult sidn oidn newSubscription newRow.
  subst sidn oidn newSubscription newRow. destruct w as [st c].
  unfold updateSubscription_amount, bind, defined, throwIf.
  rewrite Hold. cbn.
  rewrite (bool_decide_eq_false_2 _ Hdiff). cbn.
  assert ((amount <? 100) = false) as -> by (apply Z.ltb_ge; exact Hmin).
  rewrite Hmult. cbn.
  unfold inDb, zoom, stepW, Subscription_deactivate, Subscription_update, Subscription_create,
    Order_update, Order_create, ret. cbn.
  rewrite !dom_alter_L.
  eexists. split; [reflexivity|]. cbn. repeat split.
Qed.

(** X19. A change of amount copies the lineage: the new order has the
    creator, the two collectives, the tier, the quantity, the currency, the
    interval, the payment method and the [processedAt] of the old one, with
    the new total and the status [PENDING]; the new subscription has the
    currency, the interval, the next charge date and the retry count of the
    old one, is activated at the time of the call and has no deactivation
    time. *)
Theorem updateSubscription_amount_copies u args (w : World Ext) r sid s amount :
  Orders (db w) !! sa_id args = Some r ->
  SubscriptionId r = Some sid ->
  Subscriptions (db w) !! sid = Some s ->
  u_isAdmin u (Some (FromCollectiveId r)) = true ->
  s_isActive s = true ->
  sa_paymentMethod args = None ->
  sa_amount args = Some amount ->
  s_amount s <> Some amount -> 100 <= amount -> Z.rem amount 100 = 0 ->
  exists w2 o sidn s',
    updateSubscription E (Some u) args w = (w2, inr o)
    /\ Orders (db w2) !! id o = Some (row o)
    /\ SubscriptionId (row o) = Some sidn
    /\ Subscriptions (db w2) !! sidn = Some s'
    /\ (CreatedByUserId (row o) = CreatedByUserId r
        /\ FromCollectiveId (row o) = FromCollectiveId r
        /\ CollectiveId (row o) = CollectiveId r
        /\ TierId (row o) = TierId r
        /\ quantity (row o) = quantity r
        /\ currency (row o) = currency r
        /\ interval (row o) = interval r
        /\ PaymentMethodId (row o) = PaymentMethodId r
        /\ processedAt (row o) = processedAt r
        /\ totalAmount (row o) = Some amount
        /\ status (row o) = PENDING)
    /\ (s_currency s' = s_currency s
        /\ s_interval s' = s_interval s
        /\ s_nextChargeDate s' = s_nextChargeDate s
        /\ s_chargeRetryCount s' = s_chargeRetryCount s
        /\ s_activatedAt s' = Some (now E)
        /\ s_deactivatedAt s' = None
        /\ s_amount s' = Some amount
        /\ s_isActive s' = true).
Proof.
  intros Hrow Hsid Hsub Hadmin Hactive Hpm Hamount Hdiff Hmin Hmult.
  pose proof (prepare_plain u args w r sid s Hrow Hsid Hsub Hadmin Hactive Hpm) as Hprepare.
  set (loaded := mkOrder (sa_id args) r (Some (mkSubscription sid s))
                   (Collectives (db w) !! CollectiveId r)
                   (Collectives (db w) !! FromCollectiveId r) None None) in *.
  destruct (amount_run loaded (mkSubscription sid s) amount w eq_refl Hdiff Hmin Hmult)
    as (w2 & Hrun & Horders & Hsubs & _).
  eexists w2, _, _, _. split.
  { unfold updateSubscription. rewrite (bind_inr _ _ _ _ _ Hprepare), Hamount. exact Hrun. }
  split; [rewrite Horders; apply lookup_insert_eq|].
  split; [reflexivity|].
  split; [rewrite Hsubs; apply lookup_insert_eq|].
  split; repeat split.
Qed.

(** X20. After a change of amount the old order is closed: on the world
    the change leaves, every further [updateSubscription] and every
    [cancelSubscription] on the old order, by anyone, fails and changes
    nothing. *)
Theorem updateSubscription_amount_closes_old u args (w : World Ext) r sid s amount :
  Orders (db w) !! sa_id args = Some r ->
  SubscriptionId r = Some sid ->
  Subscriptions (db w) !! sid = Some s ->
  u_isAdmin u (Some (FromCollectiveId r)) = true ->
  s_isActive s = true ->
  sa_paymentMethod args = None ->
  sa_amount args = Some amount ->
  s_amount s <> Some amount -> 100 <= amount -> Z.rem amount 100 = 0 ->
  exists w2 o,
    updateSubscription E (Some u) args w = (w2, inr o)
    /\ id o <> sa_id args
    /\ (forall remoteUser args',
          sa_id args' = sa_id args ->
          exists e, updateSubscription E remoteUser args' w2 = (w2, inl e))
    /\ (forall remoteUser,
          exists e, cancelSubscription E remoteUser (sa_id args) w2 = (w2, inl e)).
Proof.
  intros Hrow Hsid Hsub Hadmin Hactive Hpm Hamount Hdiff Hmin Hmult.
  pose proof (prepare_plain u args w r sid s Hrow Hsid Hsub Hadmin Hactive Hpm) as Hprepare.
  set (loaded := mkOrder (sa_id args) r (Some (mkSubscription sid s))
                   (Collectives (db w) !! CollectiveId r)
                   (Collectives (db w) !! FromCollectiveId r) None None) in *.
  destruct (amount_run loaded (mkSubscription sid s) amount w eq_refl Hdiff Hmin Hmult)
    as (w2 & Hrun & Horders & Hsubs & _).
  assert (fresh (dom (Orders (db w))) <> sa_id args) as Hno.
  { intros Heq. apply (is_fresh (dom (Orders (db w)))). rewrite Heq.
    apply elem_of_dom. eauto. }
  assert (fresh (dom (Subscriptions (db w))) <> sid) as Hns.
  { intros Heq. apply (is_fresh (dom (Subscriptions (db w)))). rewrite Heq.
    apply elem_of_dom. eauto. }
  assert (Orders (db w2) !! sa_id args = Some (set_status CANCELLED r)) as Hrow2.
  { rewrite Horders. rewrite lookup_insert_ne by exact Hno. cbn.
    rewrite lookup_alter_eq, Hrow. reflexivity. }
  assert (Subscriptions (db w2) !! sid
          = Some (set_deactivatedAt (Some (now E)) (set_isActive false s))) as Hsub2.
  { rewrite Hsubs. rewrite lookup_insert_ne by exact Hns. cbn.
    rewrite lookup_alter_eq, Hsub. reflexivity. }
  eexists w2, _. split.
  { unfold updateSubscription. rewrite (bind_inr _ _ _ _ _ Hprepare), Hamount. exact Hrun. }
  split; [exact Hno|]. split.
  - intros remoteUser args' Hsame.
    apply (update_inactive_fails remoteUser args' w2 (set_status CANCELLED r) sid
             (set_deactivatedAt (Some (now E)) (set_isActive false s))).
    + rewrite Hsame. exact Hrow2.
    + exact Hsid.
    + exact Hsub2.
    + reflexivity.
  - intros remoteUser.
    destruct (cancel_already_cancelled E remoteUser (sa_id args) w2 (set_status CANCELLED r)
                sid (set_deactivatedAt (Some (now E)) (set_isActive false s))
                Hrow2 Hsid Hsub2 eq_refl eq_refl) as (e & He & _).
    eauto.
Qed.

End UpdateSubscriptionMore.

(** Bob is not an admin of Alice's profile. *)
Lemma updateSubscription_rejections_witness :
  u_isAdmin bob (Some (FromCollectiveId aliceOrder)) = false
  /\ updateSubscription production (Some bob) (mkSubscriptionArgs 80 None (Some 2000)) world
     = (world, inl (Unauthorized "You don't have permission to update this subscription")).
Proof.
  split; [reflexivity|].
  destruct (updateSubscription_rejections production (mkSubscriptionArgs 80 None (Some 2000))
              world) as (_ & _ & Hno & _).
  apply (Hno bob aliceOrder); reflexivity.
Defined.

(** Alice moves her donation to a new card. *)
Lemma updateSubscription_new_payment_method_witness :
  exists w1 order1,
    updateSubscription production (Some alice) (mkSubscriptionArgs 80 (Some newCard) None) world
      = (w1, inr order1)
    /\ Orders (db w1) !! 80 = Some (set_PaymentMethodId (Some 60) aliceOrder)
    /\ Subscriptions (db w1) !! 70 = Some monthly.
Proof.
  destruct (updateSubscription_new_payment_method production alice
              (mkSubscriptionArgs 80 (Some newCard) None) world aliceOrder 70 monthly
              newCard (mkPaymentMethod 60 (Some 11)) tt
              eq_refl eq_refl eq_refl eq_refl eq_refl eq_refl eq_refl I eq_refl)
    as (w1 & order1 & Hrun & _ & _ & Hrow & _ & _ & Hsub).
  exists w1, order1. split; [exact Hrun|]. split; [exact Hrow|exact Hsub].
Defined.

(** No payment method is on file. *)
Lemma updateSubscription_unknown_payment_method_witness :
  exists w1,
    updateSubscription production (Some alice)
      (mkSubscriptionArgs 80 (Some cardOnFile) (Some 2000)) world
      = (w1, inl (Error "Payment method not found with this uuid"))
    /\ Orders (db w1) = Orders (db world).
Proof.
  destruct (updateSubscription_unknown_payment_method production alice
              (mkSubscriptionArgs 80 (Some cardOnFile) (Some 2000)) world aliceOrder 70
              monthly cardOnFile "123e4567-e89b-12d3-a456-426614174000" tt
              eq_refl eq_refl eq_refl eq_refl eq_refl eq_refl eq_refl eq_refl eq_refl)
    as (w1 & Hrun & Horders & _).
  exists w1. split; [exact Hrun|exact Horders].
Defined.

(** Alice moves her donation to a new card and asks for 50 cents a month. *)
Lemma updateSubscription_rejected_amount_keeps_payment_method_witness :
  exists w1 e,
    updateSubscription production (Some alice)
      (mkSubscriptionArgs 80 (Some newCard) (Some 50)) world = (w1, inl e)
    /\ Orders (db w1) !! 80 = Some (set_PaymentMethodId (Some 60) aliceOrder).
Proof.
  destruct (updateSubscription_rejected_amount_keeps_payment_method production alice
              (mkSubscriptionArgs 80 (Some newCard) (Some 50)) world aliceOrder 70 monthly
              newCard (mkPaymentMethod 60 (Some 11)) tt 50
              eq_refl eq_refl eq_refl eq_refl eq_refl eq_refl eq_refl
              (or_intror (or_introl eq_refl)) I eq_refl)
    as (w1 & e & Hrun & Hrow & _).
  exists w1, e. split; [exact Hrun|exact Hrow].
Defined.

(** Alice doubles her donation. *)
Lemma updateSubscription_amount_copies_witness :
  exists w2 o s',
    updateSubscription production (Some alice) (mkSubscriptionArgs 80 None (Some 2000)) world
      = (w2, inr o)
    /\ FromCollectiveId (row o) = 11
    /\ CollectiveId (row o) = 21
    /\ totalAmount (row o) = Some 2000
    /\ (SubscriptionId (row o) ≫= fun i => Subscriptions (db w2) !! i) = Some s'
    /\ s_nextChargeDate s' = Some 5000.
Proof.
  destruct (updateSubscription_amount_copies production alice
              (mkSubscriptionArgs 80 None (Some 2000)) world aliceOrder 70 monthly 2000
              eq_refl eq_refl eq_refl eq_refl eq_refl eq_refl eq_refl)
    as (w2 & o & sidn & s' & Hrun & _ & Hsid & Hsub & Ho & Hs).
  - discriminate.
  - lia.
  - reflexivity.
  - exists w2, o, s'. split; [exact Hrun|].
    destruct Ho as (_ & Hfrom & Hto & _ & _ & _ & _ & _ & _ & Htotal & _).
    destruct Hs as (_ & _ & Hnext & _).
    split; [exact Hfrom|]. split; [exact Hto|]. split; [exact Htotal|].
    split; [rewrite Hsid; exact Hsub|exact Hnext].
Defined.

(** After Alice has doubled her donation, order 80 can be neither updated
    nor cancelled. *)
Lemma updateSubscription_amount_closes_old_witness :
  exists w2 o,
    updateSubscription production (Some alice) (mkSubscriptionArgs 80 None (Some 2000)) world
      = (w2, inr o)
    /\ (exists e, updateSubscription production (Some alice)
                    (mkSubscriptionArgs 80 None (Some 3000)) w2 = (w2, inl e))
    /\ (exists e, cancelSubscription production (Some alice) 80 w2 = (w2, inl e)).
Proof.
  destruct (updateSubscription_amount_closes_old production alice
              (mkSubscriptionArgs 80 None (Some 2000)) world aliceOrder 70 monthly 2000
              eq_refl eq_refl eq_refl eq_refl eq_refl eq_refl eq_refl)
    as (w2 & o & Hrun & _ & Hupdate & Hcancel).
  - discriminate.
  - lia.
  - reflexivity.
  - exists w2, o. split; [exact Hrun|]. split.
    + apply (Hupdate (Some alice) (mkSubscriptionArgs 80 None (Some 3000))). reflexivity.
    + apply Hcancel.
Defined.

(** ** [markOrderAsPaid] *)

Section MarkOrderAsPaidProperties.
Context {Ext : Type} (E : Env Ext).

Lemma markOrderAsPaid_not_pending remoteUser orderId (w : World Ext) r :
  Orders (db w) !! orderId = Some r ->
  status r <> PENDING ->
  exists e, markOrderAsPaid E remoteUser orderId w = (w, inl e)
            /\ (remoteUser <> None ->
                e = ValidationFailed "The order's status must be PENDING").
Proof.
  intros Hrow Hstatus. destruct w as [st c]. cbn in Hrow.
  unfold markOrderAsPaid.
  destruct remoteUser as [u|]; [|eexists; split; [reflexivity|congruence]].
  unfold bind, inDb, zoom, Order_findByPk, gets, throwIf. cbn. rewrite Hrow. cbn.
  rewrite (bool_decide_eq_false_2 _ Hstatus). cbn.
  eexists. split; reflexivity.
Qed.

(** X21. [markOrderAsPaid] refuses in this order, without changing
    anything: a requester who is not logged in ([Unauthorized] without a
    message); an order that does not exist ([NotFound]); an order whose status
    is not [PENDING] ([ValidationFailed]), whoever asks; and only then a
    requester who is not an admin of the host of the order's collective
    ([Unauthorized]). *)
Theorem markOrderAsPaid_rejections orderId (w : World Ext) :
  markOrderAsPaid E None orderId w = (w, inl (Unauthorized ""))
  /\ (forall u, Orders (db w) !! orderId = None ->
                markOrderAsPaid E (Some u) orderId w = (w, inl (NotFound "Order not found")))
  /\ (forall u r,
        Orders (db w) !! orderId = Some r ->
        status r <> PENDING ->
        markOrderAsPaid E (Some u) orderId w
        = (w, inl (ValidationFailed "The order's status must be PENDING")))
  /\ (forall u r,
        Orders (db w) !! orderId = Some r ->
        status r = PENDING ->
        u_isAdmin u (Collectives (db w) !! CollectiveId r ≫= c_HostCollectiveId) = false ->
        markOrderAsPaid E (Some u) orderId w
        = (w, inl (Unauthorized
                     "You must be logged in as an admin of the host of the collective"))).
Proof.
  destruct w as [st c]. split; [reflexivity|]. split; [|split].
  - intros u Hnone. unfold markOrderAsPaid, bind, inDb, zoom, Order_findByPk, gets.
    cbn in *. rewrite Hnone. reflexivity.
  - intros u r Hrow Hstatus.
    unfold markOrderAsPaid, bind, inDb, zoom, Order_findByPk, gets, throwIf.
    cbn in *. rewrite Hrow. cbn. rewrite (bool_decide_eq_false_2 _ Hstatus). reflexivity.
  - intros u r Hrow Hstatus Hadmin.
    unfold markOrderAsPaid, bind, inDb, zoom, Order_findByPk, Collective_getHostCollectiveId,
      gets, throwIf.
    cbn in *. rewrite Hrow. cbn. rewrite (bool_decide_eq_true_2 _ Hstatus). cbn.
    rewrite Hadmin. reflexivity.
Qed.


(** X23. A cancelled order is closed: on the world a successful
    [cancelSubscription] leaves, every [updateSubscription] on the
    order and every [markOrderAsPaid] of it, by anyone, fails and changes
    nothing. *)
Theorem cancelSubscription_closes_order u orderId (w : World Ext) r sid s c fc :
  Orders (db w) !! orderId = Some r ->
  SubscriptionId r = Some sid ->
  Subscriptions (db w) !! sid = Some s ->
  u_isAdmin u (Some (FromCollectiveId r)) = true ->
  (s_isActive s = true \/ status r <> CANCELLED) ->
  Collectives (db w) !! CollectiveId r = Some c ->
  Collectives (db w) !! FromCollectiveId r = Some fc ->
  exists w' o,
    cancelSubscription E (Some u) orderId w = (w', inr (Some o))
    /\ (forall remoteUser args,
          sa_id args = orderId ->
          exists e, updateSubscription E remoteUser args w' = (w', inl e))
    /\ (forall remoteUser,
          exists e, markOrderAsPaid E remoteUser orderId w' = (w', inl e)).
Proof.
  intros Hrow Hsid Hsub Hadmin Hlive Hc Hfc.
  destruct (cancel_accepted E u orderId w r sid s c fc Hrow Hsid Hsub Hadmin Hlive Hc Hfc)
    as (w' & o & a & Hrun & _ & _ & Horders & Hsubs & _).
  assert (Orders (db w') !! orderId = Some (set_status CANCELLED r)) as Hrow'.
  { rewrite Horders, lookup_alter_eq, Hrow. reflexivity. }
  assert (Subscriptions (db w') !! sid
          = Some (set_deactivatedAt (Some (now E)) (set_isActive false s))) as Hsub'.
  { rewrite Hsubs, lookup_alter_eq, Hsub. reflexivity. }
  exists w', o. split; [exact Hrun|]. split.
  - intros remoteUser args Hsame.
    apply (update_inactive_fails E remoteUser args w' (set_status CANCELLED r) sid
             (set_deactivatedAt (Some (now E)) (set_isActive false s))).
    + rewrite Hsame. exact Hrow'.
    + exact Hsid.
    + exact Hsub'.
    + reflexivity.
  - intros remoteUser.
    destruct (markOrderAsPaid_not_pending remoteUser orderId w' (set_status CANCELLED r)
                Hrow') as (e & He & _); [discriminate|eauto].
Qed.

Lemma free_needs_no_payment order remoteUser (w w' : World Ext) d :
  createOrder_validate E order remoteUser w = (w', inr d) ->
  oi_totalAmount order = Some 0 ->
  (forall t a, d_tier d = Some t -> t_amount t = Some a -> a <= 0) ->
  d_paymentRequired d = false.
Proof.
  intros Hval Hzero Htier.
  rewrite (validate_draft _ _ _ _ _ _ Hval). unfold paymentRequired, gtZ.
  rewrite Hzero. cbn [orb Z.ltb Z.compare].
  destruct (d_tier d) as [t|] eqn:Ht; [|reflexivity].
  destruct (t_amount t) as [a|] eqn:Ha; [|reflexivity].
  specialize (Htier t a eq_refl Ha).
  assert ((0 <? a) = false) as -> by (apply Z.ltb_ge; exact Htier). reflexivity.
Qed.

(** X24. The order of a free ticket is settled when it is created: on the
    world [createOrder] leaves, [markOrderAsPaid] on the order it returned
    fails for everyone, with [ValidationFailed] for a logged-in requester, and
    changes nothing. *)
Theorem createOrder_free_ticket_is_settled order remoteUser reqIp (w0 w1 w2 : World Ext)
    recaptchaResponse d user :
  createOrder_checks E order remoteUser reqIp w0 = (w1, inr recaptchaResponse) ->
  createOrder_validate E order remoteUser w1 = (w2, inr d) ->
  oi_totalAmount order = Some 0 ->
  (forall t a, d_tier d = Some t -> t_amount t = Some a -> a <= 0) ->
  c_type (d_collective d) = EVENT ->
  d_user d = Some user ->
  exists w3 o,
    createOrder E order remoteUser reqIp w0 = (w3, inr o)
    /\ forall admin,
         exists e, markOrderAsPaid E admin (id o) w3 = (w3, inl e)
                   /\ (admin <> None ->
                       e = ValidationFailed "The order's status must be PENDING").
Proof.
  intros Hchecks Hval Hzero Htier Htype Huser.
  pose proof (free_needs_no_payment order remoteUser w1 w2 d Hval Hzero Htier) as Hpr.
  destruct (execute_free_ticket E order remoteUser reqIp recaptchaResponse d user w2
              Hpr Htype Huser)
    as (w3 & oc & o & Hexec & _ & Hstatus & _ & Hrow & _).
  exists w3, o. split; [eapply createOrder_runs; eassumption|].
  intros admin. apply (markOrderAsPaid_not_pending admin (id o) w3 (row o) Hrow).
  rewrite Hstatus. discriminate.
Qed.

End MarkOrderAsPaidProperties.

(** Alice's order is [ACTIVE]: the admin of its host cannot mark it as paid. *)
Lemma markOrderAsPaid_rejections_witness :
  Orders (db world) !! 80 = Some aliceOrder
  /\ status aliceOrder <> PENDING
  /\ markOrderAsPaid production (Some hostAdmin) 80 world
     = (world, inl (ValidationFailed "The order's status must be PENDING")).
Proof.
  split; [reflexivity|]. split; [discriminate|].
  destruct (markOrderAsPaid_rejections production 80 world) as (_ & _ & Hstatus & _).
  apply (Hstatus hostAdmin aliceOrder); [reflexivity|discriminate].
Defined.

(** Alice cancels her donation. *)
Lemma cancelSubscription_closes_order_witness :
  exists w' o,
    cancelSubscription production (Some alice) 80 world = (w', inr (Some o))
    /\ (exists e, updateSubscription production (Some alice)
                    (mkSubscriptionArgs 80 None (Some 2000)) w' = (w', inl e))
    /\ (exists e, markOrderAsPaid production (Some hostAdmin) 80 w' = (w', inl e)).
Proof.
  destruct (cancelSubscription_closes_order production alice 80 world aliceOrder 70 monthly
              project aliceProfile eq_refl eq_refl eq_refl eq_refl (or_introl eq_refl)
              eq_refl eq_refl)
    as (w' & o & Hrun & Hupdate & Hmark).
  exists w', o. split; [exact Hrun|]. split.
  - apply (Hupdate (Some alice) (mkSubscriptionArgs 80 None (Some 2000))). reflexivity.
  - apply Hmark.
Defined.

(** A free registration to the meetup, and the admin of the meetup's host. *)
Lemma createOrder_free_ticket_is_settled_witness :
  let order := to 20 (amount 0 noOrder) in
  exists w3 o,
    createOrder production order (Some alice) None world = (w3, inr o)
    /\ markOrderAsPaid production (Some hostAdmin) (id o) w3
       = (w3, inl (ValidationFailed "The order's status must be PENDING")).
Proof.
  intros order.
  set (w1 := fst (createOrder_checks production order (Some alice) None world)).
  set (d := mkDraft meetup None false (Some alice) aliceProfile None None "USD" 1 (Some 0)
              "Registration to Meetup").
  assert (createOrder_checks production order (Some alice) None world = (w1, inr None))
    as Hchecks by (vm_compute; reflexivity).
  assert (createOrder_validate production order (Some alice) w1 = (world, inr d))
    as Hval by (vm_compute; reflexivity).
  destruct (createOrder_free_ticket_is_settled production order (Some alice) None world w1
              world None d alice Hchecks Hval eq_refl)
    as (w3 & o & Hrun & Hmark).
  - intros t a Ht. discriminate.
  - reflexivity.
  - reflexivity.
  - exists w3, o. split; [exact Hrun|].
    destruct (Hmark (Some hostAdmin)) as (e & He & Hkind).
    rewrite He, Hkind by discriminate. reflexivity.
Defined.

(** ** [refundTransaction] *)

Section RefundProperties.
Context {Ext Transaction : Type}.
Variable find : Z -> M (Store Ext) (option Transaction).

(** X25. [refundTransaction] looks the transaction up before it asks who
    is calling.  For a requester who is not a site admin the call always
    fails and the refund is never run, whatever the payment library would do;
    but the error tells whether the transaction exists: it is [NotFound]
    exactly when it does not.  For a site admin and a transaction that
    exists, the outcome is that of the payment library's refund. *)
Theorem refundTransaction_only_root refund args_id remoteUser (w : World Ext) s1 t :
  find args_id (db w) = (s1, inr t) ->
  ((forall u, remoteUser = Some u -> u_isRoot u = false) ->
   exists e,
     (forall refund', refundTransaction find refund' args_id remoteUser w
                      = (with_db s1 w, inl e))
     /\ (e = NotFound "Transaction not found" <-> t = None))
  /\ (forall u transaction,
        remoteUser = Some u -> u_isRoot u = true -> t = Some transaction ->
        refundTransaction find refund args_id remoteUser w
        = inDb (refund transaction u) (with_db s1 w)).
Proof.
  intros Hfind. destruct w as [st c]. cbn in Hfind. split.
  - intros Hnot.
    unfold refundTransaction, bind, inDb, zoom, defined, throwIf. cbn. rewrite Hfind.
    destruct t as [transaction|]; cbn.
    + destruct remoteUser as [u|]; cbn.
      * rewrite (Hnot u eq_refl). cbn. eexists. split; [reflexivity|].
        split; discriminate.
      * eexists. split; [reflexivity|]. split; discriminate.
    + eexists. split; [reflexivity|]. split; reflexivity.
  - intros u transaction -> Hroot ->.
    unfold refundTransaction, bind, inDb, zoom, defined, throwIf. cbn. rewrite Hfind. cbn.
    rewrite Hroot. cbn. destruct (refund transaction u s1) as [s2 res]. reflexivity.
Qed.

End RefundProperties.

(** Alice is not a site admin: transaction 900 exists, 901 does not. *)
Lemma refundTransaction_only_root_witness :
  (exists e, refundTransaction findTransaction refund 900 (Some alice) world = (world, inl e)
             /\ e <> NotFound "Transaction not found")
  /\ refundTransaction findTransaction refund 901 (Some alice) world
     = (world, inl (NotFound "Transaction not found"))
  /\ refundTransaction findTransaction refund 900 (Some root) world = (world, inr 900).
Proof.
  split; [|split].
  - destruct (proj1 (refundTransaction_only_root findTransaction refund 900 (Some alice)
                       world store (Some 900) eq_refl))
      as (e & Hrun & Hkind).
    + intros u Hu. injection Hu as <-. reflexivity.
    + exists e. split; [apply Hrun|]. intros He. apply Hkind in He. discriminate.
  - destruct (proj1 (refundTransaction_only_root findTransaction refund 901 (Some alice)
                       world store None eq_refl))
      as (e & Hrun & Hkind).
    + intros u Hu. injection Hu as <-. reflexivity.
    + rewrite (Hrun refund). rewrite (proj2 Hkind eq_refl). reflexivity.
  - rewrite (proj2 (refundTransaction_only_root findTransaction refund 900 (Some root)
                      world store (Some 900) eq_refl) root 900 eq_refl eq_refl eq_refl).
    reflexivity.
Defined.

(** ** [addFundsToOrg] *)

Section AddFundsProperties.
Context {Ext : Type} (E : Env Ext).
Variable create : PrepaidValues -> M (Store Ext) PaymentMethod.
Variables inOneYear uuid : string.

(** X26. [addFundsToOrg] creates nothing unless the requester is a site
    admin and both collectives exist: otherwise it fails, with "Only site
    admins can perform this operation" for a logged-in requester who is not
    one, and the world is unchanged whatever [PaymentMethod.create] would
    do. *)
Theorem addFundsToOrg_guard args remoteUser (w : World Ext) :
  (forall u, remoteUser = Some u -> u_isRoot u = true ->
             (af_CollectiveId args ≫= fun i => Collectives (db w) !! i) = None
             \/ (af_HostCollectiveId args ≫= fun i => Collectives (db w) !! i) = None) ->
  exists e,
    (forall create', addFundsToOrg E create' inOneYear uuid args remoteUser w = (w, inl e))
    /\ (forall u, remoteUser = Some u -> u_isRoot u = false ->
                  e = Error "Only site admins can perform this operation").
Proof.
  intros Hguard. destruct w as [st c]. cbn in Hguard.
  unfold addFundsToOrg, bind, inDb, zoom, Collective_findByPk, gets, defined, throwIf.
  destruct remoteUser as [u|]; cbn.
  2:{ eexists. split; [reflexivity|]. discriminate. }
  destruct (u_isRoot u) eqn:Hroot; cbn.
  2:{ eexists. split; reflexivity. }
  destruct (Hguard u eq_refl Hroot) as [Hnone|Hnone].
  - rewrite Hnone.
    destruct (af_HostCollectiveId args ≫= fun i => Collectives st !! i); cbn;
      (eexists; split; [reflexivity|]; intros u' Hu'; injection Hu' as <-; congruence).
  - rewrite Hnone. cbn.
    eexists; split; [reflexivity|]; intros u' Hu'; injection Hu' as <-; congruence.
Qed.

(** X27. For a site admin and two collectives that exist, [addFundsToOrg]
    returns what [PaymentMethod.create] returns for a prepaid payment method
    of the service [opencollective] that belongs to the organization, has the
    currency of the host (not of the organization), the slug of the
    organization as customer id, the total amount as initial balance as it
    was given, no monthly limit, and a name that is never empty: the
    description when there is one, "Host funds" otherwise. *)
Theorem addFundsToOrg_values args u (w : World Ext) org host :
  u_isRoot u = true ->
  (af_CollectiveId args ≫= fun i => Collectives (db w) !! i) = Some org ->
  (af_HostCollectiveId args ≫= fun i => Collectives (db w) !! i) = Some host ->
  exists values,
    addFundsToOrg E create inOneYear uuid args (Some u) w = inDb (create values) w
    /\ pv_service values = "opencollective"
    /\ pv_type values = "prepaid"
    /\ pv_CollectiveId values = af_CollectiveId args
    /\ pv_data_HostCollectiveId values = af_HostCollectiveId args
    /\ pv_currency values = c_currency host
    /\ pv_customerId values = c_slug org
    /\ pv_initialBalance values = af_totalAmount args
    /\ pv_monthlyLimitPerMember values = None
    /\ pv_name values <> ""
    /\ (forall description, af_description args = Some description -> description <> "" ->
                            pv_name values = description)
    /\ (af_description args = None \/ af_description args = Some "" ->
        pv_name values = "Host funds").
Proof.
  intros Hroot Horg Hhost. destruct w as [st c]. cbn in Horg, Hhost.
  unfold addFundsToOrg, bind, inDb, zoom, Collective_findByPk, gets, defined, throwIf.
  cbn. rewrite Hroot. cbn. rewrite Horg, Hhost. cbn.
  eexists. split; [reflexivity|]. cbn. repeat (split; [reflexivity|]).
  unfold definedS. split; [|split].
  - destruct (af_description args) as [description|]; [|discriminate]. cbn.
    destruct (String.eqb description "") eqn:Hempty; cbn; [discriminate|].
    intros ->. discriminate.
  - intros description -> Hne. apply String.eqb_neq in Hne. rewrite Hne. reflexivity.
  - intros [->| ->]; reflexivity.
Qed.

End AddFundsProperties.

(** Alice is not a site admin; collective 99 does not exist. *)
Lemma addFundsToOrg_guard_witness :
  addFundsToOrg production createPrepaid "2027-11-02" "u-1"
    (mkAddFundsArgs None (Some 21) (Some 20) (Some 5000)) (Some alice) world
    = (world, inl (Error "Only site admins can perform this operation"))
  /\ exists e,
       addFundsToOrg production createPrepaid "2027-11-02" "u-1"
         (mkAddFundsArgs None (Some 99) (Some 20) (Some 5000)) (Some root) world
       = (world, inl e).
Proof.
  split.
  - destruct (addFundsToOrg_guard production "2027-11-02" "u-1"
                (mkAddFundsArgs None (Some 21) (Some 20) (Some 5000)) (Some alice) world)
      as (e & Hrun & Hkind).
    + intros u Hu Hroot. injection Hu as <-. discriminate.
    + rewrite (Hrun createPrepaid), (Hkind alice eq_refl eq_refl). reflexivity.
  - destruct (addFundsToOrg_guard production "2027-11-02" "u-1"
                (mkAddFundsArgs None (Some 99) (Some 20) (Some 5000)) (Some root) world)
      as (e & Hrun & _).
    + intros u _ _. left. reflexivity.
    + exists e. apply Hrun.
Defined.

(** The site admin credits the project with funds its host received. *)
Lemma addFundsToOrg_values_witness :
  exists values,
    addFundsToOrg production createPrepaid "2027-11-02" "u-1"
      (mkAddFundsArgs None (Some 21) (Some 20) (Some 5000)) (Some root) world
    = (world, inr (mkPaymentMethod 61 (Some 21)))
    /\ pv_name values = "Host funds"
    /\ pv_customerId values = "project".
Proof.
  destruct (addFundsToOrg_values production createPrepaid "2027-11-02" "u-1"
              (mkAddFundsArgs None (Some 21) (Some 20) (Some 5000)) root world
              project meetup eq_refl eq_refl eq_refl)
    as (values & Hrun & _ & _ & Hto & _ & _ & Hcustomer & _ & _ & _ & _ & Hname).
  exists values. split; [|split].
  - rewrite Hrun. unfold inDb, zoom, createPrepaid. cbn. rewrite Hto. reflexivity.
  - apply Hname. left. reflexivity.
  - exact Hcustomer.
Defined.
